(** * Turing machine simulator: engine, builder and parser

    A shallow embedding of [Simulator/tm.py], [Simulator/tmbuilder.py] and
    [Simulator/tmparser.py], followed by the properties of the design
    document that were checked against it.

    Conventions of the embedding:
    - a Python object with mutable attributes is a record; a method is a
      function from the object to an [outcome] (returned value or raised
      exception) paired with the object as the call leaves it, so that
      whatever a method changed before raising stays visible;
    - [frozenset]/[set] are [gset], the transition dictionary is a [gmap];
    - states and symbols are Python values ([pyval]): the integers and
      strings the sources themselves use;
    - calls made to attached observers are recorded, in order, in a trace
      kept next to the machine, each with what the observer could read
      from the machine at that moment. *)

From Stdlib Require Import ZArith String Ascii List Lia Bool.
From stdpp Require Import base decidable countable gmap sets list strings.

Open Scope Z_scope.

(** ** Python values, exceptions and methods *)

Module Py.

Inductive pyval :=
| PInt (z : Z)
| PStr (s : string).

#[global] Instance pyval_eq_dec : EqDecision pyval.
Proof. solve_decision. Defined.

Definition pyval_to_sum (v : pyval) : Z + string :=
  match v with PInt z => inl z | PStr s => inr s end.

Definition pyval_of_sum (x : Z + string) : pyval :=
  match x with inl z => PInt z | inr s => PStr s end.

#[global] Instance pyval_countable : Countable pyval.
Proof. refine (inj_countable' pyval_to_sum pyval_of_sum _). by intros []. Defined.

(** Truth value of an object in a condition: [0] and the empty string are
    false. *)
Definition truthy (v : pyval) : bool :=
  match v with
  | PInt z => negb (z =? 0)
  | PStr s => negb (String.eqb s EmptyString)
  end.

(** [hasattr(v, 'len')]: neither [int] nor [str] has an attribute of that
    name (the length protocol is [__len__]). *)
Definition hasattr_len (v : pyval) : bool :=
  match v with
  | PInt _ => false
  | PStr _ => false
  end.

(** [len(v)] where it is defined. *)
Definition len (v : pyval) : option Z :=
  match v with
  | PInt _ => None
  | PStr s => Some (Z.of_nat (String.length s))
  end.

(** The exceptions of [tmexceptions.py], the built-in ones the code can
    meet, and the plain [Exception] with its format string and the
    operands given to [%]. *)
Inductive exn :=
| HaltStateException
| UnsetTapeException
| InvalidSymbolException
| UnknownTransitionException
| IndexError
| KeyError
| TypeError
| Exception (fmt : string) (operands : list pyval).

Inductive outcome (A : Type) :=
| Return (a : A)
| Raise (e : exn).
Arguments Return {A} a.
Arguments Raise {A} e.

(** A method on an object of type [S] with a result in [A]. *)
Definition method (S A : Type) : Type := S -> outcome A * S.

Definition ret {S A} (a : A) : method S A := fun s => (Return a, s).

Definition raise {S A} (e : exn) : method S A := fun s => (Raise e, s).

Definition bind {S A B} (c : method S A) (k : A -> method S B) : method S B :=
  fun s =>
    match c s with
    | (Return a, s') => k a s'
    | (Raise e, s') => (Raise e, s')
    end.

(** [try: c  except ...: h e] where [h] re-raises what it does not handle. *)
Definition try_except {S A} (c : method S A) (h : exn -> method S A) : method S A :=
  fun s =>
    match c s with
    | (Return a, s') => (Return a, s')
    | (Raise e, s') => h e s'
    end.

Definition get {S} : method S S := fun s => (Return s, s).

Definition modify {S} (f : S -> S) : method S unit := fun s => (Return tt, f s).

(** [for x in xs: body x] *)
Fixpoint for_each {S A} (xs : list A) (body : A -> method S unit) : method S unit :=
  match xs with
  | [] => ret tt
  | x :: xs' => bind (body x) (fun _ => for_each xs' body)
  end.

End Py.

Import Py.

Notation "x <~ c ; k" := (bind c (fun x => k))
  (at level 20, c at level 100, k at level 200, only parsing).
Notation "' pat <~ c ; k" := (bind c (fun x => match x with pat => k end))
  (at level 20, pat pattern, c at level 100, k at level 200, only parsing).

(** ** The machine ([tm.py]) *)

Module TM.

Definition MOVE_RIGHT : Z := 1.
Definition MOVE_LEFT : Z := 2.
Definition NON_MOVEMENT : Z := 3.
Definition HEAD_MOVEMENTS : gset Z := {[ MOVE_LEFT; MOVE_RIGHT; NON_MOVEMENT ]}.

(** Observers are external objects; only their identity matters here. *)
Definition observer := nat.

Inductive callback :=
| onStepStart (current_state current_tape_symbol : pyval)
| onStepEnd (new_state writed_symbol : pyval) (movement : Z)
| onTapeChanged (head_pos : Z)
| onHeadMoved (head_pos old_head_pos : nat).

(** One call made to an observer, with the tape, head and current state
    the machine had while the call ran. *)
Record notification := {
  n_observer : observer;
  n_call : callback;
  n_tape : option (list pyval);
  n_head : nat;
  n_state : pyval
}.

(** The attributes of a [TuringMachine] object. A transition entry is typed
    as a pair mapped to a triple, so the shape test of [_checkData]
    ([len(k) != 2 or len(v) != 3]) cannot fail. The head is a natural
    number: the code only ever stores [0], a [head_pos] that is at least a
    length, or the result of decrementing a non-zero head. *)
Record TuringMachine := {
  _states : gset pyval;
  _in_alphabet : gset pyval;
  _tape_alphabet : gset pyval;
  _trans_function : gmap (pyval * pyval) (pyval * pyval * Z);
  _istate : pyval;
  _fstates : gset pyval;
  _hstate : pyval;
  _blank : pyval;
  _tape : option (list pyval);
  _head : nat;
  _cur_state : pyval;
  _nexecuted_steps : nat;
  _observers : list observer;
  calls : list notification
}.

Definition set_tape (t : option (list pyval)) (m : TuringMachine) : TuringMachine :=
  {| _states := _states m; _in_alphabet := _in_alphabet m;
     _tape_alphabet := _tape_alphabet m; _trans_function := _trans_function m;
     _istate := _istate m; _fstates := _fstates m; _hstate := _hstate m;
     _blank := _blank m; _tape := t; _head := _head m;
     _cur_state := _cur_state m; _nexecuted_steps := _nexecuted_steps m;
     _observers := _observers m; calls := calls m |}.

Definition set_head (h : nat) (m : TuringMachine) : TuringMachine :=
  {| _states := _states m; _in_alphabet := _in_alphabet m;
     _tape_alphabet := _tape_alphabet m; _trans_function := _trans_function m;
     _istate := _istate m; _fstates := _fstates m; _hstate := _hstate m;
     _blank := _blank m; _tape := _tape m; _head := h;
     _cur_state := _cur_state m; _nexecuted_steps := _nexecuted_steps m;
     _observers := _observers m; calls := calls m |}.

Definition set_cur_state (q : pyval) (m : TuringMachine) : TuringMachine :=
  {| _states := _states m; _in_alphabet := _in_alphabet m;
     _tape_alphabet := _tape_alphabet m; _trans_function := _trans_function m;
     _istate := _istate m; _fstates := _fstates m; _hstate := _hstate m;
     _blank := _blank m; _tape := _tape m; _head := _head m;
     _cur_state := q; _nexecuted_steps := _nexecuted_steps m;
     _observers := _observers m; calls := calls m |}.

Definition set_nexecuted_steps (n : nat) (m : TuringMachine) : TuringMachine :=
  {| _states := _states m; _in_alphabet := _in_alphabet m;
     _tape_alphabet := _tape_alphabet m; _trans_function := _trans_function m;
     _istate := _istate m; _fstates := _fstates m; _hstate := _hstate m;
     _blank := _blank m; _tape := _tape m; _head := _head m;
     _cur_state := _cur_state m; _nexecuted_steps := n;
     _observers := _observers m; calls := calls m |}.

Definition set_calls (l : list notification) (m : TuringMachine) : TuringMachine :=
  {| _states := _states m; _in_alphabet := _in_alphabet m;
     _tape_alphabet := _tape_alphabet m; _trans_function := _trans_function m;
     _istate := _istate m; _fstates := _fstates m; _hstate := _hstate m;
     _blank := _blank m; _tape := _tape m; _head := _head m;
     _cur_state := _cur_state m; _nexecuted_steps := _nexecuted_steps m;
     _observers := _observers m; calls := l |}.

(** The call [c] made to [obs] while the machine is [m]. *)
Definition seen (m : TuringMachine) (obs : observer) (c : callback) : notification :=
  {| n_observer := obs; n_call := c; n_tape := _tape m; n_head := _head m;
     n_state := _cur_state m |}.

(** [obs.<callback>(...)]: the call is appended to the trace together with
    the machine as the observer sees it. *)
Definition notify (obs : observer) (c : callback) : method TuringMachine unit :=
  modify (fun m => set_calls (calls m ++ [seen m obs c]) m).

Definition isAtHaltState (m : TuringMachine) : bool :=
  bool_decide (_cur_state m = _hstate m).

Definition isAtFinalState (m : TuringMachine) : bool :=
  bool_decide (_cur_state m ∈ _fstates m).

Definition isTapeSet (m : TuringMachine) : bool :=
  match _tape m with Some _ => true | None => false end.

Definition getCurrentState (m : TuringMachine) : pyval := _cur_state m.
Definition getHeadPosition (m : TuringMachine) : nat := _head m.
Definition getExecutedStepsCounter (m : TuringMachine) : nat := _nexecuted_steps m.

(** [self._trans_function[cur]], a [KeyError] when the key is absent. *)
Definition trans_lookup (cur : pyval * pyval) : method TuringMachine (pyval * pyval * Z) :=
  fun m =>
    match _trans_function m !! cur with
    | Some v => (Return v, m)
    | None => (Raise KeyError, m)
    end.

(** The head movement of [step], on a machine whose tape is [t]. *)
Definition move_head (movement : Z) (t : list pyval) : method TuringMachine unit :=
  fun m =>
    if movement =? MOVE_LEFT then
      if Nat.eqb (_head m) 0
      then (Return tt, set_tape (Some (_blank m :: t)) m)
      else (Return tt, set_head (_head m - 1)%nat m)
    else if movement =? MOVE_RIGHT then
      let m1 := set_head (_head m + 1)%nat m in
      if Nat.eqb (_head m1) (length t)
      then (Return tt, set_tape (Some (t ++ [_blank m1])) m1)
      else (Return tt, m1)
    else (Return tt, m).

(** [step]: the two guards, the read of [tape[head]] (an [IndexError] when
    the head is outside the list), the [onStepStart] calls, then the
    guarded block whose [KeyError] becomes [UnknownTransitionException]. *)
Definition step : method TuringMachine unit :=
  m <~ get ;
  if isAtHaltState m then raise HaltStateException
  else match _tape m with
  | None => raise UnsetTapeException
  | Some tape0 =>
    match tape0 !! _head m with
    | None => raise IndexError
    | Some sym0 =>
      let cur := (_cur_state m, sym0) in
      _ <~ for_each (_observers m) (fun obs => notify obs (onStepStart cur.1 cur.2)) ;
      try_except
        ( '(state, sym, movement) <~ trans_lookup cur ;
          let tape1 := <[ _head m := sym ]> tape0 in
          _ <~ modify (set_tape (Some tape1)) ;
          _ <~ modify (set_cur_state state) ;
          let prev_head_pos := _head m in
          _ <~ move_head movement tape1 ;
          _ <~ for_each (_observers m) (fun obs =>
            _ <~ notify obs (onStepEnd state sym movement) ;
            m' <~ get ;
            if negb (Nat.eqb prev_head_pos (_head m'))
            then notify obs (onHeadMoved (_head m') prev_head_pos)
            else ret tt) ;
          modify (fun m' => set_nexecuted_steps (_nexecuted_steps m' + 1)%nat m') )
        (fun e => match e with
                  | KeyError => raise UnknownTransitionException
                  | _ => raise e
                  end)
    end
  end.

(** The bounded loop of [run]: [for i in xrange(n): self.step()]. *)
Fixpoint run_for (n : nat) : method TuringMachine unit :=
  match n with
  | O => ret tt
  | S n' => _ <~ step ; run_for n'
  end.

(** The unbounded loop of [run]: [while not self.isAtHaltState(): self.step()].
    The loop need not end; [fuel] bounds the number of iterations tried and
    [None] means that it was not enough. *)
Fixpoint run_while (fuel : nat) (m : TuringMachine) : option (outcome unit * TuringMachine) :=
  if isAtHaltState m then Some (Return tt, m)
  else match fuel with
       | O => None
       | S fuel' =>
         match step m with
         | (Return _, m') => run_while fuel' m'
         | (Raise e, m') => Some (Raise e, m')
         end
       end.

(** [if max_steps:] on an argument that is [None] or an integer. *)
Definition max_steps_given (max_steps : option Z) : option Z :=
  match max_steps with
  | Some n => if n =? 0 then None else Some n
  | None => None
  end.

Definition except_HaltState (e : exn) : method TuringMachine Z :=
  match e with
  | HaltStateException => ret 0
  | _ => raise e
  end.

Definition except_UnknownTransition (e : exn) : method TuringMachine Z :=
  match e with
  | UnknownTransitionException => ret 2
  | _ => raise e
  end.

(** [run(max_steps)]; [xrange] of a negative number is empty. *)
Definition run (fuel : nat) (max_steps : option Z) (m : TuringMachine)
  : option (outcome Z * TuringMachine) :=
  match max_steps_given max_steps with
  | Some n =>
    Some (try_except
            (try_except (_ <~ run_for (Z.to_nat n) ; ret 1) except_HaltState)
            except_UnknownTransition m)
  | None =>
    match run_while fuel m with
    | None => None
    | Some (Return _, m') => Some (Return 0, m')
    | Some (Raise e, m') => Some (except_UnknownTransition e m')
    end
  end.

(** [setTape(tape, head_pos)] *)
Definition setTape (tape : list pyval) (head_pos : Z) : method TuringMachine unit :=
  m <~ get ;
  _ <~ for_each tape (fun s =>
         if bool_decide (s ∈ _tape_alphabet m) then ret tt
         else raise InvalidSymbolException) ;
  _ <~ (if head_pos <? 0 then
          _ <~ modify (set_tape (Some (replicate (Z.to_nat (- head_pos)) (_blank m) ++ tape))) ;
          modify (set_head 0%nat)
        else if head_pos >=? Z.of_nat (length tape) then
          let tape1 := match tape with [] => [_blank m] | _ => tape end in
          _ <~ modify (set_tape (Some (tape1 ++ replicate (Z.to_nat (head_pos - Z.of_nat (length tape)))
                                                          (_blank m)))) ;
          modify (set_head (Z.to_nat head_pos))
        else
          _ <~ modify (set_tape (Some tape)) ;
          modify (set_head (Z.to_nat head_pos))) ;
  for_each (_observers m) (fun obs => notify obs (onTapeChanged head_pos)).

Definition setAtInitialState : method TuringMachine unit :=
  modify (fun m => set_cur_state (_istate m) m).

Definition resetExecutedStepsCounter : method TuringMachine unit :=
  modify (set_nexecuted_steps 0%nat).

(** [isWordAccepted(word, max_steps)]: [Some true], [Some false] or [None]
    for Python's [True], [False] and [None]. An exception of [setTape] or
    [run] leaves the method at once. [old_tape] keeps a reference to the
    list object of the tape; [setTape] always binds [self._tape] to a list
    it has just built, so the steps of the run write to that new list and
    the saved one still has its content when it is put back. *)
Definition isWordAccepted (fuel : nat) (word : list pyval) (max_steps : option Z)
    (m : TuringMachine) : option (outcome (option bool) * TuringMachine) :=
  let old_tape := _tape m in
  let old_state := _cur_state m in
  let old_head := _head m in
  match setTape word 0 m with
  | (Raise e, m1) => Some (Raise e, m1)
  | (Return _, m1) =>
    match run fuel max_steps m1 with
    | None => None
    | Some (Raise e, m2) => Some (Raise e, m2)
    | Some (Return end_cond, m2) =>
      let m3 := set_tape old_tape m2 in
      let accepted :=
        if (end_cond =? 0) || (end_cond =? 2) then Some (isAtFinalState m3) else None in
      let m4 := set_tape old_tape m3 in
      let m5 := set_cur_state old_state m4 in
      let m6 := set_head old_head m5 in
      Some (Return accepted, m6)
    end
  end.

(** [getSymbolAt(pos)] on a machine whose tape is set. *)
Definition getSymbolAt (pos : Z) (m : TuringMachine) : option pyval :=
  match _tape m with
  | None => None
  | Some t =>
    if (pos <? 0) || (pos >=? Z.of_nat (length t)) then Some (_blank m)
    else t !! Z.to_nat pos
  end.

(** [attachObserver] for an observer that has the four callbacks with the
    expected numbers of parameters. *)
Definition attachObserver (obs : observer) : method TuringMachine unit :=
  modify (fun m =>
    if bool_decide (obs ∈ _observers m) then m
    else {| _states := _states m; _in_alphabet := _in_alphabet m;
            _tape_alphabet := _tape_alphabet m; _trans_function := _trans_function m;
            _istate := _istate m; _fstates := _fstates m; _hstate := _hstate m;
            _blank := _blank m; _tape := _tape m; _head := _head m;
            _cur_state := _cur_state m; _nexecuted_steps := _nexecuted_steps m;
            _observers := _observers m ++ [obs]; calls := calls m |}).

(** The value tested by [if inv_state:] / [if inv_sym:]: [None] or the
    last offending component assigned. *)
Definition offending (in_set : pyval -> bool) (key_part value_part : pyval) : option pyval :=
  let inv := None in
  let inv := if negb (in_set key_part) then Some key_part else inv in
  let inv := if negb (in_set value_part) then Some value_part else inv in
  inv.

Definition truthy_opt (v : option pyval) : bool :=
  match v with
  | None => false
  | Some x => truthy x
  end.

(** The body of the loop of [_checkData] for one entry [k -> v]. *)
Definition check_transition (m : TuringMachine) (movements : gset Z)
    (kv : (pyval * pyval) * (pyval * pyval * Z)) : method TuringMachine unit :=
  let '((k0, k1), (v0, v1, v2)) := kv in
  let inv_state := offending (fun q => bool_decide (q ∈ _states m)) k0 v0 in
  if truthy_opt inv_state then
    raise (Exception "Invalid state %s in transition %s -> %s"
                     (from_option (fun x => [x]) [] inv_state ++ [k0; k1; v0; v1; PInt v2]))
  else
    let inv_sym := offending (fun a => bool_decide (a ∈ _tape_alphabet m)) k1 v1 in
    if truthy_opt inv_sym then
      raise (Exception "Invalid symbol %s in transition %s -> %s"
                       (from_option (fun x => [x]) [] inv_sym ++ [k0; k1; v0; v1; PInt v2]))
    else if negb (bool_decide (v2 ∈ movements)) then
      raise (Exception "Invalid movement %s in transition %s -> %s"
                       [PInt v2; k0; k1; v0; v1; PInt v2])
    else ret tt.

(** [_checkData]. The entries are visited in the order [map_to_list] gives;
    the order only decides which of several violations is reported. *)
Definition _checkData : method TuringMachine unit :=
  m <~ get ;
  let movements : gset Z := {[ MOVE_LEFT; MOVE_RIGHT; NON_MOVEMENT ]} in
  if negb (bool_decide (_in_alphabet m ⊆ _tape_alphabet m)) then
    raise (Exception "Input alphabet is not subset of tape alphabet" [])
  else if negb (bool_decide (_blank m ∈ _tape_alphabet m)) then
    raise (Exception "Blank symbol is not into the tape alphabet" [])
  else if negb (bool_decide (_istate m ∈ _states m)) then
    raise (Exception "Initial state is not a valid state" [])
  else if negb (bool_decide (_fstates m ⊆ _states m)) then
    raise (Exception "Final states are not a subset of states" [])
  else
    for_each (map_to_list (_trans_function m)) (check_transition m movements).

(** [TuringMachine(states, in_alphabet, tape_alphabet, trans_function,
    istate, fstates, hstate, blank)]: the object when [__init__] returns,
    the exception when [_checkData] raises. *)
Definition __init__ (states in_alphabet tape_alphabet : gset pyval)
    (trans_function : gmap (pyval * pyval) (pyval * pyval * Z))
    (istate : pyval) (fstates : gset pyval) (hstate blank : pyval)
  : outcome TuringMachine :=
  let self :=
    {| _states := states; _in_alphabet := in_alphabet;
       _tape_alphabet := tape_alphabet; _trans_function := trans_function;
       _istate := istate; _fstates := fstates; _hstate := hstate;
       _blank := blank; _tape := None; _head := 0%nat;
       _cur_state := istate; _nexecuted_steps := 0%nat;
       _observers := []; calls := [] |} in
  match _checkData self with
  | (Return _, self') => Return self'
  | (Raise e, _) => Raise e
  end.

Definition set_observers (l : list observer) (m : TuringMachine) : TuringMachine :=
  {| _states := _states m; _in_alphabet := _in_alphabet m;
     _tape_alphabet := _tape_alphabet m; _trans_function := _trans_function m;
     _istate := _istate m; _fstates := _fstates m; _hstate := _hstate m;
     _blank := _blank m; _tape := _tape m; _head := _head m;
     _cur_state := _cur_state m; _nexecuted_steps := _nexecuted_steps m;
     _observers := l; calls := calls m |}.

(** [l.remove(x)] on a list that holds [x]: the first occurrence goes. *)
Fixpoint remove_first (x : observer) (l : list observer) : list observer :=
  match l with
  | [] => []
  | y :: l' => if bool_decide (y = x) then l' else y :: remove_first x l'
  end.

(** [detachObserver(observer)]: the [ValueError] of [remove] for an absent
    observer is caught and dropped. *)
Definition detachObserver (obs : observer) : method TuringMachine unit :=
  modify (fun m =>
    if bool_decide (obs ∈ _observers m) then set_observers (remove_first obs (_observers m)) m
    else m).

(** [getInternalTapeSize()]; [len(None)] is a [TypeError]. *)
Definition getInternalTapeSize (m : TuringMachine) : outcome nat :=
  match _tape m with
  | Some t => Return (length t)
  | None => Raise TypeError
  end.

(** [getTapeIterator()]: the symbols the iterator yields; [if self._tape:]
    is false for [None] and for an empty list. *)
Definition getTapeIterator (m : TuringMachine) : outcome (list pyval) :=
  match _tape m with
  | Some (a :: t) => Return (a :: t)
  | _ => Raise (Exception "Tape must be set before try to get its iterator" [])
  end.

End TM.

(** ** The builder ([tmbuilder.py]) *)

Module Builder.

(** The attributes of a [TuringMachineBuilder]; an attribute that may hold
    [None] is an [option]. *)
Record TuringMachineBuilder := {
  _states : gset pyval;
  _in_alphabet : gset pyval;
  _trans_function : gmap (pyval * pyval) (pyval * pyval * Z);
  _istate : option pyval;
  _fstates : gset pyval;
  _blank : option pyval;
  _haltstate : option pyval
}.

(** [TuringMachineBuilder()], also the state [clean()] restores. *)
Definition new : TuringMachineBuilder :=
  {| _states := ∅; _in_alphabet := ∅; _trans_function := ∅; _istate := None;
     _fstates := ∅; _blank := None; _haltstate := None |}.

Definition clean : method TuringMachineBuilder unit := modify (fun _ => new).

Definition add_state (q : pyval) (b : TuringMachineBuilder) : TuringMachineBuilder :=
  {| _states := _states b ∪ {[ q ]}; _in_alphabet := _in_alphabet b;
     _trans_function := _trans_function b; _istate := _istate b;
     _fstates := _fstates b; _blank := _blank b; _haltstate := _haltstate b |}.

Definition remove_state (q : pyval) (b : TuringMachineBuilder) : TuringMachineBuilder :=
  {| _states := _states b ∖ {[ q ]}; _in_alphabet := _in_alphabet b;
     _trans_function := _trans_function b; _istate := _istate b;
     _fstates := _fstates b; _blank := _blank b; _haltstate := _haltstate b |}.

Definition add_in_symbol (a : pyval) (b : TuringMachineBuilder) : TuringMachineBuilder :=
  {| _states := _states b; _in_alphabet := _in_alphabet b ∪ {[ a ]};
     _trans_function := _trans_function b; _istate := _istate b;
     _fstates := _fstates b; _blank := _blank b; _haltstate := _haltstate b |}.

Definition set_transition (k : pyval * pyval) (v : pyval * pyval * Z)
    (b : TuringMachineBuilder) : TuringMachineBuilder :=
  {| _states := _states b; _in_alphabet := _in_alphabet b;
     _trans_function := <[ k := v ]> (_trans_function b); _istate := _istate b;
     _fstates := _fstates b; _blank := _blank b; _haltstate := _haltstate b |}.

Definition set_istate (q : pyval) (b : TuringMachineBuilder) : TuringMachineBuilder :=
  {| _states := _states b; _in_alphabet := _in_alphabet b;
     _trans_function := _trans_function b; _istate := Some q;
     _fstates := _fstates b; _blank := _blank b; _haltstate := _haltstate b |}.

Definition add_fstate (q : pyval) (b : TuringMachineBuilder) : TuringMachineBuilder :=
  {| _states := _states b; _in_alphabet := _in_alphabet b;
     _trans_function := _trans_function b; _istate := _istate b;
     _fstates := _fstates b ∪ {[ q ]}; _blank := _blank b; _haltstate := _haltstate b |}.

Definition set_blank (a : pyval) (b : TuringMachineBuilder) : TuringMachineBuilder :=
  {| _states := _states b; _in_alphabet := _in_alphabet b;
     _trans_function := _trans_function b; _istate := _istate b;
     _fstates := _fstates b; _blank := Some a; _haltstate := _haltstate b |}.

Definition set_haltstate (q : pyval) (b : TuringMachineBuilder) : TuringMachineBuilder :=
  {| _states := _states b; _in_alphabet := _in_alphabet b;
     _trans_function := _trans_function b; _istate := _istate b;
     _fstates := _fstates b; _blank := _blank b; _haltstate := Some q |}.

(** [hasattr(v, 'len') and len(v) > 1]; [len] is only reached when the
    attribute test passes. *)
Definition has_len_above_1 (v : pyval) : method TuringMachineBuilder bool :=
  if hasattr_len v then
    match len v with
    | Some n => ret (n >? 1)
    | None => raise TypeError
    end
  else ret false.

(** [addTransition(state, symbol, new_state, new_symbol, movement)] *)
Definition addTransition (state symbol new_state new_symbol : pyval) (movement : Z)
  : method TuringMachineBuilder unit :=
  if negb (bool_decide (movement ∈ TM.HEAD_MOVEMENTS)) then
    raise (Exception "Invalid movement" [])
  else
    long1 <~ has_len_above_1 symbol ;
    long2 <~ (if long1 then ret true else has_len_above_1 new_symbol) ;
    if long2 then raise (Exception "Symbol length > 1" [])
    else
      _ <~ (b <~ get ;
            if negb (bool_decide (state ∈ _states b)) then modify (add_state state)
            else ret tt) ;
      _ <~ (b <~ get ;
            if negb (bool_decide (Some symbol = _blank b))
               && negb (bool_decide (symbol ∈ _in_alphabet b))
            then modify (add_in_symbol symbol) else ret tt) ;
      _ <~ (b <~ get ;
            if negb (bool_decide (new_state ∈ _states b)) then modify (add_state new_state)
            else ret tt) ;
      _ <~ (b <~ get ;
            if negb (bool_decide (Some new_symbol = _blank b))
               && negb (bool_decide (new_symbol ∈ _in_alphabet b))
            then modify (add_in_symbol new_symbol) else ret tt) ;
      modify (set_transition (state, symbol) (new_state, new_symbol, movement)).

Definition addFinalState (state : pyval) : method TuringMachineBuilder unit :=
  _ <~ (b <~ get ;
        if negb (bool_decide (state ∈ _states b)) then modify (add_state state) else ret tt) ;
  b <~ get ;
  if negb (bool_decide (state ∈ _fstates b)) then modify (add_fstate state) else ret tt.

Definition setInitialState (state : pyval) : method TuringMachineBuilder unit :=
  _ <~ (b <~ get ;
        if negb (bool_decide (state ∈ _states b)) then modify (add_state state) else ret tt) ;
  modify (set_istate state).

Definition hasInitialState (b : TuringMachineBuilder) : bool :=
  match _istate b with Some _ => true | None => false end.

Definition hasHaltState (b : TuringMachineBuilder) : bool :=
  match _haltstate b with Some _ => true | None => false end.

Definition hasBlankSymbol (b : TuringMachineBuilder) : bool :=
  match _blank b with Some _ => true | None => false end.

(** [setBlankSymbol(blank_sym)]: [not blank_sym or len(blank_sym) > 1];
    [len] of an integer is a [TypeError]. *)
Definition setBlankSymbol (blank_sym : pyval) : method TuringMachineBuilder unit :=
  if negb (truthy blank_sym) then raise (Exception "Symbol must be one char length" [])
  else match len blank_sym with
       | None => raise TypeError
       | Some n =>
         if n >? 1 then raise (Exception "Symbol must be one char length" [])
         else modify (set_blank blank_sym)
       end.

(** [setHaltState(haltstate)]; [set.remove] of an absent element is a
    [KeyError]. *)
Definition setHaltState (haltstate : pyval) : method TuringMachineBuilder unit :=
  b <~ get ;
  _ <~ match _haltstate b with
       | Some old =>
         let old_remains :=
           existsb (fun kv : (pyval * pyval) * (pyval * pyval * Z) =>
                      bool_decide (kv.1.1 = old) || bool_decide (kv.2.1.1 = old))
                   (map_to_list (_trans_function b)) in
         if negb old_remains then
           if bool_decide (old ∈ _states b) then modify (remove_state old)
           else raise KeyError
         else ret tt
       | None => ret tt
       end ;
  _ <~ modify (set_haltstate haltstate) ;
  modify (add_state haltstate).

(** [create()]: the machine, or the exception raised on the way. *)
Definition create (b : TuringMachineBuilder) : outcome TM.TuringMachine :=
  match _istate b with
  | None => Raise (Exception "It is necessary to specify an initial state" [])
  | Some istate =>
    match _blank b with
    | None => Raise (Exception "It is necessary to specify the blank symbol" [])
    | Some blank =>
      match _haltstate b with
      | None => Raise (Exception "It is necessary to specify the halt state" [])
      | Some haltstate =>
        let tape_alphabet := _in_alphabet b ∪ {[ blank ]} in
        TM.__init__ (_states b) (_in_alphabet b) tape_alphabet (_trans_function b)
                    istate (_fstates b) haltstate blank
      end
    end
  end.

End Builder.

(** ** Regular expressions as [tmparser.py] uses them

    The patterns of the parser are sequences of literals, character
    classes with an optional greedy [*] or [+], named groups around one
    such class, and a final [$]. [re.match] anchors at the start of the
    string and backtracks over the greedy repetitions, longest first. *)

Module Re.

Definition cls := ascii -> bool.

Inductive item :=
| lit (text : string)
| star (c : cls)
| plus (c : cls)
| group_one (name : string) (c : cls)
| group_plus (name : string) (c : cls)
| eol.

Definition regex := list item.

Definition code (c : ascii) : N := N_of_ascii c.

Definition between (lo hi : ascii) (c : ascii) : bool :=
  ((code lo <=? code c) && (code c <=? code hi))%N.

(** [\w] on byte strings without flags: letters, digits and underscore. *)
Definition word_char : cls := fun c =>
  between "a" "z" c || between "A" "Z" c || between "0" "9" c || Ascii.eqb c "_".

(** [\s]: space, tab, newline, carriage return, form feed, vertical tab. *)
Definition space_char : cls := fun c =>
  Ascii.eqb c " " || between "009" "013" c.

(** [.]: anything but a newline. *)
Definition any_char : cls := fun c => negb (Ascii.eqb c "010").

(** A class listing its members, as in [[ ]] or [[<>_]]. *)
Definition one_of (members : string) : cls := fun c =>
  existsb (Ascii.eqb c) (list_ascii_of_string members).

Fixpoint strip_prefix (text s : string) : option string :=
  match text with
  | EmptyString => Some s
  | String a text' =>
    match s with
    | String b s' => if Ascii.eqb a b then strip_prefix text' s' else None
    | EmptyString => None
    end
  end.

(** [$] matches at the end of the string and before a final newline. *)
Definition at_end (s : string) : bool :=
  match s with
  | EmptyString => true
  | String c EmptyString => Ascii.eqb c "010"
  | _ => false
  end.

Definition is_empty (s : string) : bool :=
  match s with EmptyString => true | _ => false end.

(** A greedy repetition of [c] followed by the rest of the pattern [k]:
    take a character and go on if the whole match then succeeds, else
    stop here. [taken] is what the repetition has consumed. *)
Fixpoint greedy {R} (c : cls) (s taken : string) (k : string -> string -> option R)
  : option R :=
  match s with
  | String a s' =>
    if c a then
      match greedy c s' (taken +:+ String a EmptyString) k with
      | Some r => Some r
      | None => k taken s
      end
    else k taken s
  | EmptyString => k taken s
  end.

Definition groups := list (string * string).

Fixpoint match_from (re : regex) (s : string) (gs : groups) : option groups :=
  match re with
  | [] => Some gs
  | lit text :: re' =>
    match strip_prefix text s with
    | Some s' => match_from re' s' gs
    | None => None
    end
  | star c :: re' => greedy c s EmptyString (fun _ s' => match_from re' s' gs)
  | plus c :: re' =>
    greedy c s EmptyString
           (fun taken s' => if is_empty taken then None else match_from re' s' gs)
  | group_one name c :: re' =>
    match s with
    | String a s' =>
      if c a then match_from re' s' ((name, String a EmptyString) :: gs) else None
    | EmptyString => None
    end
  | group_plus name c :: re' =>
    greedy c s EmptyString
           (fun taken s' =>
              if is_empty taken then None else match_from re' s' ((name, taken) :: gs))
  | eol :: re' => if at_end s then match_from re' s gs else None
  end.

(** [re.match(data)]: the groups of the match, or [None]. *)
Definition match_ (re : regex) (data : string) : option groups := match_from re data [].

(** [m.group(name)] for a group that took part in the match. *)
Fixpoint group (name : string) (gs : groups) : string :=
  match gs with
  | [] => EmptyString
  | (n, v) :: gs' => if String.eqb n name then v else group name gs'
  end.

End Re.

(** ** The parser ([tmparser.py]) *)

Module Parser.
Import Re.

Definition MOVE_RIGHT : string := ">".
Definition MOVE_LEFT : string := "<".
Definition NON_MOVEMENT : string := "_".

Record TuringMachineParser := {
  _builder : Builder.TuringMachineBuilder
}.

Definition new : TuringMachineParser := {| _builder := Builder.new |}.

(** A call [self._builder.f(...)]. *)
Definition on_builder {A} (f : method Builder.TuringMachineBuilder A)
  : method TuringMachineParser A :=
  fun p =>
    match f (_builder p) with
    | (r, b') => (r, {| _builder := b' |})
    end.

(** ['[ ]*%\s*'] *)
Definition _comment_line_re : regex :=
  [ star (one_of " "); lit "%"; star space_char ].

(** ['[\s]*BLANK[\s]+(?P<symbol>.)\s*$'] *)
Definition _blank_symbol_re : regex :=
  [ star space_char; lit "BLANK"; plus space_char; group_one "symbol" any_char;
    star space_char; eol ].

(** ['[ ]*HALT[ ]+(?P<state>\w+)\s*$'] *)
Definition _halt_state_re : regex :=
  [ star (one_of " "); lit "HALT"; plus (one_of " "); group_plus "state" word_char;
    star space_char; eol ].

(** ['[ ]*FINAL[ ]+(?P<state>\w+)\s*$'] *)
Definition _final_state_re : regex :=
  [ star (one_of " "); lit "FINAL"; plus (one_of " "); group_plus "state" word_char;
    star space_char; eol ].

(** ['[ ]*INITIAL[ ]+(?P<state>\w)\s*$'] *)
Definition _inital_state_re : regex :=
  [ star (one_of " "); lit "INITIAL"; plus (one_of " "); group_one "state" word_char;
    star space_char; eol ].

(** ['\s*(?P<state>\w+)\s*,\s*(?P<symbol>.)\s*->\s*(?P<nstate>\w+)\s*,\s*'
     '(?P<nsymbol>.)\s*,\s*(?P<movement>[<>_])\s*$'] *)
Definition _transition_re : regex :=
  [ star space_char; group_plus "state" word_char; star space_char; lit ",";
    star space_char; group_one "symbol" any_char; star space_char; lit "->";
    star space_char; group_plus "nstate" word_char; star space_char; lit ",";
    star space_char; group_one "nsymbol" any_char; star space_char; lit ",";
    star space_char; group_one "movement" (one_of (MOVE_LEFT +:+ MOVE_RIGHT +:+ NON_MOVEMENT));
    star space_char; eol ].

Definition clean : method TuringMachineParser unit := on_builder Builder.clean.

Definition _parseComment (data : string) : method TuringMachineParser bool :=
  match match_ _comment_line_re data with
  | Some _ => ret true
  | None => ret false
  end.

Definition _parseBlankSymbol (data : string) : method TuringMachineParser bool :=
  match match_ _blank_symbol_re data with
  | Some mbs =>
    p <~ get ;
    if Builder.hasBlankSymbol (_builder p) then
      raise (Exception "Blank symbol can only be defined once" [])
    else
      _ <~ on_builder (Builder.setBlankSymbol (PStr (group "symbol" mbs))) ;
      ret true
  | None => ret false
  end.

Definition _parseHaltState (data : string) : method TuringMachineParser bool :=
  match match_ _halt_state_re data with
  | Some mhs =>
    p <~ get ;
    if Builder.hasHaltState (_builder p) then
      raise (Exception "Halt state can only be defined once" [])
    else
      _ <~ on_builder (Builder.setHaltState (PStr (group "state" mhs))) ;
      ret true
  | None => ret false
  end.

Definition _parseFinalState (data : string) : method TuringMachineParser bool :=
  match match_ _final_state_re data with
  | Some mfs =>
    _ <~ on_builder (Builder.addFinalState (PStr (group "state" mfs))) ;
    ret true
  | None => ret false
  end.

Definition _parseInitialState (data : string) : method TuringMachineParser bool :=
  match match_ _inital_state_re data with
  | Some mis =>
    p <~ get ;
    if Builder.hasInitialState (_builder p) then
      raise (Exception "Initial state can only be defined once" [])
    else
      _ <~ on_builder (Builder.setInitialState (PStr (group "state" mis))) ;
      ret true
  | None => ret false
  end.

Definition _parseTransition (data : string) : method TuringMachineParser bool :=
  match match_ _transition_re data with
  | Some mt =>
    let move_sym := group "movement" mt in
    let move :=
      if String.eqb move_sym MOVE_LEFT then TM.MOVE_LEFT
      else if String.eqb move_sym MOVE_RIGHT then TM.MOVE_RIGHT
      else TM.NON_MOVEMENT in
    _ <~ on_builder (Builder.addTransition (PStr (group "state" mt))
                                           (PStr (group "symbol" mt))
                                           (PStr (group "nstate" mt))
                                           (PStr (group "nsymbol" mt))
                                           move) ;
    ret true
  | None => ret false
  end.

(** [parseLine(data)]: the first expression that matches wins. *)
Definition parseLine (data : string) : method TuringMachineParser unit :=
  t <~ _parseTransition data ;
  if t then ret tt else
  c <~ _parseComment data ;
  if c then ret tt else
  f <~ _parseFinalState data ;
  if f then ret tt else
  i <~ _parseInitialState data ;
  if i then ret tt else
  b <~ _parseBlankSymbol data ;
  if b then ret tt else
  h <~ _parseHaltState data ;
  if h then ret tt else
  raise (Exception "Unrecognized pattern: %s" [PStr data]).

Definition create (p : TuringMachineParser) : outcome TM.TuringMachine :=
  Builder.create (_builder p).

(** [e.message] as far as the embedding keeps messages: the format string
    and the operands of a plain [Exception]. *)
Definition message (e : exn) : list pyval :=
  match e with
  | Exception fmt operands => PStr fmt :: operands
  | _ => []
  end.

(** The loop of [_parse] from the line numbered [line] (counted from 0):
    an empty line is skipped, any exception of [parseLine] is raised again
    with the line number, counted from 1, in front. The call that sets up
    logging is left out. *)
Fixpoint _parse_from (line : nat) (parse_data : list string)
  : method TuringMachineParser unit :=
  match parse_data with
  | [] => ret tt
  | data :: rest =>
    if is_empty data then _parse_from (S line) rest
    else
      _ <~ try_except (parseLine data)
             (fun e => raise (Exception "Line %d, %s"
                                        (PInt (Z.of_nat line + 1) :: message e))) ;
      _parse_from (S line) rest
  end.

(** [_parse(parse_data)] on the lines an iterable yields. *)
Definition _parse (parse_data : list string) : method TuringMachineParser unit :=
  _parse_from 0 parse_data.

End Parser.

(** ** The machine of the self-test of [tm.py] (binary incrementer) *)

Module Incrementer.
Import TM.

Definition hstate : pyval := PStr "HALT".
Definition states : gset pyval := {[ PInt 1; PInt 2; PInt 3; hstate ]}.
Definition in_alphabet : gset pyval := {[ PInt 0; PInt 1 ]}.
Definition blank : pyval := PStr "#".
Definition tape_alphabet : gset pyval := {[ PInt 0; PInt 1; blank ]}.
Definition istate : pyval := PInt 1.
Definition fstates : gset pyval := {[ PInt 2 ]}.

Definition trans_function : gmap (pyval * pyval) (pyval * pyval * Z) :=
  list_to_map
    [ ((PInt 1, PInt 0), (PInt 2, PInt 1, MOVE_RIGHT));
      ((PInt 1, PInt 1), (PInt 2, PInt 0, MOVE_RIGHT));
      ((PInt 2, PInt 0), (PInt 1, PInt 0, NON_MOVEMENT));
      ((PInt 2, PInt 1), (PInt 3, PInt 1, MOVE_RIGHT));
      ((PInt 3, PInt 0), (hstate, PInt 0, NON_MOVEMENT));
      ((PInt 3, PInt 1), (hstate, PInt 1, NON_MOVEMENT));
      ((PInt 3, blank), (hstate, blank, NON_MOVEMENT)) ].

Definition tape : list pyval := [PInt 1; PInt 0; PInt 0; PInt 0; PInt 0; PInt 1].

(** The object [__init__] leaves when [_checkData] accepts the data. *)
Definition machine : TuringMachine :=
  {| _states := states; _in_alphabet := in_alphabet;
     _tape_alphabet := tape_alphabet; _trans_function := trans_function;
     _istate := istate; _fstates := fstates; _hstate := hstate;
     _blank := blank; _tape := None; _head := 0%nat;
     _cur_state := istate; _nexecuted_steps := 0%nat;
     _observers := []; calls := [] |}.

(** The machine after [setTape(tape)]. *)
Definition loaded : TuringMachine := snd (setTape tape 0 machine).

(** The loaded machine after [setTape(word)] and [run()], as inside
    [isWordAccepted(word)]. *)
Definition after_run (word : list pyval) : TuringMachine :=
  match run 100 None (snd (setTape word 0 loaded)) with
  | Some (_, m) => m
  | None => loaded
  end.

(** The loaded machine after [isWordAccepted(word)]. *)
Definition after_query (word : list pyval) : TuringMachine :=
  match isWordAccepted 100 word None loaded with
  | Some (_, m) => m
  | None => loaded
  end.

(** The loaded machine after [attachObserver] of an observer. *)
Definition observed : TuringMachine := snd (attachObserver 0%nat loaded).

End Incrementer.

(** ** A machine whose initial state is its halt state *)

Module Halted.
Import TM.

Definition machine : TuringMachine :=
  {| _states := {[ PStr "H" ]}; _in_alphabet := ∅;
     _tape_alphabet := {[ PStr "#" ]}; _trans_function := ∅;
     _istate := PStr "H"; _fstates := ∅; _hstate := PStr "H";
     _blank := PStr "#"; _tape := None; _head := 0%nat;
     _cur_state := PStr "H"; _nexecuted_steps := 0%nat;
     _observers := []; calls := [] |}.

End Halted.

(** ** Notions used to state the properties *)

Module Facts.
Import TM.

(** The machine once a transition to [q] writing [s] and moving by [mv]
    has been applied to [m], whose tape is [t]. *)
Definition transition_applied (m : TuringMachine) (t : list pyval) (q s : pyval) (mv : Z)
  : TuringMachine :=
  let t1 := <[ _head m := s ]> t in
  snd (move_head mv t1 (set_cur_state q (set_tape (Some t1) m))).

(** The calls one observer receives at the end of a step that leaves the
    machine as [m'] after the head was at [prev]. *)
Definition step_end_calls (m' : TuringMachine) (prev : nat) (q s : pyval) (mv : Z)
    (o : observer) : list notification :=
  seen m' o (onStepEnd q s mv)
  :: (if Nat.eqb prev (_head m') then [] else [seen m' o (onHeadMoved (_head m') prev)]).

(** [k] successful calls of [step()] lead from the first machine to the
    second. *)
Inductive steps : nat -> TuringMachine -> TuringMachine -> Prop :=
| steps_O (m : TuringMachine) : steps 0 m m
| steps_S (k : nat) (m m1 m' : TuringMachine) :
    step m = (Return tt, m1) -> steps k m1 m' -> steps (S k) m m'.

(** The tape is set and the head is on one of its cells. *)
Definition head_on_tape (m : TuringMachine) : Prop :=
  exists t, _tape m = Some t /\ (_head m < length t)%nat.

(** The object [__init__] has filled in when it calls [_checkData], and
    returns when the check passes. *)
Definition fresh (states in_alphabet tape_alphabet : gset pyval)
    (trans_function : gmap (pyval * pyval) (pyval * pyval * Z))
    (istate : pyval) (fstates : gset pyval) (hstate blank : pyval) : TuringMachine :=
  {| _states := states; _in_alphabet := in_alphabet;
     _tape_alphabet := tape_alphabet; _trans_function := trans_function;
     _istate := istate; _fstates := fstates; _hstate := hstate;
     _blank := blank; _tape := None; _head := 0%nat;
     _cur_state := istate; _nexecuted_steps := 0%nat;
     _observers := []; calls := [] |}.

(** The three tests of the loop of [_checkData] on one entry. *)
Definition entry_passes (m : TuringMachine)
    (kv : (pyval * pyval) * (pyval * pyval * Z)) : bool :=
  let '((k0, k1), (v0, v1, v2)) := kv in
  negb (truthy_opt (offending (fun q => bool_decide (q ∈ _states m)) k0 v0))
  && negb (truthy_opt (offending (fun a => bool_decide (a ∈ _tape_alphabet m)) k1 v1))
  && bool_decide (v2 ∈ HEAD_MOVEMENTS).

(** All the tests of [_checkData]. *)
Definition data_accepted (m : TuringMachine) : bool :=
  bool_decide (_in_alphabet m ⊆ _tape_alphabet m)
  && bool_decide (_blank m ∈ _tape_alphabet m)
  && bool_decide (_istate m ∈ _states m)
  && bool_decide (_fstates m ⊆ _states m)
  && forallb (entry_passes m) (map_to_list (_trans_function m)).

(** Invariants 6, 7 and 8 of the data model. *)
Definition transition_states_in (states : gset pyval)
    (tf : gmap (pyval * pyval) (pyval * pyval * Z)) : Prop :=
  map_Forall (fun k v => k.1 ∈ states /\ v.1.1 ∈ states) tf.

Definition transition_symbols_in (tape_alphabet : gset pyval)
    (tf : gmap (pyval * pyval) (pyval * pyval * Z)) : Prop :=
  map_Forall (fun k v => k.2 ∈ tape_alphabet /\ v.1.2 ∈ tape_alphabet) tf.

Definition transition_movements_legal
    (tf : gmap (pyval * pyval) (pyval * pyval * Z)) : Prop :=
  map_Forall (fun _ v => v.2 ∈ HEAD_MOVEMENTS) tf.

(** The component of an entry that the test of [_checkData] reports as
    outside [inside] (the states, or the tape alphabet) counts as true in a
    condition: the new state or written symbol [v] when it is outside,
    otherwise the source state or read symbol [k] when that is outside. *)
Definition reported_outside (inside : gset pyval) (k v : pyval) : Prop :=
  ((v ∉ inside) /\ truthy v = true)
  \/ ((v ∈ inside) /\ (k ∉ inside) /\ truthy k = true).

(** What the constructor fixes and [attachObserver] extends: everything but
    tape, head, current state, counter and the trace of calls. *)
Definition description (m : TuringMachine) :=
  (_states m, _in_alphabet m, _tape_alphabet m, _trans_function m,
   _istate m, _fstates m, _hstate m, _blank m, _observers m).

(** The symbol at the cell [i] places to the right of the head (to the left
    for a negative [i]) of the unbounded tape the list stands for: every
    cell outside the list holds the blank. *)
Definition cell (m : TuringMachine) (i : Z) : pyval :=
  default (_blank m) (getSymbolAt (Z.of_nat (_head m) + i) m).

(** The symbol at the integer position [z] of the list [t] extended with the
    blank [b] on both sides. *)
Definition read (b : pyval) (t : list pyval) (z : Z) : pyval :=
  if (z <? 0) || (z >=? Z.of_nat (length t)) then b else default b (t !! Z.to_nat z).

(** The displacement of the head a movement stands for. *)
Definition displacement (mv : Z) : Z :=
  if mv =? MOVE_LEFT then -1 else if mv =? MOVE_RIGHT then 1 else 0.

(** The string starts with no character of the class. *)
Definition starts_outside (c : Re.cls) (s : string) : Prop :=
  match s with
  | EmptyString => True
  | String a _ => c a = false
  end.

(** Every character of the string is in the class. *)
Fixpoint all_in (c : Re.cls) (s : string) : Prop :=
  match s with
  | EmptyString => True
  | String a s' => c a = true /\ all_in c s'
  end.

(** A transition of the builder names the state [q], as source or target. *)
Definition mentions (tf : gmap (pyval * pyval) (pyval * pyval * Z)) (q : pyval) : Prop :=
  exists k v, tf !! k = Some v /\ (k.1 = q \/ v.1.1 = q).

(** What the builder has collected fits together: the states hold the
    initial state, the final states and the states of every transition, the
    symbols of every transition are in the input alphabet or are the blank,
    and every movement is legal. *)
Definition consistent (b : Builder.TuringMachineBuilder) : Prop :=
  (forall q, Builder._istate b = Some q -> q ∈ Builder._states b)
  /\ (forall q, Builder._haltstate b = Some q -> q ∈ Builder._states b)
  /\ Builder._fstates b ⊆ Builder._states b
  /\ map_Forall (fun k v =>
        k.1 ∈ Builder._states b /\ v.1.1 ∈ Builder._states b
        /\ (k.2 ∈ Builder._in_alphabet b \/ Some k.2 = Builder._blank b)
        /\ (v.1.2 ∈ Builder._in_alphabet b \/ Some v.1.2 = Builder._blank b)
        /\ v.2 ∈ HEAD_MOVEMENTS) (Builder._trans_function b).

(** The characters that are no comma. *)
Definition no_comma : Re.cls := fun a => negb (Ascii.eqb a ",").

(** The ways a line fails. *)
Definition failure_kind (data : string) (b : Builder.TuringMachineBuilder)
    (fmt : string) (ops : list pyval) : Prop :=
  (fmt = "Initial state can only be defined once" /\ ops = [] /\ Builder._istate b <> None)
  \/ (fmt = "Blank symbol can only be defined once" /\ ops = [] /\ Builder._blank b <> None)
  \/ (fmt = "Halt state can only be defined once" /\ ops = []
      /\ Builder._haltstate b <> None)
  \/ (fmt = "Unrecognized pattern: %s" /\ ops = [PStr data]).

(** What a line does to the builder [b] of the parser: one of the
    builder's operations, nothing for a comment, or a failure. *)
Inductive line_effect (data : string) (b : Builder.TuringMachineBuilder)
  : outcome unit * Parser.TuringMachineParser -> Prop :=
| line_transition st sy ns nsy mv :
    mv ∈ TM.HEAD_MOVEMENTS ->
    line_effect data b
      (Return tt, {| Parser._builder := snd (Builder.addTransition st sy ns nsy mv b) |})
| line_comment : line_effect data b (Return tt, {| Parser._builder := b |})
| line_final q :
    line_effect data b (Return tt, {| Parser._builder := snd (Builder.addFinalState q b) |})
| line_initial q :
    Builder._istate b = None ->
    line_effect data b (Return tt, {| Parser._builder := snd (Builder.setInitialState q b) |})
| line_blank a :
    Builder._blank b = None ->
    line_effect data b (Return tt, {| Parser._builder := snd (Builder.setBlankSymbol a b) |})
| line_halt q :
    Builder._haltstate b = None ->
    line_effect data b (Return tt, {| Parser._builder := snd (Builder.setHaltState q b) |})
| line_failure fmt ops :
    failure_kind data b fmt ops ->
    line_effect data b (Raise (Exception fmt ops), {| Parser._builder := b |}).

End Facts.

Section StepFacts.
Import TM Facts.

Lemma for_each_notify (obs : list observer) (c : callback) (m : TuringMachine) :
  for_each obs (fun o => notify o c) m
  = (Return tt, set_calls (calls m ++ map (fun o => seen m o c) obs) m).
Proof.
  revert m. induction obs as [|o obs IH]; intros m; cbn.
  - rewrite app_nil_r. destruct m; reflexivity.
  - unfold bind, notify, modify at 1. cbn. rewrite IH. cbn.
    rewrite <- app_assoc. reflexivity.
Qed.

Lemma move_head_returns (mv : Z) (t : list pyval) (m : TuringMachine) :
  fst (move_head mv t m) = Return tt.
Proof.
  unfold move_head.
  destruct (mv =? MOVE_LEFT); [destruct (Nat.eqb _ _); reflexivity|].
  destruct (mv =? MOVE_RIGHT); [|reflexivity].
  cbn. destruct (Nat.eqb _ _); reflexivity.
Qed.

Lemma move_head_nexecuted_steps (mv : Z) (t : list pyval) (m : TuringMachine) :
  _nexecuted_steps (snd (move_head mv t m)) = _nexecuted_steps m.
Proof.
  unfold move_head.
  destruct (mv =? MOVE_LEFT); [destruct (Nat.eqb _ _); reflexivity|].
  destruct (mv =? MOVE_RIGHT); [|reflexivity].
  cbn. destruct (Nat.eqb _ _); reflexivity.
Qed.

Lemma move_head_set_calls (mv : Z) (t : list pyval) (l : list notification) (m : TuringMachine) :
  move_head mv t (set_calls l m) = (Return tt, set_calls l (snd (move_head mv t m))).
Proof.
  unfold move_head. cbn.
  destruct (mv =? MOVE_LEFT); [destruct (Nat.eqb _ _); reflexivity|].
  destruct (mv =? MOVE_RIGHT); [|reflexivity].
  destruct (Nat.eqb _ _); reflexivity.
Qed.

Lemma for_each_step_end (obs : list observer) (prev : nat) (q s : pyval) (mv : Z)
    (m : TuringMachine) :
  for_each obs (fun o =>
      _ <~ notify o (onStepEnd q s mv) ;
      m' <~ get ;
      if negb (Nat.eqb prev (_head m'))
      then notify o (onHeadMoved (_head m') prev)
      else ret tt) m
  = (Return tt, set_calls (calls m ++ flat_map (step_end_calls m prev q s mv) obs) m).
Proof.
  revert m. induction obs as [|o obs IH]; intros m.
  - cbn. rewrite app_nil_r. destruct m; reflexivity.
  - cbn [for_each flat_map].
    unfold bind at 1. unfold bind at 1. unfold notify at 1, modify at 1.
    unfold bind at 1. unfold get at 1.
    set (m1 := set_calls (calls m ++ [seen m o (onStepEnd q s mv)]) m).
    unfold step_end_calls at 1.
    change (_head m1) with (_head m).
    destruct (Nat.eqb prev (_head m)) eqn:E; cbn [negb].
    + unfold ret at 1. rewrite IH. subst m1.
      cbn [calls set_calls]. rewrite <- !app_assoc. reflexivity.
    + unfold notify at 1, modify at 1. rewrite IH. subst m1.
      cbn [calls set_calls]. rewrite <- !app_assoc. reflexivity.
Qed.

Lemma step_success (m : TuringMachine) (t : list pyval) (sym q s : pyval) (mv : Z) :
  isAtHaltState m = false ->
  _tape m = Some t ->
  t !! _head m = Some sym ->
  _trans_function m !! (_cur_state m, sym) = Some (q, s, mv) ->
  let m' := transition_applied m t q s mv in
  step m
  = (Return tt,
     set_nexecuted_steps (_nexecuted_steps m + 1)%nat
       (set_calls (calls m
                   ++ map (fun o => seen m o (onStepStart (_cur_state m) sym)) (_observers m)
                   ++ flat_map (step_end_calls m' (_head m) q s mv) (_observers m)) m')).
Proof.
  intros Hh Ht Hs Hl m'. unfold step, bind at 1, get at 1.
  rewrite Hh, Ht, Hs. unfold bind at 1. rewrite for_each_notify.
  unfold try_except, bind at 1, trans_lookup. cbn [_trans_function set_calls]. rewrite Hl.
  unfold bind at 1, modify at 1. unfold bind at 1, modify at 1.
  unfold bind at 1.
  match goal with
  | |- context [move_head ?a ?b (set_cur_state ?c (set_tape ?x (set_calls ?l ?m0)))] =>
    change (move_head a b (set_cur_state c (set_tape x (set_calls l m0))))
      with (move_head a b (set_calls l (set_cur_state c (set_tape x m0))))
  end.
  rewrite move_head_set_calls.
  unfold bind at 1. rewrite for_each_step_end. unfold modify.
  subst m'. unfold transition_applied.
  cbn [calls set_calls fst snd _nexecuted_steps].
  rewrite move_head_nexecuted_steps, <- app_assoc. reflexivity.
Qed.

Lemma step_halted (m : TuringMachine) :
  isAtHaltState m = true -> step m = (Raise HaltStateException, m).
Proof. intros H. unfold step, bind, get. rewrite H. reflexivity. Qed.

Lemma step_unset_tape (m : TuringMachine) :
  isAtHaltState m = false -> _tape m = None -> step m = (Raise UnsetTapeException, m).
Proof. intros H Ht. unfold step, bind, get. rewrite H, Ht. reflexivity. Qed.

Lemma step_index_error (m : TuringMachine) (t : list pyval) :
  isAtHaltState m = false -> _tape m = Some t -> t !! _head m = None ->
  step m = (Raise IndexError, m).
Proof. intros H Ht Hs. unfold step, bind, get. rewrite H, Ht, Hs. reflexivity. Qed.

Lemma step_unknown (m : TuringMachine) (t : list pyval) (sym : pyval) :
  isAtHaltState m = false -> _tape m = Some t -> t !! _head m = Some sym ->
  _trans_function m !! (_cur_state m, sym) = None ->
  step m
  = (Raise UnknownTransitionException,
     set_calls (calls m ++ map (fun o => seen m o (onStepStart (_cur_state m) sym))
                               (_observers m)) m).
Proof.
  intros Hh Ht Hs Hl. unfold step, bind at 1, get at 1.
  rewrite Hh, Ht, Hs. unfold bind at 1. rewrite for_each_notify.
  unfold try_except, bind at 1, trans_lookup. cbn [_trans_function set_calls].
  rewrite Hl. reflexivity.
Qed.

Lemma move_head_cur_state (mv : Z) (t : list pyval) (m : TuringMachine) :
  _cur_state (snd (move_head mv t m)) = _cur_state m.
Proof.
  unfold move_head.
  destruct (mv =? MOVE_LEFT); [destruct (Nat.eqb _ _); reflexivity|].
  destruct (mv =? MOVE_RIGHT); [|reflexivity].
  cbn. destruct (Nat.eqb _ _); reflexivity.
Qed.

End StepFacts.




(** X25. On a successful [step()], every attached
    observer first receives [onStepStart] with the pair that is looked up,
    (current state, symbol under the head), while the machine still shows
    its tape, head and state of before the call; the transition is then
    applied; after that each observer in turn receives [onStepEnd] with the
    new state, the written symbol and the movement, followed by
    [onHeadMoved] only if the head position changed, both while the
    machine shows the result of the transition. *)
Theorem step_notifications (m : TM.TuringMachine) (t : list pyval) (sym q s : pyval) (mv : Z) :
  TM.isAtHaltState m = false ->
  TM._tape m = Some t ->
  t !! TM._head m = Some sym ->
  TM._trans_function m !! (TM._cur_state m, sym) = Some (q, s, mv) ->
  exists m' : TM.TuringMachine,
    TM.step m = (Return tt, m')
    /\ TM._cur_state m' = q
    /\ TM.calls m'
       = TM.calls m
         ++ map (fun o => TM.seen m o (TM.onStepStart (TM._cur_state m) sym)) (TM._observers m)
         ++ flat_map (fun o =>
              TM.seen m' o (TM.onStepEnd q s mv)
              :: (if Nat.eqb (TM._head m) (TM._head m') then []
                  else [TM.seen m' o (TM.onHeadMoved (TM._head m') (TM._head m))]))
              (TM._observers m).
Proof.
  intros Hh Ht Hs Hl. eexists. split; [apply (step_success m t sym q s mv Hh Ht Hs Hl)|].
  split.
  - cbn [TM._cur_state TM.set_nexecuted_steps TM.set_calls].
    unfold Facts.transition_applied. rewrite move_head_cur_state. reflexivity.
  - reflexivity.
Qed.

(** The conditions of [step_notifications] are met by the incrementer with
    one observer attached. *)
Lemma step_notifications_witness :
  exists m' : TM.TuringMachine,
    TM.step Incrementer.observed = (Return tt, m') /\ TM._cur_state m' = PInt 2.
Proof.
  destruct (step_notifications Incrementer.observed Incrementer.tape (PInt 1) (PInt 2) (PInt 0)
              TM.MOVE_RIGHT) as (m' & Hstep & Hq & Hcalls);
    [reflexivity | reflexivity | reflexivity | reflexivity |].
  exists m'. split; [exact Hstep | exact Hq].
Defined.


Section RunFacts.
Import TM Facts.

(** Two ways of naming the state a call leaves, used to evaluate calls on
    concrete machines through their results only. *)
Lemma call_result {A S : Type} (x : outcome A * S) (r : outcome A) :
  fst x = r -> x = (r, snd x).
Proof. destruct x; cbn; congruence. Qed.

Lemma partial_call_result {A S : Type} (x : option (outcome A * S)) (r : outcome A) (d : S) :
  fst <$> x = Some r ->
  x = Some (r, match x with Some (_, s) => s | None => d end).
Proof. destruct x as [[r' s]|]; cbn; congruence. Qed.

Lemma transition_applied_head_on_tape (m : TuringMachine) (t : list pyval) (q s : pyval) (mv : Z) :
  (_head m < length t)%nat -> head_on_tape (transition_applied m t q s mv).
Proof.
  intros Hlt. unfold head_on_tape, transition_applied, move_head.
  assert (Hlen : length (<[_head m := s]> t) = length t) by apply length_insert.
  cbn [_head _tape set_cur_state set_tape set_head _blank].
  destruct (mv =? MOVE_LEFT).
  - destruct (Nat.eqb (_head m) 0) eqn:E;
      cbn [snd _tape _head set_tape set_head set_cur_state];
      (eexists; split; [reflexivity|]); cbn [length]; lia.
  - destruct (mv =? MOVE_RIGHT);
      cbn [snd _tape _head set_tape set_head set_cur_state].
    + destruct (Nat.eqb (_head m + 1) (length (<[_head m := s]> t))) eqn:E;
        cbn [snd _tape _head set_tape set_head set_cur_state];
        (eexists; split; [reflexivity|]).
      * rewrite length_app. cbn [length]. lia.
      * apply Nat.eqb_neq in E. lia.
    + eexists. split; [reflexivity|]. lia.
Qed.

(** What [step()] can do on a machine whose head is on the tape. *)
Lemma step_cases (m : TuringMachine) :
  head_on_tape m ->
  (isAtHaltState m = true /\ step m = (Raise HaltStateException, m))
  \/ (isAtHaltState m = false
      /\ exists m', step m = (Raise UnknownTransitionException, m')
                    /\ _nexecuted_steps m' = _nexecuted_steps m)
  \/ (isAtHaltState m = false
      /\ exists m', step m = (Return tt, m') /\ head_on_tape m'
                    /\ _nexecuted_steps m' = (_nexecuted_steps m + 1)%nat).
Proof.
  intros (t & Ht & Hlt).
  destruct (isAtHaltState m) eqn:Hh.
  - left. split; [reflexivity|]. apply step_halted, Hh.
  - right. destruct (lookup_lt_is_Some_2 t (_head m) Hlt) as [sym Hs].
    destruct (_trans_function m !! (_cur_state m, sym)) as [[[q s] mv]|] eqn:Hl.
    + right. split; [reflexivity|]. eexists. split; [apply (step_success m t sym q s mv); assumption|].
      split; [|reflexivity].
      destruct (transition_applied_head_on_tape m t q s mv Hlt) as (t' & Ht' & Hlt').
      exists t'. split; assumption.
    + left. split; [reflexivity|]. eexists. split; [apply (step_unknown m t sym); assumption|].
      reflexivity.
Qed.

(** A call of [step()] that returns has executed one more step. *)
Lemma step_return_counts (m m' : TuringMachine) :
  step m = (Return tt, m') ->
  isAtHaltState m = false /\ _nexecuted_steps m' = (_nexecuted_steps m + 1)%nat.
Proof.
  intros Hstep.
  destruct (isAtHaltState m) eqn:Hh; [rewrite (step_halted m Hh) in Hstep; discriminate|].
  split; [reflexivity|].
  destruct (_tape m) as [t|] eqn:Ht;
    [|rewrite (step_unset_tape m Hh Ht) in Hstep; discriminate].
  destruct (t !! _head m) as [sym|] eqn:Hs;
    [|rewrite (step_index_error m t Hh Ht Hs) in Hstep; discriminate].
  destruct (_trans_function m !! (_cur_state m, sym)) as [[[q s] mv]|] eqn:Hl;
    [|rewrite (step_unknown m t sym Hh Ht Hs Hl) in Hstep; discriminate].
  rewrite (step_success m t sym q s mv Hh Ht Hs Hl) in Hstep.
  injection Hstep as <-. reflexivity.
Qed.

Lemma steps_count (k : nat) (m m' : TuringMachine) :
  steps k m m' -> _nexecuted_steps m' = (_nexecuted_steps m + k)%nat.
Proof.
  induction 1 as [m|k m m1 m' Hstep _ IH]; [lia|].
  apply step_return_counts in Hstep. lia.
Qed.

Lemma run_for_after_steps (k j : nat) (m mk : TuringMachine) :
  steps k m mk -> run_for (k + j) m = run_for j mk.
Proof.
  induction 1 as [m|k m m1 m' Hstep _ IH]; [reflexivity|].
  cbn [Nat.add run_for]. unfold bind at 1. rewrite Hstep. exact IH.
Qed.

Lemma run_for_cases (n : nat) (m : TuringMachine) :
  head_on_tape m ->
  exists r m', run_for n m = (r, m')
    /\ (r = Return tt \/ r = Raise HaltStateException \/ r = Raise UnknownTransitionException)
    /\ (_nexecuted_steps m' <= _nexecuted_steps m + n)%nat.
Proof.
  revert m. induction n as [|n IH]; intros m Hm.
  - exists (Return tt), m. split; [reflexivity|]. split; [auto|lia].
  - cbn [run_for]. unfold bind at 1.
    destruct (step_cases m Hm) as [[_ Hs]|[[_ (m' & Hs & Hc)]|[_ (m' & Hs & Hm' & Hc)]]];
      rewrite Hs.
    + exists (Raise HaltStateException), m. split; [reflexivity|]. split; [auto|lia].
    + exists (Raise UnknownTransitionException), m'. split; [reflexivity|]. split; [auto|lia].
    + destruct (IH m' Hm') as (r & m'' & Hr & Hcode & Hle).
      exists r, m''. split; [exact Hr|]. split; [exact Hcode|lia].
Qed.

(** The codes [run] can return. *)
Lemma run_codes (fuel : nat) (max_steps : option Z) (m m' : TuringMachine) (c : Z) :
  run fuel max_steps m = Some (Return c, m') -> c = 0 \/ c = 1 \/ c = 2.
Proof.
  unfold run. destruct (max_steps_given max_steps) as [n|].
  - unfold try_except, bind. destruct (run_for (Z.to_nat n) m) as [[[]|e] m1].
    + cbn. intros [= <- _]. auto.
    + destruct e; cbn; intros [= <- _] || intros [=]; auto.
  - destruct (run_while fuel m) as [[[[]|e] m1]|]; [| |intros [=]].
    + intros [= <- _]. auto.
    + destruct e; cbn; intros [= <- _] || intros [=]; auto.
Qed.

(** More fuel does not change what the unbounded loop returns. *)
Lemma run_while_more_fuel (fuel fuel' : nat) (m : TuringMachine) r :
  run_while fuel m = Some r -> (fuel <= fuel')%nat -> run_while fuel' m = Some r.
Proof.
  revert fuel' m. induction fuel as [|fuel IH]; intros fuel' m H Hle.
  - cbn [run_while] in H. destruct fuel'; cbn [run_while]; destruct (isAtHaltState m); congruence.
  - destruct fuel' as [|fuel']; [lia|]. cbn [run_while] in H |- *.
    destruct (isAtHaltState m); [exact H|].
    destruct (step m) as [[[]|e] m1]; [|exact H].
    apply IH; [exact H|lia].
Qed.

Lemma run_more_fuel (fuel fuel' : nat) (max_steps : option Z) (m : TuringMachine) r :
  run fuel max_steps m = Some r -> (fuel <= fuel')%nat -> run fuel' max_steps m = Some r.
Proof.
  unfold run. destruct (max_steps_given max_steps); [auto|].
  destruct (run_while fuel m) as [r0|] eqn:E; [|discriminate].
  intros H Hle. rewrite (run_while_more_fuel fuel fuel' m r0 E Hle). exact H.
Qed.

End RunFacts.

(** C3. When a call of [isWordAccepted] returns, whatever it returns
    ([True], [False] or [None]), the tape, the head position and the current
    state of the machine are those of before the call. *)
Theorem isWordAccepted_restores (fuel : nat) (word : list pyval) (max_steps : option Z)
    (m m' : TM.TuringMachine) (accepted : option bool) :
  TM.isWordAccepted fuel word max_steps m = Some (Return accepted, m') ->
  TM._tape m' = TM._tape m /\ TM._head m' = TM._head m /\ TM._cur_state m' = TM._cur_state m.
Proof.
  unfold TM.isWordAccepted.
  destruct (TM.setTape word 0 m) as [[[]|e] m1]; [|intros [=]].
  destruct (TM.run fuel max_steps m1) as [[[c|e] m2]|]; [| |]; intros [=].
  subst m'. repeat split.
Qed.

(** On the loaded incrementer, [isWordAccepted([1,0,1,0])] returns and the
    tape, head and state are restored. *)
Lemma isWordAccepted_restores_witness :
  TM._tape (Incrementer.after_query [PInt 1; PInt 0; PInt 1; PInt 0]) = TM._tape Incrementer.loaded
  /\ TM._head (Incrementer.after_query [PInt 1; PInt 0; PInt 1; PInt 0]) = TM._head Incrementer.loaded
  /\ TM._cur_state (Incrementer.after_query [PInt 1; PInt 0; PInt 1; PInt 0])
     = TM._cur_state Incrementer.loaded.
Proof.
  apply (isWordAccepted_restores 100 [PInt 1; PInt 0; PInt 1; PInt 0] None
           Incrementer.loaded _ (Some false)).
  apply partial_call_result. vm_compute. reflexivity.
Defined.

(** C4. If the run made inside [isWordAccepted] returns the code
    [end_cond] and leaves the machine [m2], then [isWordAccepted] returns
    [None] exactly when [end_cond] is 1 (step limit), [True] exactly when
    [end_cond] is 0 or 2 (halt or unknown transition) and [m2] is in a
    final state, and [False] exactly when [end_cond] is 0 or 2 and [m2] is
    not in a final state. *)
Theorem isWordAccepted_tristate (fuel : nat) (word : list pyval) (max_steps : option Z)
    (m m1 m2 : TM.TuringMachine) (end_cond : Z) :
  TM.setTape word 0 m = (Return tt, m1) ->
  TM.run fuel max_steps m1 = Some (Return end_cond, m2) ->
  exists (accepted : option bool) (m' : TM.TuringMachine),
    TM.isWordAccepted fuel word max_steps m = Some (Return accepted, m')
    /\ (accepted = None <-> end_cond = 1)
    /\ (accepted = Some true
        <-> (end_cond = 0 \/ end_cond = 2) /\ TM.isAtFinalState m2 = true)
    /\ (accepted = Some false
        <-> (end_cond = 0 \/ end_cond = 2) /\ TM.isAtFinalState m2 = false).
Proof.
  intros Hset Hrun. unfold TM.isWordAccepted. rewrite Hset, Hrun.
  eexists _, _. split; [reflexivity|].
  change (TM.isAtFinalState (TM.set_tape (TM._tape m) m2)) with (TM.isAtFinalState m2).
  destruct (run_codes _ _ _ _ _ Hrun) as [-> | [-> | ->]]; cbn;
    destruct (TM.isAtFinalState m2); intuition (try congruence; try lia).
Qed.

(** On the loaded incrementer the word [1,0,0,0] runs to an unknown
    transition in the final state 2 and is accepted. *)
Lemma isWordAccepted_tristate_witness :
  exists (accepted : option bool) (m' : TM.TuringMachine),
    TM.isWordAccepted 100 [PInt 1; PInt 0; PInt 0; PInt 0] None Incrementer.loaded
    = Some (Return accepted, m')
    /\ (accepted = None <-> 2 = 1)
    /\ (accepted = Some true
        <-> (2 = 0 \/ 2 = 2)
            /\ TM.isAtFinalState (Incrementer.after_run [PInt 1; PInt 0; PInt 0; PInt 0]) = true)
    /\ (accepted = Some false
        <-> (2 = 0 \/ 2 = 2)
            /\ TM.isAtFinalState (Incrementer.after_run [PInt 1; PInt 0; PInt 0; PInt 0]) = false).
Proof.
  apply (isWordAccepted_tristate 100 [PInt 1; PInt 0; PInt 0; PInt 0] None Incrementer.loaded
           (snd (TM.setTape [PInt 1; PInt 0; PInt 0; PInt 0] 0 Incrementer.loaded))).
  - apply call_result. vm_compute. reflexivity.
  - apply partial_call_result. vm_compute. reflexivity.
Defined.

Section TapeFacts.
Import TM Facts.

Lemma step_unknown_counts (m : TuringMachine) :
  fst (step m) = Raise UnknownTransitionException ->
  _nexecuted_steps (snd (step m)) = _nexecuted_steps m.
Proof.
  intros Hstep.
  destruct (isAtHaltState m) eqn:Hh; [rewrite (step_halted m Hh) in Hstep; discriminate|].
  destruct (_tape m) as [t|] eqn:Ht;
    [|rewrite (step_unset_tape m Hh Ht) in Hstep; discriminate].
  destruct (t !! _head m) as [sym|] eqn:Hs;
    [|rewrite (step_index_error m t Hh Ht Hs) in Hstep; discriminate].
  destruct (_trans_function m !! (_cur_state m, sym)) as [[[q s] mv]|] eqn:Hl.
  - rewrite (step_success m t sym q s mv Hh Ht Hs Hl) in Hstep. discriminate.
  - rewrite (step_unknown m t sym Hh Ht Hs Hl). reflexivity.
Qed.

(** The first loop of [setTape] on symbols of the tape alphabet. *)
Lemma setTape_symbols_accepted (m m0 : TuringMachine) (tape : list pyval) :
  Forall (fun s => s ∈ _tape_alphabet m) tape ->
  for_each tape (fun s =>
      if bool_decide (s ∈ _tape_alphabet m) then ret tt
      else raise InvalidSymbolException) m0
  = (Return tt, m0).
Proof.
  induction 1 as [|s tape Hs _ IH]; [reflexivity|].
  cbn [for_each]. unfold bind at 1. rewrite (bool_decide_eq_true_2 _ Hs). exact IH.
Qed.

(** [setTape(word)] with the default head position. *)
Lemma setTape_at_start (m : TuringMachine) (word : list pyval) :
  Forall (fun s => s ∈ _tape_alphabet m) word ->
  exists m', setTape word 0 m = (Return tt, m') /\ head_on_tape m'.
Proof.
  intros Hw. unfold setTape, bind at 1, get at 1. unfold bind at 1.
  rewrite (setTape_symbols_accepted m m word Hw).
  unfold bind at 1. change (0 <? 0) with false. cbv iota.
  destruct word as [|a word].
  - replace (0 >=? Z.of_nat (length (@nil pyval))) with true by reflexivity.
    unfold bind, modify. cbv beta iota. rewrite for_each_notify.
    eexists. split; [reflexivity|]. eexists. split; [reflexivity|]. cbn. lia.
  - replace (0 >=? Z.of_nat (length (a :: word))) with false
      by (symmetry; rewrite Z.geb_leb; apply Z.leb_gt; cbn [length]; lia).
    unfold bind, modify. cbv beta iota. rewrite for_each_notify.
    eexists. split; [reflexivity|]. eexists. split; [reflexivity|]. cbn. lia.
Qed.

End TapeFacts.

Section BoundedRunFacts.
Import TM Facts.

Lemma max_steps_given_positive (N : Z) : 1 <= N -> max_steps_given (Some N) = Some N.
Proof. intros HN. unfold max_steps_given. destruct (Z.eqb_spec N 0); [lia|reflexivity]. Qed.

(** A bounded run on a machine whose head is on the tape returns a code. *)
Lemma run_bounded_returns (fuel : nat) (m : TuringMachine) (N : Z) :
  head_on_tape m ->
  1 <= N ->
  exists (code : Z) (m' : TuringMachine),
    run fuel (Some N) m = Some (Return code, m')
    /\ (code = 0 \/ code = 1 \/ code = 2)
    /\ (_nexecuted_steps m' <= _nexecuted_steps m + Z.to_nat N)%nat.
Proof.
  intros Hm HN. unfold run. rewrite (max_steps_given_positive N HN).
  unfold try_except, bind.
  destruct (run_for_cases (Z.to_nat N) m Hm) as (r & m' & Hr & Hcode & Hle).
  rewrite Hr. destruct Hcode as [-> | [-> | ->]]; cbn; eauto 10.
Qed.

(** The bound is not enough to report a halt reached with the last step
    allowed: the loop ends and [run] returns 1. *)
Lemma run_bounded_last_step (fuel : nat) (m mN : TuringMachine) (N : Z) :
  1 <= N -> steps (Z.to_nat N) m mN -> run fuel (Some N) m = Some (Return 1, mN).
Proof.
  intros HN Hsteps. unfold run. rewrite (max_steps_given_positive N HN).
  unfold try_except, bind.
  pose proof (run_for_after_steps _ 0 _ _ Hsteps) as E.
  rewrite Nat.add_0_r in E. rewrite E. reflexivity.
Qed.

(** With a bound and a word over the tape alphabet, [isWordAccepted]
    returns. *)
Lemma isWordAccepted_bounded_returns (fuel : nat) (m : TuringMachine) (word : list pyval)
    (N : Z) :
  Forall (fun s => s ∈ _tape_alphabet m) word ->
  1 <= N ->
  exists (accepted : option bool) (m' : TuringMachine),
    isWordAccepted fuel word (Some N) m = Some (Return accepted, m').
Proof.
  intros Hw HN. unfold isWordAccepted.
  destruct (setTape_at_start m word Hw) as (m1 & -> & Hm1).
  destruct (run_bounded_returns fuel m1 N Hm1 HN) as (code & m2 & -> & _ & _).
  eauto.
Qed.

End BoundedRunFacts.

(** C1, as the code has it. On a machine whose tape is set with the head on
    one of its cells, and for a bound [N] of at least 1, [run(N)] returns 0,
    1 or 2 and executes at most [N] steps. It returns 0 after exactly [k]
    steps when the halt state is reached after [k < N] steps, the
    [HaltStateException] of the next [step()] being caught; it returns 2
    when, after [k < N] steps, [step()] finds no transition; it returns 1
    after exactly [N] steps when [N] steps succeed and leave the machine
    out of the halt state. *)
Theorem run_bounded (fuel : nat) (m : TM.TuringMachine) (N : Z) :
  Facts.head_on_tape m ->
  1 <= N ->
  (exists (code : Z) (m' : TM.TuringMachine),
      TM.run fuel (Some N) m = Some (Return code, m')
      /\ (code = 0 \/ code = 1 \/ code = 2)
      /\ (TM._nexecuted_steps m' <= TM._nexecuted_steps m + Z.to_nat N)%nat)
  /\ (forall (k : nat) (mk : TM.TuringMachine),
        (k < Z.to_nat N)%nat -> Facts.steps k m mk -> TM.isAtHaltState mk = true ->
        TM.run fuel (Some N) m = Some (Return 0, mk)
        /\ TM._nexecuted_steps mk = (TM._nexecuted_steps m + k)%nat)
  /\ (forall (k : nat) (mk : TM.TuringMachine),
        (k < Z.to_nat N)%nat -> Facts.steps k m mk ->
        fst (TM.step mk) = Raise UnknownTransitionException ->
        TM.run fuel (Some N) m = Some (Return 2, snd (TM.step mk))
        /\ TM._nexecuted_steps (snd (TM.step mk)) = (TM._nexecuted_steps m + k)%nat)
  /\ (forall mN : TM.TuringMachine,
        Facts.steps (Z.to_nat N) m mN -> TM.isAtHaltState mN = false ->
        TM.run fuel (Some N) m = Some (Return 1, mN)
        /\ TM._nexecuted_steps mN = (TM._nexecuted_steps m + Z.to_nat N)%nat).
Proof.
  intros Hm HN.
  split; [apply run_bounded_returns; assumption|].
  unfold TM.run. rewrite (max_steps_given_positive N HN). unfold try_except, bind.
  split; [|split].
  - intros k mk Hk Hsteps Hhalt. split; [|apply steps_count; assumption].
    replace (Z.to_nat N) with (k + S (Z.to_nat N - S k))%nat by lia.
    rewrite (run_for_after_steps _ _ _ _ Hsteps). cbn [TM.run_for]. unfold bind.
    rewrite (step_halted _ Hhalt). reflexivity.
  - intros k mk Hk Hsteps Hunknown.
    split; [|rewrite (step_unknown_counts _ Hunknown); apply steps_count; assumption].
    replace (Z.to_nat N) with (k + S (Z.to_nat N - S k))%nat by lia.
    rewrite (run_for_after_steps _ _ _ _ Hsteps). cbn [TM.run_for]. unfold bind.
    rewrite (call_result _ _ Hunknown). reflexivity.
  - intros mN Hsteps _. split; [|apply steps_count; assumption].
    pose proof (run_for_after_steps _ 0 _ _ Hsteps) as E.
    rewrite Nat.add_0_r in E. rewrite E. reflexivity.
Qed.

(** On the loaded incrementer a bound of 12 is a case of [run_bounded]. *)
Lemma run_bounded_witness :
  exists (code : Z) (m' : TM.TuringMachine),
    TM.run 0 (Some 12) Incrementer.loaded = Some (Return code, m')
    /\ (code = 0 \/ code = 1 \/ code = 2)
    /\ (TM._nexecuted_steps m' <= TM._nexecuted_steps Incrementer.loaded + Z.to_nat 12)%nat.
Proof.
  refine (proj1 (run_bounded 0 Incrementer.loaded 12 _ _)).
  - exists Incrementer.tape. split; [reflexivity|].
    apply Nat.ltb_lt. vm_compute. reflexivity.
  - lia.
Defined.

(** C1 does not hold as stated. The incrementer reaches its halt state with its
    11th step: [run(11)] returns 1 with the machine in the halt state.
    [run(0)] takes the branch without bound and executes 11 steps. On a
    machine without tape [run(5)] raises [UnsetTapeException]. *)
Lemma run_bounded_corner_cases :
  (fst <$> TM.run 0 (Some 11) Incrementer.loaded = Some (Return 1)
   /\ TM.isAtHaltState <$> (snd <$> TM.run 0 (Some 11) Incrementer.loaded) = Some true
   /\ TM._nexecuted_steps <$> (snd <$> TM.run 0 (Some 11) Incrementer.loaded) = Some 11%nat)
  /\ (fst <$> TM.run 20 (Some 0) Incrementer.loaded = Some (Return 0)
      /\ TM._nexecuted_steps <$> (snd <$> TM.run 20 (Some 0) Incrementer.loaded) = Some 11%nat)
  /\ fst <$> TM.run 0 (Some 5) Incrementer.machine = Some (Raise UnsetTapeException).
Proof. vm_compute. repeat split. Qed.

(** C10, as the code has it. For a non-empty [t] over the tape alphabet and
    a head position [p] of at least [len(t)], [setTape(t, p)] leaves a tape
    of length exactly [p] and the head at [p], one cell past the last
    index; a [step()] that follows on a machine that is not in its halt
    state raises [IndexError] on reading the tape and changes nothing. *)
Theorem setTape_head_past_tape (m : TM.TuringMachine) (t : list pyval) (p : Z) :
  t <> [] ->
  Forall (fun s => s ∈ TM._tape_alphabet m) t ->
  Z.of_nat (length t) <= p ->
  exists (m' : TM.TuringMachine) (buf : list pyval),
    TM.setTape t p m = (Return tt, m')
    /\ TM._tape m' = Some buf
    /\ Z.of_nat (length buf) = p
    /\ Z.of_nat (TM._head m') = p
    /\ (TM.isAtHaltState m = false -> TM.step m' = (Raise IndexError, m')).
Proof.
  intros Hne Hw Hp. unfold TM.setTape, bind at 1, get at 1. unfold bind at 1.
  rewrite (setTape_symbols_accepted m m t Hw).
  unfold bind at 1.
  replace (p <? 0) with false by (symmetry; apply Z.ltb_ge; lia).
  replace (p >=? Z.of_nat (length t)) with true by (symmetry; rewrite Z.geb_leb; apply Z.leb_le; lia).
  cbv iota. unfold bind, modify. cbv beta iota. rewrite for_each_notify.
  destruct t as [|a t]; [congruence|].
  eexists _, _. split; [reflexivity|]. split; [reflexivity|].
  assert (Hlen : length ((a :: t) ++ replicate (Z.to_nat (p - Z.of_nat (length (a :: t)))) (TM._blank m))
                 = Z.to_nat p).
  { rewrite length_app, length_replicate. lia. }
  split; [rewrite Hlen; lia|]. split; [cbn [TM._head TM.set_calls TM.set_head]; lia|].
  intros Hh. eapply step_index_error; [exact Hh | reflexivity |].
  cbn [TM._head TM.set_calls TM.set_head]. apply lookup_ge_None_2. rewrite Hlen. lia.
Qed.

(** [setTape([1,0,0,0,0,1], 6)] on the incrementer is a case of
    [setTape_head_past_tape]. *)
Lemma setTape_head_past_tape_witness :
  exists (m' : TM.TuringMachine) (buf : list pyval),
    TM.setTape Incrementer.tape 6 Incrementer.machine = (Return tt, m')
    /\ TM._tape m' = Some buf
    /\ Z.of_nat (length buf) = 6
    /\ Z.of_nat (TM._head m') = 6
    /\ (TM.isAtHaltState Incrementer.machine = false -> TM.step m' = (Raise IndexError, m')).
Proof.
  apply (setTape_head_past_tape Incrementer.machine Incrementer.tape 6).
  - discriminate.
  - unfold Incrementer.tape.
    repeat (apply Forall_cons; split; [apply (bool_decide_unpack _); vm_compute; reflexivity|]).
    apply Forall_nil. exact I.
  - cbn. lia.
Defined.

(** C10 does not hold as stated on a machine that is in its halt state: after
    [setTape(['#'], 1)] the head is past the tape, and [step()] raises
    [HaltStateException] without reading it. *)
Lemma step_past_tape_in_halt_state :
  fst (TM.setTape [PStr "#"] 1 Halted.machine) = Return tt
  /\ TM._tape (snd (TM.setTape [PStr "#"] 1 Halted.machine)) = Some [PStr "#"]
  /\ TM._head (snd (TM.setTape [PStr "#"] 1 Halted.machine)) = 1%nat
  /\ fst (TM.step (snd (TM.setTape [PStr "#"] 1 Halted.machine))) = Raise HaltStateException.
Proof. vm_compute. repeat split. Qed.

Section ValidationFacts.
Import TM Facts.

Lemma check_transition_result (m m0 : TuringMachine)
    (kv : (pyval * pyval) * (pyval * pyval * Z)) :
  (entry_passes m kv = true ->
   check_transition m HEAD_MOVEMENTS kv m0 = (Return tt, m0))
  /\ (entry_passes m kv = false ->
      exists fmt ops, check_transition m HEAD_MOVEMENTS kv m0 = (Raise (Exception fmt ops), m0)).
Proof.
  destruct kv as [[k0 k1] [[v0 v1] v2]]. unfold entry_passes, check_transition.
  destruct (truthy_opt (offending _ k0 v0)); cbn [negb andb];
    [split; [discriminate|intros _; eauto]|].
  destruct (truthy_opt (offending _ k1 v1)); cbn [negb andb];
    [split; [discriminate|intros _; eauto]|].
  destruct (bool_decide (v2 ∈ HEAD_MOVEMENTS)); cbn [negb];
    split; try discriminate; intros _; eauto.
Qed.

Lemma for_each_check_transition (m m0 : TuringMachine)
    (l : list ((pyval * pyval) * (pyval * pyval * Z))) :
  (forallb (entry_passes m) l = true ->
   for_each l (check_transition m HEAD_MOVEMENTS) m0 = (Return tt, m0))
  /\ (forallb (entry_passes m) l = false ->
      exists fmt ops,
        for_each l (check_transition m HEAD_MOVEMENTS) m0 = (Raise (Exception fmt ops), m0)).
Proof.
  induction l as [|kv l [IHt IHf]]; cbn [forallb for_each].
  - split; [reflexivity|discriminate].
  - unfold bind. destruct (check_transition_result m m0 kv) as [Ht Hf].
    destruct (entry_passes m kv); cbn [andb].
    + rewrite (Ht eq_refl). split; assumption.
    + destruct (Hf eq_refl) as (fmt & ops & ->). split; [discriminate|eauto].
Qed.

(** [_checkData] either returns or raises an [Exception], as [data_accepted]
    tells, and leaves the object as it was. *)
Lemma _checkData_result (m : TuringMachine) :
  (data_accepted m = true -> _checkData m = (Return tt, m))
  /\ (data_accepted m = false ->
      exists fmt ops, _checkData m = (Raise (Exception fmt ops), m)).
Proof.
  unfold data_accepted, _checkData, bind, get.
  destruct (bool_decide (_in_alphabet m ⊆ _tape_alphabet m)); cbn [negb andb];
    [|split; [discriminate|intros _; eauto]].
  destruct (bool_decide (_blank m ∈ _tape_alphabet m)); cbn [negb andb];
    [|split; [discriminate|intros _; eauto]].
  destruct (bool_decide (_istate m ∈ _states m)); cbn [negb andb];
    [|split; [discriminate|intros _; eauto]].
  destruct (bool_decide (_fstates m ⊆ _states m)); cbn [negb andb];
    [|split; [discriminate|intros _; eauto]].
  apply for_each_check_transition.
Qed.

Lemma __init___result (states in_alphabet tape_alphabet : gset pyval)
    (trans_function : gmap (pyval * pyval) (pyval * pyval * Z))
    (istate : pyval) (fstates : gset pyval) (hstate blank : pyval) :
  let self := fresh states in_alphabet tape_alphabet trans_function istate fstates hstate blank in
  (data_accepted self = true ->
   __init__ states in_alphabet tape_alphabet trans_function istate fstates hstate blank
   = Return self)
  /\ (data_accepted self = false ->
      exists fmt ops,
        __init__ states in_alphabet tape_alphabet trans_function istate fstates hstate blank
        = Raise (Exception fmt ops)).
Proof.
  intros self. unfold __init__. fold (fresh states in_alphabet tape_alphabet trans_function
                                        istate fstates hstate blank). fold self.
  destruct (_checkData_result self) as [Ht Hf]. split.
  - intros H. rewrite (Ht H). reflexivity.
  - intros H. destruct (Hf H) as (fmt & ops & ->). eauto.
Qed.

Lemma entry_passes_ok (m : TuringMachine) (k0 k1 v0 v1 : pyval) (v2 : Z) :
  k0 ∈ _states m -> v0 ∈ _states m ->
  k1 ∈ _tape_alphabet m -> v1 ∈ _tape_alphabet m ->
  v2 ∈ HEAD_MOVEMENTS ->
  entry_passes m ((k0, k1), (v0, v1, v2)) = true.
Proof.
  intros Hk0 Hv0 Hk1 Hv1 Hv2. unfold entry_passes, offending.
  rewrite !bool_decide_eq_true_2 by assumption. reflexivity.
Qed.

Lemma entry_fails_movement (m : TuringMachine) (k0 k1 v0 v1 : pyval) (v2 : Z) :
  v2 ∉ HEAD_MOVEMENTS -> entry_passes m ((k0, k1), (v0, v1, v2)) = false.
Proof.
  intros Hv2. unfold entry_passes. rewrite (bool_decide_eq_false_2 _ Hv2).
  apply andb_false_r.
Qed.

Lemma offending_truthy (in_set : pyval -> bool) (a b : pyval) :
  truthy a = true -> truthy b = true ->
  in_set a = false \/ in_set b = false ->
  truthy_opt (offending in_set a b) = true.
Proof.
  intros Ha Hb H. unfold offending.
  destruct (in_set b); cbn [negb]; [|exact Hb].
  destruct (in_set a); cbn [negb]; [|exact Ha].
  destruct H; discriminate.
Qed.

Lemma entry_fails_state (m : TuringMachine) (k0 k1 v0 v1 : pyval) (v2 : Z) :
  truthy k0 = true -> truthy v0 = true ->
  ~ (k0 ∈ _states m /\ v0 ∈ _states m) ->
  entry_passes m ((k0, k1), (v0, v1, v2)) = false.
Proof.
  intros Hk Hv Hnot. unfold entry_passes.
  rewrite offending_truthy; [reflexivity|assumption|assumption|].
  destruct (decide (k0 ∈ _states m)) as [Hk0|Hk0];
    [|left; apply bool_decide_eq_false_2; exact Hk0].
  right. apply bool_decide_eq_false_2. intros Hv0. apply Hnot. split; assumption.
Qed.

Lemma entry_fails_symbol (m : TuringMachine) (k0 k1 v0 v1 : pyval) (v2 : Z) :
  truthy k1 = true -> truthy v1 = true ->
  ~ (k1 ∈ _tape_alphabet m /\ v1 ∈ _tape_alphabet m) ->
  entry_passes m ((k0, k1), (v0, v1, v2)) = false.
Proof.
  intros Hk Hv Hnot. unfold entry_passes.
  destruct (truthy_opt (offending _ k0 v0)); [reflexivity|]. cbn [negb andb].
  rewrite offending_truthy; [reflexivity|assumption|assumption|].
  destruct (decide (k1 ∈ _tape_alphabet m)) as [Hk1|Hk1];
    [|left; apply bool_decide_eq_false_2; exact Hk1].
  right. apply bool_decide_eq_false_2. intros Hv1. apply Hnot. split; assumption.
Qed.

Lemma offending_reported (inside : gset pyval) (k v : pyval) :
  reported_outside inside k v ->
  truthy_opt (offending (fun x => bool_decide (x ∈ inside)) k v) = true.
Proof.
  unfold reported_outside, offending.
  intros [[Hv Tv]|(Hv & Hk & Tk)].
  - rewrite (bool_decide_eq_false_2 _ Hv). exact Tv.
  - rewrite (bool_decide_eq_true_2 _ Hv), (bool_decide_eq_false_2 _ Hk). exact Tk.
Qed.

Lemma truthy_pair_reported (inside : gset pyval) (k v : pyval) :
  truthy k = true -> truthy v = true -> ~ (k ∈ inside /\ v ∈ inside) ->
  reported_outside inside k v.
Proof.
  intros Tk Tv Hnot. destruct (decide (v ∈ inside)) as [Hv|Hv]; [right|left; auto].
  split; [exact Hv|]. split; [|exact Tk]. intros Hk. apply Hnot. split; assumption.
Qed.

Lemma entry_fails_reported (m : TuringMachine) (k0 k1 v0 v1 : pyval) (v2 : Z) :
  reported_outside (_states m) k0 v0 \/ reported_outside (_tape_alphabet m) k1 v1 ->
  entry_passes m ((k0, k1), (v0, v1, v2)) = false.
Proof.
  intros H. unfold entry_passes. destruct H as [H|H].
  - rewrite (offending_reported _ _ _ H). reflexivity.
  - rewrite (offending_reported _ _ _ H). cbn [negb]. rewrite andb_false_r. reflexivity.
Qed.

(** An entry of the dictionary that does not pass makes the loop fail. *)
Lemma failing_entry (m : TuringMachine) (k : pyval * pyval) (v : pyval * pyval * Z) :
  _trans_function m !! k = Some v ->
  entry_passes m (k, v) = false ->
  forallb (entry_passes m) (map_to_list (_trans_function m)) = false.
Proof.
  intros Hl Hf. apply not_true_is_false. intros Hall.
  rewrite forallb_forall in Hall.
  assert (Hin : In (k, v) (map_to_list (_trans_function m))).
  { apply list_elem_of_In, elem_of_map_to_list, Hl. }
  rewrite (Hall _ Hin) in Hf. discriminate.
Qed.

End ValidationFacts.

(** C2, as the code has it. Construction succeeds when the input alphabet
    is a subset of the tape alphabet, the blank is in the tape alphabet,
    the initial state and the final states are in the states, and every
    transition entry has its states in the states, its symbols in the tape
    alphabet and a legal movement, whether or not the halt state is in the
    states. It raises an [Exception] when one of the first four conditions
    or the legality of a movement is violated. It raises an [Exception]
    when some entry, whatever the other entries hold, has a state outside
    the states or a symbol outside the tape alphabet and the component the
    test reports counts as true in a condition: the new state (written
    symbol) when it is outside, otherwise the source state (read symbol).
    That is the case of every entry whose two states count as true and are
    not both in the states, and of every entry whose two symbols count as
    true and are not both in the tape alphabet. *)
Theorem construction_validation (states in_alphabet tape_alphabet : gset pyval)
    (trans_function : gmap (pyval * pyval) (pyval * pyval * Z))
    (istate : pyval) (fstates : gset pyval) (hstate blank : pyval) :
  let built :=
    TM.__init__ states in_alphabet tape_alphabet trans_function istate fstates hstate blank in
  (in_alphabet ⊆ tape_alphabet -> blank ∈ tape_alphabet ->
   istate ∈ states -> fstates ⊆ states ->
   Facts.transition_states_in states trans_function ->
   Facts.transition_symbols_in tape_alphabet trans_function ->
   Facts.transition_movements_legal trans_function ->
   exists m : TM.TuringMachine, built = Return m)
  /\ (~ in_alphabet ⊆ tape_alphabet \/ blank ∉ tape_alphabet
      \/ istate ∉ states \/ ~ fstates ⊆ states
      \/ ~ Facts.transition_movements_legal trans_function ->
      exists fmt ops, built = Raise (Exception fmt ops))
  /\ (forall (k0 k1 v0 v1 : pyval) (v2 : Z),
        trans_function !! (k0, k1) = Some (v0, v1, v2) ->
        Facts.reported_outside states k0 v0
        \/ Facts.reported_outside tape_alphabet k1 v1 ->
        exists fmt ops, built = Raise (Exception fmt ops))
  /\ (forall (k0 k1 v0 v1 : pyval) (v2 : Z),
        trans_function !! (k0, k1) = Some (v0, v1, v2) ->
        (truthy k0 = true /\ truthy v0 = true /\ ~ (k0 ∈ states /\ v0 ∈ states))
        \/ (truthy k1 = true /\ truthy v1 = true
            /\ ~ (k1 ∈ tape_alphabet /\ v1 ∈ tape_alphabet)) ->
        exists fmt ops, built = Raise (Exception fmt ops)).
Proof.
  intros built. subst built.
  destruct (__init___result states in_alphabet tape_alphabet trans_function istate fstates
              hstate blank) as [Hok Hko].
  set (self := Facts.fresh states in_alphabet tape_alphabet trans_function istate fstates
                 hstate blank) in *.
  assert (Hentry : forall (k0 k1 v0 v1 : pyval) (v2 : Z),
             trans_function !! (k0, k1) = Some (v0, v1, v2) ->
             Facts.reported_outside states k0 v0
             \/ Facts.reported_outside tape_alphabet k1 v1 ->
             exists fmt ops,
               TM.__init__ states in_alphabet tape_alphabet trans_function istate fstates
                           hstate blank
               = Raise (Exception fmt ops)).
  { intros k0 k1 v0 v1 v2 Hl Hrep. apply Hko. unfold Facts.data_accepted.
    rewrite (failing_entry self (k0, k1) (v0, v1, v2) Hl
               (entry_fails_reported self k0 k1 v0 v1 v2 Hrep)).
    apply andb_false_r. }
  split; [|split; [|split]].
  - intros H1 H2 H3 H4 H6 H7 H8. exists self. apply Hok.
    unfold Facts.data_accepted.
    rewrite !bool_decide_eq_true_2 by assumption. cbn [andb].
    apply forallb_forall. intros [[k0 k1] [[v0 v1] v2]] Hin.
    apply list_elem_of_In, elem_of_map_to_list in Hin.
    destruct (H6 _ _ Hin) as [Hk0 Hv0]. destruct (H7 _ _ Hin) as [Hk1 Hv1].
    apply entry_passes_ok; try assumption. exact (H8 _ _ Hin).
  - intros H. apply Hko. unfold Facts.data_accepted.
    destruct H as [H|[H|[H|[H|H]]]].
    + change (TM._in_alphabet self) with in_alphabet.
      change (TM._tape_alphabet self) with tape_alphabet.
      rewrite (bool_decide_eq_false_2 _ H). reflexivity.
    + change (TM._blank self) with blank. change (TM._tape_alphabet self) with tape_alphabet.
      rewrite (bool_decide_eq_false_2 _ H). rewrite andb_false_r. reflexivity.
    + change (TM._istate self) with istate. change (TM._states self) with states.
      rewrite (bool_decide_eq_false_2 _ H). rewrite !andb_false_r. reflexivity.
    + change (TM._fstates self) with fstates. change (TM._states self) with states.
      rewrite (bool_decide_eq_false_2 _ H). rewrite !andb_false_r. reflexivity.
    + apply map_not_Forall in H; [|intros; apply _].
      destruct H as ([k0 k1] & [[v0 v1] v2] & Hl & Hv2).
      rewrite (failing_entry self (k0, k1) (v0, v1, v2) Hl (entry_fails_movement _ _ _ _ _ _ Hv2)).
      apply andb_false_r.
  - exact Hentry.
  - intros k0 k1 v0 v1 v2 Hl [(Tk & Tv & Hnot)|(Tk & Tv & Hnot)];
      apply (Hentry k0 k1 v0 v1 v2 Hl);
      [left|right]; apply truthy_pair_reported; assumption.
Qed.

(** The data of the incrementer meet the conditions under which
    [construction_validation] promises a machine. Without the state 3 among
    the states, as in the first attempt of the self-test of [tm.py], the
    entry (2, 1) -> (3, 1, right) has two states that count as true, one of
    them outside the states, and the constructor raises, although the table
    holds the symbol 0. *)
Lemma construction_validation_witness :
  (exists m : TM.TuringMachine,
      TM.__init__ Incrementer.states Incrementer.in_alphabet Incrementer.tape_alphabet
                  Incrementer.trans_function Incrementer.istate Incrementer.fstates
                  Incrementer.hstate Incrementer.blank
      = Return m)
  /\ (exists fmt ops,
        TM.__init__ {[ PInt 1; PInt 2; Incrementer.hstate ]} Incrementer.in_alphabet
                    Incrementer.tape_alphabet Incrementer.trans_function Incrementer.istate
                    Incrementer.fstates Incrementer.hstate Incrementer.blank
        = Raise (Exception fmt ops)).
Proof.
  split.
  - refine (proj1 (construction_validation Incrementer.states Incrementer.in_alphabet
                     Incrementer.tape_alphabet Incrementer.trans_function Incrementer.istate
                     Incrementer.fstates Incrementer.hstate Incrementer.blank) _ _ _ _ _ _ _);
      apply (bool_decide_unpack _); vm_compute; reflexivity.
  - refine (proj2 (proj2 (proj2
              (construction_validation {[ PInt 1; PInt 2; Incrementer.hstate ]}
                 Incrementer.in_alphabet Incrementer.tape_alphabet Incrementer.trans_function
                 Incrementer.istate Incrementer.fstates Incrementer.hstate Incrementer.blank)))
              (PInt 2) (PInt 1) (PInt 3) (PInt 1) TM.MOVE_RIGHT _ _).
    + vm_compute. reflexivity.
    + left. split; [reflexivity|]. split; [reflexivity|]. intros [_ H3]. revert H3.
      apply (bool_decide_unpack _). vm_compute. reflexivity.
Defined.

(** C2 does not hold as stated. A halt state outside the states is accepted; so is
    a transition from the state [0], which is not among the states. *)
Lemma construction_unchecked_cases :
  ((PStr "HALT" ∉ ({[ PInt 1 ]} : gset pyval))
   /\ (exists m : TM.TuringMachine,
         TM.__init__ {[ PInt 1 ]} ∅ {[ PStr "#" ]} ∅ (PInt 1) ∅ (PStr "HALT") (PStr "#")
         = Return m))
  /\ ((PInt 0 ∉ ({[ PInt 1; PStr "HALT" ]} : gset pyval))
      /\ (exists m : TM.TuringMachine,
            TM.__init__ {[ PInt 1; PStr "HALT" ]} ∅ {[ PStr "#" ]}
                        {[ (PInt 0, PStr "#") := (PInt 1, PStr "#", TM.NON_MOVEMENT) ]}
                        (PInt 1) ∅ (PStr "HALT") (PStr "#")
            = Return m)).
Proof.
  split; (split; [apply (bool_decide_unpack _); vm_compute; reflexivity|]);
    eexists; apply __init___result; vm_compute; reflexivity.
Qed.

(** C7. The data of the incrementer are accepted by the constructor; after
    [setTape([1,0,0,0,0,1])] the head is at 0 and the state is 1; [run()]
    returns 0 and leaves the tape [0,1,1,1,1,1,'#']. *)
Theorem incrementer_run :
  TM.__init__ Incrementer.states Incrementer.in_alphabet Incrementer.tape_alphabet
              Incrementer.trans_function Incrementer.istate Incrementer.fstates
              Incrementer.hstate Incrementer.blank
  = Return Incrementer.machine
  /\ fst (TM.setTape Incrementer.tape 0 Incrementer.machine) = Return tt
  /\ TM._tape Incrementer.loaded = Some [PInt 1; PInt 0; PInt 0; PInt 0; PInt 0; PInt 1]
  /\ TM._head Incrementer.loaded = 0%nat
  /\ TM._cur_state Incrementer.loaded = PInt 1
  /\ exists (fuel : nat) (m' : TM.TuringMachine),
       TM.run fuel None Incrementer.loaded = Some (Return 0, m')
       /\ TM._tape m'
          = Some [PInt 0; PInt 1; PInt 1; PInt 1; PInt 1; PInt 1; PStr "#"].
Proof.
  split; [apply __init___result; vm_compute; reflexivity|].
  split; [vm_compute; reflexivity|].
  split; [vm_compute; reflexivity|].
  split; [vm_compute; reflexivity|].
  split; [vm_compute; reflexivity|].
  exists 11%nat, (match TM.run 11 None Incrementer.loaded with
                  | Some (_, m) => m
                  | None => Incrementer.loaded
                  end).
  split; [apply partial_call_result|]; vm_compute; reflexivity.
Qed.

Section BuilderFacts.
Import Builder.

Lemma bind_returns {S A B : Type} (c : method S A) (k : A -> method S B) (s : S) (a : A) :
  fst (c s) = Return a -> bind c k s = k a (snd (c s)).
Proof. unfold bind. destruct (c s) as [r s']. cbn. intros ->. reflexivity. Qed.

(** An illegal movement makes [addTransition] fail and changes nothing. *)
Lemma addTransition_illegal_movement (state symbol new_state new_symbol : pyval)
    (movement : Z) (b : TuringMachineBuilder) :
  movement ∉ TM.HEAD_MOVEMENTS ->
  addTransition state symbol new_state new_symbol movement b
  = (Raise (Exception "Invalid movement" []), b).
Proof.
  intros H. unfold addTransition. rewrite (bool_decide_eq_false_2 _ H). reflexivity.
Qed.

(** With a legal movement [addTransition] returns and registers the entry,
    whatever the symbols are. *)
Lemma addTransition_registers (state symbol new_state new_symbol : pyval)
    (movement : Z) (b : TuringMachineBuilder) :
  movement ∈ TM.HEAD_MOVEMENTS ->
  fst (addTransition state symbol new_state new_symbol movement b) = Return tt
  /\ _trans_function (snd (addTransition state symbol new_state new_symbol movement b))
     !! (state, symbol) = Some (new_state, new_symbol, movement).
Proof.
  intros H. unfold addTransition. rewrite (bool_decide_eq_true_2 _ H). cbn [negb].
  assert (Hs : forall v b0, has_len_above_1 v b0 = (Return false, b0))
    by (intros [] b0; reflexivity).
  assert (Hadd : forall (cond : TuringMachineBuilder -> bool) f b0,
             fst (bind get (fun b' => if cond b' then modify f else ret tt) b0) = Return tt).
  { intros cond f b0. unfold bind, get, modify, ret. destruct (cond b0); reflexivity. }
  rewrite (bind_returns _ _ _ false) by (rewrite Hs; reflexivity).
  rewrite Hs. cbn [snd].
  rewrite (bind_returns _ _ _ false) by (rewrite Hs; reflexivity).
  rewrite Hs. cbn [snd].
  rewrite (bind_returns _ _ _ tt)
    by (apply (Hadd (fun b' => negb (bool_decide (state ∈ _states b'))))).
  rewrite (bind_returns _ _ _ tt)
    by (apply (Hadd (fun b' => negb (bool_decide (Some symbol = _blank b'))
                               && negb (bool_decide (symbol ∈ _in_alphabet b'))))).
  rewrite (bind_returns _ _ _ tt)
    by (apply (Hadd (fun b' => negb (bool_decide (new_state ∈ _states b'))))).
  rewrite (bind_returns _ _ _ tt)
    by (apply (Hadd (fun b' => negb (bool_decide (Some new_symbol = _blank b'))
                               && negb (bool_decide (new_symbol ∈ _in_alphabet b'))))).
  unfold modify. cbn [fst snd _trans_function set_transition].
  split; [reflexivity|apply lookup_insert_eq].
Qed.

End BuilderFacts.

(** C9, at a symbol of two characters. The symbol ['ab'] has length 2, the
    movement is legal, and [addTransition] returns and registers the entry
    where a failure is asked for: the length test is never reached. *)
Theorem addTransition_accepts_long_symbol :
  len (PStr "ab") = Some 2
  /\ fst (Builder.addTransition (PStr "q0") (PStr "ab") (PStr "q1") (PStr "c")
                                TM.MOVE_RIGHT Builder.new) = Return tt
  /\ Builder._trans_function
       (snd (Builder.addTransition (PStr "q0") (PStr "ab") (PStr "q1") (PStr "c")
                                   TM.MOVE_RIGHT Builder.new))
     !! (PStr "q0", PStr "ab") = Some (PStr "q1", PStr "c", TM.MOVE_RIGHT).
Proof. vm_compute. repeat split. Qed.

Section ParserFacts.
Import Parser.

(** The sibling directives take a state of several characters. *)
Lemma parseLine_halt_two_characters :
  fst (parseLine "HALT q0" new) = Return tt
  /\ Builder._haltstate (_builder (snd (parseLine "HALT q0" new))) = Some (PStr "q0").
Proof. vm_compute. split; reflexivity. Qed.

Lemma parseLine_final_two_characters :
  fst (parseLine "FINAL q0" new) = Return tt
  /\ PStr "q0" ∈ Builder._fstates (_builder (snd (parseLine "FINAL q0" new))).
Proof. split; [vm_compute; reflexivity|apply (bool_decide_unpack _); vm_compute; reflexivity]. Qed.

(** [INITIAL] followed by a state of one word character sets the initial
    state of a builder that has none, and fails on a builder that has one. *)
Lemma parseLine_initial_one_character (c : ascii) (p : TuringMachineParser) :
  Re.word_char c = true ->
  parseLine ("INITIAL " +:+ String c EmptyString) p
  = if Builder.hasInitialState (_builder p)
    then (Raise (Exception "Initial state can only be defined once" []), p)
    else (Return tt,
          {| _builder := snd (Builder.setInitialState (PStr (String c EmptyString)) (_builder p)) |}).
Proof.
  destruct p as [b]. cbn [_builder].
  destruct c as [[] [] [] [] [] [] [] []]; intros H;
    try (vm_compute in H; discriminate H); clear H;
    ( unfold parseLine, bind, _parseTransition, _parseComment, _parseFinalState,
        _parseInitialState;
      match goal with
      | |- context [Re.match_ _transition_re ?s] =>
        replace (Re.match_ _transition_re s) with (@None Re.groups) by (vm_compute; reflexivity);
        replace (Re.match_ _comment_line_re s) with (@None Re.groups) by (vm_compute; reflexivity);
        replace (Re.match_ _final_state_re s) with (@None Re.groups) by (vm_compute; reflexivity)
      end;
      match goal with
      | |- context [Re.match_ _inital_state_re ?s] =>
        let r := eval vm_compute in (Re.match_ _inital_state_re s) in
        replace (Re.match_ _inital_state_re s) with r by (vm_compute; reflexivity)
      end;
      unfold bind, get, raise, ret; cbn [_builder Re.group String.eqb Ascii.eqb Bool.eqb];
      destruct (Builder.hasInitialState b);
      [ reflexivity
      | unfold on_builder, Builder.setInitialState, bind, get, modify, ret; cbn [_builder];
        destruct (bool_decide _); reflexivity ] ).
Qed.

End ParserFacts.

(** C8, at a state of two word characters. [INITIAL q0] is matched by none
    of the expressions: [parseLine] raises the exception of an unrecognized
    line and the builder stays without initial state, where the initial
    state should become ['q0']. *)
Theorem parseLine_initial_two_characters :
  Parser.parseLine "INITIAL q0" Parser.new
  = (Raise (Exception "Unrecognized pattern: %s" [PStr "INITIAL q0"]), Parser.new).
Proof. vm_compute. reflexivity. Qed.

(** ** Further properties of the machine *)

Section FrameFacts.
Import TM Facts.

Lemma move_head_description (mv : Z) (t : list pyval) (m : TuringMachine) :
  description (snd (move_head mv t m)) = description m.
Proof.
  unfold move_head.
  destruct (mv =? MOVE_LEFT); [destruct (Nat.eqb _ _); reflexivity|].
  destruct (mv =? MOVE_RIGHT); [|reflexivity].
  cbn. destruct (Nat.eqb _ _); reflexivity.
Qed.

(** The four ways a call of [step()] can end. *)
Lemma step_outcomes (m : TuringMachine) :
  step m = (Raise HaltStateException, m)
  \/ step m = (Raise UnsetTapeException, m)
  \/ step m = (Raise IndexError, m)
  \/ (exists t sym,
        _tape m = Some t /\ t !! _head m = Some sym
        /\ ((_trans_function m !! (_cur_state m, sym) = None
             /\ step m = (Raise UnknownTransitionException,
                          set_calls (calls m ++ map (fun o => seen m o (onStepStart (_cur_state m) sym))
                                                    (_observers m)) m))
            \/ (exists q s mv,
                  isAtHaltState m = false
                  /\ _trans_function m !! (_cur_state m, sym) = Some (q, s, mv)
                  /\ step m
                     = (Return tt,
                        set_nexecuted_steps (_nexecuted_steps m + 1)%nat
                          (set_calls (calls m
                                      ++ map (fun o => seen m o (onStepStart (_cur_state m) sym))
                                             (_observers m)
                                      ++ flat_map (step_end_calls (transition_applied m t q s mv)
                                                                  (_head m) q s mv)
                                                  (_observers m))
                                     (transition_applied m t q s mv)))))).
Proof.
  destruct (isAtHaltState m) eqn:Hh; [left; apply step_halted, Hh|].
  destruct (_tape m) as [t|] eqn:Ht; [|right; left; apply step_unset_tape; assumption].
  destruct (t !! _head m) as [sym|] eqn:Hs;
    [|right; right; left; apply (step_index_error m t); assumption].
  right; right; right. exists t, sym. split; [reflexivity|]. split; [assumption|].
  destruct (_trans_function m !! (_cur_state m, sym)) as [[[q s] mv]|] eqn:Hl.
  - right. exists q, s, mv. split; [reflexivity|]. split; [reflexivity|].
    apply step_success; assumption.
  - left. split; [reflexivity|]. apply (step_unknown m t sym); assumption.
Qed.

Lemma step_description (m : TuringMachine) : description (snd (step m)) = description m.
Proof.
  destruct (step_outcomes m) as [H|[H|[H|(t & sym & _ & _ & [[_ H]|(q & s & mv & _ & _ & H)])]]];
    rewrite H; try reflexivity.
  cbn [snd]. unfold transition_applied.
  change (description (set_nexecuted_steps ?n (set_calls ?l ?x))) with (description x).
  rewrite move_head_description. reflexivity.
Qed.

Lemma run_for_description (n : nat) (m : TuringMachine) :
  description (snd (run_for n m)) = description m.
Proof.
  revert m. induction n as [|n IH]; intros m; [reflexivity|].
  cbn [run_for]. unfold bind. pose proof (step_description m) as Hd.
  destruct (step m) as [[[]|e] m1]; cbn [snd] in *; [rewrite IH|]; exact Hd.
Qed.

Lemma run_while_description (fuel : nat) (m m' : TuringMachine) (r : outcome unit) :
  run_while fuel m = Some (r, m') -> description m' = description m.
Proof.
  revert m. induction fuel as [|fuel IH]; intros m; cbn [run_while];
    destruct (isAtHaltState m); try (intros [= _ <-]; reflexivity); try discriminate.
  pose proof (step_description m) as Hd.
  destruct (step m) as [[[]|e] m1]; cbn [snd] in Hd.
  - intros H. rewrite (IH _ H). exact Hd.
  - intros [= _ <-]. exact Hd.
Qed.

Lemma run_description (fuel : nat) (max_steps : option Z) (m m' : TuringMachine)
    (r : outcome Z) :
  run fuel max_steps m = Some (r, m') -> description m' = description m.
Proof.
  unfold run. destruct (max_steps_given max_steps) as [n|].
  - unfold try_except, bind. pose proof (run_for_description (Z.to_nat n) m) as Hd.
    destruct (run_for (Z.to_nat n) m) as [[[]|e] m1]; cbn [snd] in Hd.
    + cbn. intros [= _ <-]. exact Hd.
    + destruct e; cbn; intros [= _ <-]; exact Hd.
  - destruct (run_while fuel m) as [[[[]|e] m1]|] eqn:E; [| |discriminate].
    + intros [= _ <-]. exact (run_while_description _ _ _ _ E).
    + destruct e; cbn; intros [= _ <-]; exact (run_while_description _ _ _ _ E).
Qed.

(** The first loop of [setTape] on a tape with a symbol that is not in the
    tape alphabet. *)
Lemma setTape_symbol_rejected (m m0 : TuringMachine) (tape : list pyval) :
  ~ Forall (fun s => s ∈ _tape_alphabet m) tape ->
  for_each tape (fun s =>
      if bool_decide (s ∈ _tape_alphabet m) then ret tt
      else raise InvalidSymbolException) m0
  = (Raise InvalidSymbolException, m0).
Proof.
  induction tape as [|s tape IH]; intros Hnot.
  - destruct Hnot. constructor.
  - cbn [for_each]. unfold bind at 1.
    destruct (decide (s ∈ _tape_alphabet m)) as [Hs|Hs].
    + rewrite (bool_decide_eq_true_2 _ Hs). apply IH. intros Hall. apply Hnot.
      constructor; assumption.
    + rewrite (bool_decide_eq_false_2 _ Hs). reflexivity.
Qed.

(** What [setTape] leaves on a tape over the tape alphabet, branch by
    branch. *)
Lemma setTape_result (m : TuringMachine) (t : list pyval) (p : Z) :
  Forall (fun s => s ∈ _tape_alphabet m) t ->
  exists (buf : list pyval) (h : nat),
    setTape t p m
    = (Return tt,
       set_calls (calls m ++ map (fun o => seen (set_head h (set_tape (Some buf) m)) o
                                               (onTapeChanged p)) (_observers m))
                 (set_head h (set_tape (Some buf) m)))
    /\ ((p < 0 /\ buf = replicate (Z.to_nat (- p)) (_blank m) ++ t /\ h = 0%nat)
        \/ (Z.of_nat (length t) <= p
            /\ buf = match t with [] => [_blank m] | _ => t end
                     ++ replicate (Z.to_nat (p - Z.of_nat (length t))) (_blank m)
            /\ h = Z.to_nat p)
        \/ (0 <= p < Z.of_nat (length t) /\ buf = t /\ h = Z.to_nat p)).
Proof.
  intros Hw. unfold setTape, bind at 1, get at 1. unfold bind at 1.
  rewrite (setTape_symbols_accepted m m t Hw).
  destruct (Z.ltb_spec p 0) as [Hp|Hp].
  - unfold bind, modify. cbv beta iota. rewrite for_each_notify.
    eexists _, _. split; [reflexivity|]. left. auto.
  - destruct (Z.geb_spec p (Z.of_nat (length t))) as [Hq|Hq].
    + unfold bind, modify. cbv beta iota. rewrite for_each_notify.
      eexists _, _. split; [reflexivity|]. right. left. split; [lia|auto].
    + unfold bind, modify. cbv beta iota. rewrite for_each_notify.
      eexists _, _. split; [reflexivity|]. right. right. split; [lia|auto].
Qed.

End FrameFacts.

Section UnboundedTapeFacts.
Import TM Facts.

Lemma cell_read (m : TuringMachine) (t : list pyval) (i : Z) :
  _tape m = Some t -> cell m i = read (_blank m) t (Z.of_nat (_head m) + i).
Proof.
  intros Ht. unfold cell, getSymbolAt, read. rewrite Ht.
  destruct ((Z.of_nat (_head m) + i <? 0) || (Z.of_nat (_head m) + i >=? Z.of_nat (length t)));
    reflexivity.
Qed.

Lemma read_outside (b : pyval) (t : list pyval) (z : Z) :
  z < 0 \/ Z.of_nat (length t) <= z -> read b t z = b.
Proof.
  intros H. unfold read.
  destruct (Z.ltb_spec z 0); [reflexivity|].
  destruct (Z.geb_spec z (Z.of_nat (length t))); [reflexivity|lia].
Qed.

Lemma read_inside (b : pyval) (t : list pyval) (z : Z) :
  0 <= z < Z.of_nat (length t) -> t !! Z.to_nat z = Some (read b t z).
Proof.
  intros H. unfold read.
  destruct (Z.ltb_spec z 0); [lia|].
  destruct (Z.geb_spec z (Z.of_nat (length t))); [lia|]. cbn [orb].
  destruct (lookup_lt_is_Some_2 t (Z.to_nat z)) as [x Hx]; [lia|].
  rewrite Hx. reflexivity.
Qed.

Lemma read_lookup (b x : pyval) (t : list pyval) (z : Z) :
  0 <= z -> t !! Z.to_nat z = Some x -> read b t z = x.
Proof.
  intros Hz Hx. pose proof (lookup_lt_Some _ _ _ Hx) as Hlt.
  pose proof (read_inside b t z ltac:(lia)) as Hr. congruence.
Qed.

Lemma read_insert (b s : pyval) (t : list pyval) (h : nat) (z : Z) :
  (h < length t)%nat ->
  read b (<[h := s]> t) z = if z =? Z.of_nat h then s else read b t z.
Proof.
  intros Hh.
  destruct (Z.eqb_spec z (Z.of_nat h)) as [->|Hne].
  - apply read_lookup; [lia|]. rewrite Nat2Z.id. apply list_lookup_insert_eq. exact Hh.
  - destruct (Z.ltb_spec z 0) as [Hz|Hz];
      [rewrite !read_outside by (rewrite ?length_insert; lia); reflexivity|].
    destruct (Z.ltb_spec z (Z.of_nat (length t))) as [Hlt|Hge];
      [|rewrite !read_outside by (rewrite ?length_insert; lia); reflexivity].
    apply read_lookup; [lia|].
    rewrite list_lookup_insert_ne by lia. apply read_inside. lia.
Qed.

Lemma read_cons (b : pyval) (t : list pyval) (z : Z) :
  read b (b :: t) z = read b t (z - 1).
Proof.
  destruct (Z.ltb_spec z 0) as [Hz|Hz];
    [rewrite !read_outside by (cbn [length]; lia); reflexivity|].
  destruct (Z.eqb_spec z 0) as [->|Hne].
  - rewrite (read_outside b t (0 - 1)) by lia. apply read_lookup; [lia|reflexivity].
  - destruct (Z.ltb_spec (z - 1) (Z.of_nat (length t))) as [Hlt|Hge];
      [|rewrite !read_outside by (cbn [length]; lia); reflexivity].
    apply read_lookup; [lia|].
    replace (Z.to_nat z) with (S (Z.to_nat (z - 1))) by lia.
    cbn. apply read_inside. lia.
Qed.

Lemma read_snoc (b : pyval) (t : list pyval) (z : Z) :
  read b (t ++ [b]) z = read b t z.
Proof.
  destruct (Z.ltb_spec z 0) as [Hz|Hz];
    [rewrite !read_outside by lia; reflexivity|].
  destruct (Z.ltb_spec z (Z.of_nat (length t))) as [Hlt|Hge].
  - apply read_lookup; [lia|]. rewrite lookup_app_l by lia. apply read_inside. lia.
  - rewrite (read_outside b t z) by lia.
    destruct (Z.eqb_spec z (Z.of_nat (length t))) as [->|Hne].
    + apply read_lookup; [lia|]. rewrite Nat2Z.id.
      rewrite lookup_app_r by lia. rewrite Nat.sub_diag. reflexivity.
    + apply read_outside. rewrite length_app. cbn [length]. lia.
Qed.

Lemma read_app_replicate (b : pyval) (t : list pyval) (n : nat) (z : Z) :
  read b (t ++ replicate n b) z = read b t z.
Proof.
  induction n as [|n IH]; [rewrite app_nil_r; reflexivity|].
  rewrite replicate_S_end, app_assoc, read_snoc. exact IH.
Qed.

Lemma read_replicate_app (b : pyval) (t : list pyval) (n : nat) (z : Z) :
  read b (replicate n b ++ t) z = read b t (z - Z.of_nat n).
Proof.
  revert z. induction n as [|n IH]; intros z.
  - cbn. f_equal. lia.
  - cbn [replicate app]. rewrite read_cons, IH. f_equal. lia.
Qed.

Lemma read_nil (b : pyval) (z : Z) : read b [] z = b.
Proof. apply read_outside. cbn. lia. Qed.

(** Tape and head once a transition has been applied. *)
Lemma transition_applied_tape (m : TuringMachine) (t : list pyval) (q s : pyval) (mv : Z) :
  let t1 := <[_head m := s]> t in
  let m' := transition_applied m t q s mv in
  _blank m' = _blank m
  /\ ((mv = MOVE_LEFT /\ _head m = 0%nat
       /\ _tape m' = Some (_blank m :: t1) /\ _head m' = 0%nat)
      \/ (mv = MOVE_LEFT /\ _head m <> 0%nat
          /\ _tape m' = Some t1 /\ _head m' = (_head m - 1)%nat)
      \/ (mv = MOVE_RIGHT /\ (_head m + 1)%nat = length t
          /\ _tape m' = Some (t1 ++ [_blank m]) /\ _head m' = (_head m + 1)%nat)
      \/ (mv = MOVE_RIGHT /\ (_head m + 1)%nat <> length t
          /\ _tape m' = Some t1 /\ _head m' = (_head m + 1)%nat)
      \/ (mv <> MOVE_LEFT /\ mv <> MOVE_RIGHT
          /\ _tape m' = Some t1 /\ _head m' = _head m)).
Proof.
  intros t1 m'. subst m'. unfold transition_applied, move_head. fold t1.
  cbn [_head _tape _blank set_cur_state set_tape set_head].
  destruct (Z.eqb_spec mv MOVE_LEFT) as [Hl|Hl].
  - destruct (Nat.eqb_spec (_head m) 0) as [H0|H0]; (split; [reflexivity|]).
    + left. auto.
    + right. left. auto.
  - destruct (Z.eqb_spec mv MOVE_RIGHT) as [Hr|Hr].
    + cbn [_head set_head].
      assert (Hlen : length t1 = length t) by apply length_insert.
      destruct (Nat.eqb_spec (_head m + 1) (length t1)) as [He|He]; (split; [reflexivity|]).
      * right. right. left. repeat split; auto. lia.
      * right. right. right. left. repeat split; auto. lia.
    + split; [reflexivity|]. right. right. right. right. auto.
Qed.

End UnboundedTapeFacts.

(** X1. A returning [step()] acts on the unbounded tape as the transition
    says: seen from the new head, the cell the old head was on holds the
    written symbol and every other cell holds what it held, the view being
    shifted by one cell to the left for [MOVE_LEFT], to the right for
    [MOVE_RIGHT], and not at all otherwise; the state is the new state. *)
Theorem step_on_unbounded_tape (m : TM.TuringMachine) (t : list pyval)
    (sym q s : pyval) (mv : Z) (i : Z) :
  TM.isAtHaltState m = false ->
  TM._tape m = Some t ->
  t !! TM._head m = Some sym ->
  TM._trans_function m !! (TM._cur_state m, sym) = Some (q, s, mv) ->
  fst (TM.step m) = Return tt
  /\ TM._cur_state (snd (TM.step m)) = q
  /\ Facts.cell (snd (TM.step m)) i
     = if i + Facts.displacement mv =? 0 then s
       else Facts.cell m (i + Facts.displacement mv).
Proof.
  intros Hh Ht Hs Hl. rewrite (step_success m t sym q s mv Hh Ht Hs Hl).
  split; [reflexivity|]. split.
  { cbn [snd TM._cur_state TM.set_nexecuted_steps TM.set_calls].
    unfold Facts.transition_applied. rewrite move_head_cur_state. reflexivity. }
  cbn [snd].
  pose proof (lookup_lt_Some _ _ _ Hs) as Hlt.
  destruct (transition_applied_tape m t q s mv) as [Hb Hcases].
  set (m' := Facts.transition_applied m t q s mv) in *.
  rewrite (cell_read m t _ Ht).
  assert (Hcell : forall buf, TM._tape m' = Some buf ->
            Facts.cell (TM.set_nexecuted_steps (TM._nexecuted_steps m + 1)
                          (TM.set_calls
                             (TM.calls m
                              ++ map (fun o => TM.seen m o (TM.onStepStart (TM._cur_state m) sym))
                                     (TM._observers m)
                              ++ flat_map (Facts.step_end_calls m' (TM._head m) q s mv)
                                          (TM._observers m)) m')) i
            = Facts.read (TM._blank m) buf (Z.of_nat (TM._head m') + i)).
  { intros buf Hbuf. rewrite <- Hb.
    match goal with |- Facts.cell ?W _ = _ => exact (cell_read W buf i Hbuf) end. }
  unfold Facts.displacement.
  destruct Hcases as [(-> & H0 & Ht' & Hh')|[(-> & H0 & Ht' & Hh')|[(-> & H0 & Ht' & Hh')
                       |[(-> & H0 & Ht' & Hh')|(Hnl & Hnr & Ht' & Hh')]]]];
    rewrite (Hcell _ Ht'), Hh'.
  - change (TM.MOVE_LEFT =? TM.MOVE_LEFT) with true. cbv iota.
    rewrite read_cons, read_insert by exact Hlt. rewrite H0.
    replace (Z.of_nat 0 + i - 1) with (Z.of_nat 0 + (i + -1)) by lia.
    destruct (Z.eqb_spec (Z.of_nat 0 + (i + -1)) (Z.of_nat 0));
      destruct (Z.eqb_spec (i + -1) 0); try lia; reflexivity.
  - change (TM.MOVE_LEFT =? TM.MOVE_LEFT) with true. cbv iota.
    rewrite read_insert by exact Hlt.
    replace (Z.of_nat (TM._head m - 1) + i) with (Z.of_nat (TM._head m) + (i + -1)) by lia.
    destruct (Z.eqb_spec (Z.of_nat (TM._head m) + (i + -1)) (Z.of_nat (TM._head m)));
      destruct (Z.eqb_spec (i + -1) 0); try lia; reflexivity.
  - change (TM.MOVE_RIGHT =? TM.MOVE_LEFT) with false.
    change (TM.MOVE_RIGHT =? TM.MOVE_RIGHT) with true. cbv iota.
    rewrite read_snoc, read_insert by exact Hlt.
    replace (Z.of_nat (TM._head m + 1) + i) with (Z.of_nat (TM._head m) + (i + 1)) by lia.
    destruct (Z.eqb_spec (Z.of_nat (TM._head m) + (i + 1)) (Z.of_nat (TM._head m)));
      destruct (Z.eqb_spec (i + 1) 0); try lia; reflexivity.
  - change (TM.MOVE_RIGHT =? TM.MOVE_LEFT) with false.
    change (TM.MOVE_RIGHT =? TM.MOVE_RIGHT) with true. cbv iota.
    rewrite read_insert by exact Hlt.
    replace (Z.of_nat (TM._head m + 1) + i) with (Z.of_nat (TM._head m) + (i + 1)) by lia.
    destruct (Z.eqb_spec (Z.of_nat (TM._head m) + (i + 1)) (Z.of_nat (TM._head m)));
      destruct (Z.eqb_spec (i + 1) 0); try lia; reflexivity.
  - destruct (Z.eqb_spec mv TM.MOVE_LEFT); [contradiction|].
    destruct (Z.eqb_spec mv TM.MOVE_RIGHT); [contradiction|].
    rewrite read_insert by exact Hlt.
    destruct (Z.eqb_spec (Z.of_nat (TM._head m) + i) (Z.of_nat (TM._head m)));
      destruct (Z.eqb_spec (i + 0) 0); try lia; try reflexivity.
    f_equal. lia.
Qed.

(** The incrementer's first step moves right after writing 0: one cell to
    the left of the new head is the written 0. *)
Lemma step_on_unbounded_tape_witness :
  Facts.cell (snd (TM.step Incrementer.loaded)) (-1) = PInt 0.
Proof.
  destruct (step_on_unbounded_tape Incrementer.loaded Incrementer.tape (PInt 1) (PInt 2)
              (PInt 0) TM.MOVE_RIGHT (-1) eq_refl eq_refl eq_refl eq_refl) as (_ & _ & Hcell).
  rewrite Hcell. reflexivity.
Defined.

Section SetTapeFacts.
Import TM Facts.

Lemma contains_invalid (m : TuringMachine) (t : list pyval) :
  (exists s, s ∈ t /\ s ∉ _tape_alphabet m) ->
  ~ Forall (fun s => s ∈ _tape_alphabet m) t.
Proof. intros (s & Hin & Hnot) Hall. rewrite Forall_forall in Hall. exact (Hnot (Hall s Hin)). Qed.

Lemma setTape_invalid (m : TuringMachine) (t : list pyval) (p : Z) :
  ~ Forall (fun s => s ∈ _tape_alphabet m) t ->
  setTape t p m = (Raise InvalidSymbolException, m).
Proof.
  intros Hnot. unfold setTape, bind at 1, get at 1. unfold bind at 1.
  rewrite (setTape_symbol_rejected m m t Hnot). reflexivity.
Qed.

Lemma step_counter (m : TuringMachine) :
  (_nexecuted_steps m <= _nexecuted_steps (snd (step m)) <= _nexecuted_steps m + 1)%nat.
Proof.
  destruct (step_outcomes m) as [H|[H|[H|(t & sym & _ & _ & [[_ H]|(q & s & mv & _ & _ & H)])]]];
    rewrite H; cbn; lia.
Qed.

Lemma run_for_counter (n : nat) (m : TuringMachine) :
  (_nexecuted_steps m <= _nexecuted_steps (snd (run_for n m)) <= _nexecuted_steps m + n)%nat.
Proof.
  revert m. induction n as [|n IH]; intros m; [cbn; lia|].
  cbn [run_for]. unfold bind. pose proof (step_counter m) as Hc.
  destruct (step m) as [[[]|e] m1]; cbn [snd] in *; [|lia].
  specialize (IH m1). lia.
Qed.

Lemma run_while_counter (fuel : nat) (m m' : TuringMachine) (r : outcome unit) :
  run_while fuel m = Some (r, m') -> (_nexecuted_steps m <= _nexecuted_steps m')%nat.
Proof.
  revert m. induction fuel as [|fuel IH]; intros m; cbn [run_while];
    destruct (isAtHaltState m); try (intros [= _ <-]; lia); try discriminate.
  pose proof (step_counter m) as Hc.
  destruct (step m) as [[[]|e] m1]; cbn [snd] in Hc.
  - intros H. specialize (IH _ H). lia.
  - intros [= _ <-]. lia.
Qed.

Lemma run_counter (fuel : nat) (max_steps : option Z) (m m' : TuringMachine) (r : outcome Z) :
  run fuel max_steps m = Some (r, m') -> (_nexecuted_steps m <= _nexecuted_steps m')%nat.
Proof.
  unfold run. destruct (max_steps_given max_steps) as [n|].
  - unfold try_except, bind. pose proof (run_for_counter (Z.to_nat n) m) as Hd.
    destruct (run_for (Z.to_nat n) m) as [[[]|e] m1]; cbn [snd] in Hd.
    + cbn. intros [= _ <-]. lia.
    + destruct e; cbn; intros [= _ <-]; lia.
  - destruct (run_while fuel m) as [[[[]|e] m1]|] eqn:E; [| |discriminate].
    + intros [= _ <-]. exact (run_while_counter _ _ _ _ E).
    + destruct e; cbn; intros [= _ <-]; exact (run_while_counter _ _ _ _ E).
Qed.

End SetTapeFacts.

(** X2. [setTape(t, p)], for any integer [p] and any [t] over the tape
    alphabet, returns and lays [t] on the unbounded tape with the head at
    index [p] of [t]: the cell [i] places from the head holds [t[p+i]] when
    [0 <= p+i < len(t)] and the blank otherwise. *)
Theorem setTape_lays_tape (m : TM.TuringMachine) (t : list pyval) (p i : Z) :
  Forall (fun s => s ∈ TM._tape_alphabet m) t ->
  fst (TM.setTape t p m) = Return tt
  /\ Facts.cell (snd (TM.setTape t p m)) i = Facts.read (TM._blank m) t (p + i).
Proof.
  intros Hw. destruct (setTape_result m t p Hw) as (buf & h & -> & Hcases).
  split; [reflexivity|]. cbn [snd].
  match goal with
  | |- Facts.cell ?W _ = _ => rewrite (cell_read W buf i eq_refl)
  end.
  cbn [TM._blank TM._head TM.set_calls TM.set_head TM.set_tape].
  destruct Hcases as [(Hp & -> & ->)|[(Hp & -> & ->)|(Hp & -> & ->)]].
  - rewrite read_replicate_app. f_equal. lia.
  - rewrite read_app_replicate. rewrite Z2Nat.id by lia.
    destruct t as [|a t]; [|reflexivity].
    rewrite read_nil. change [TM._blank m] with ([] ++ [TM._blank m]).
    rewrite read_snoc. apply read_nil.
  - rewrite Z2Nat.id by lia. reflexivity.
Qed.

(** [setTape([1,0,0,0,0,1], -2)] on the incrementer: two cells to the right
    of the head is the first symbol of the tape. *)
Lemma setTape_lays_tape_witness :
  fst (TM.setTape Incrementer.tape (-2) Incrementer.machine) = Return tt
  /\ Facts.cell (snd (TM.setTape Incrementer.tape (-2) Incrementer.machine)) 2
     = Facts.read Incrementer.blank Incrementer.tape (-2 + 2).
Proof.
  apply (setTape_lays_tape Incrementer.machine Incrementer.tape (-2) 2).
  unfold Incrementer.tape.
  repeat (apply Forall_cons; split; [apply (bool_decide_unpack _); vm_compute; reflexivity|]).
  apply Forall_nil. exact I.
Defined.

(** X3. After [setTape(t, p)] with [t] over the tape alphabet the tape is
    never empty, so [getTapeIterator()] returns it, and the head is on one
    of its cells exactly when [p < len(t)] or [t] is empty. *)
Theorem setTape_head_on_tape (m : TM.TuringMachine) (t : list pyval) (p : Z) :
  Forall (fun s => s ∈ TM._tape_alphabet m) t ->
  (exists buf, TM._tape (snd (TM.setTape t p m)) = Some buf
               /\ TM.getTapeIterator (snd (TM.setTape t p m)) = Return buf)
  /\ (Facts.head_on_tape (snd (TM.setTape t p m)) <-> p < Z.of_nat (length t) \/ t = []).
Proof.
  intros Hw. destruct (setTape_result m t p Hw) as (buf & h & -> & Hcases).
  cbn [snd]. unfold Facts.head_on_tape, TM.getTapeIterator.
  cbn [TM._tape TM._head TM.set_calls TM.set_head TM.set_tape].
  assert (Hne : buf <> []).
  { destruct Hcases as [(Hp & -> & _)|[(Hp & -> & _)|(Hp & -> & _)]].
    - destruct (Z.to_nat (- p)) eqn:E; [lia|discriminate].
    - destruct t; discriminate.
    - destruct t; [cbn in Hp; lia|discriminate]. }
  split.
  - exists buf. split; [reflexivity|]. destruct buf; [contradiction|reflexivity].
  - split.
    + intros (b' & [= <-] & Hlt).
      destruct Hcases as [(Hp & -> & ->)|[(Hp & -> & ->)|(Hp & -> & ->)]]; [lia| |lia].
      destruct t as [|a t]; [right; reflexivity|].
      rewrite length_app, length_replicate in Hlt. lia.
    + intros H. exists buf. split; [reflexivity|].
      destruct Hcases as [(Hp & -> & ->)|[(Hp & -> & ->)|(Hp & -> & ->)]].
      * rewrite length_app, length_replicate. lia.
      * destruct H as [H| ->]; [lia|].
        rewrite length_app, length_replicate. cbn [length] in *. lia.
      * lia.
Qed.

(** On the incrementer, [setTape([], 3)] leaves a tape of blanks. *)
Lemma setTape_head_on_tape_witness :
  exists buf, TM._tape (snd (TM.setTape [] 3 Incrementer.machine)) = Some buf
              /\ TM.getTapeIterator (snd (TM.setTape [] 3 Incrementer.machine)) = Return buf.
Proof.
  exact (proj1 (setTape_head_on_tape Incrementer.machine [] 3 (Forall_nil_2 _))).
Defined.

(** X4. [setTape(t, p)] with [t] over the tape alphabet keeps the current
    state and the counter of executed steps, and calls [onTapeChanged] once
    on every observer, in the order of attachment, with the argument [p]
    as it was given (also when it is negative and the head is put at 0),
    the new tape being in place. *)
Theorem setTape_keeps_state_and_notifies (m : TM.TuringMachine) (t : list pyval) (p : Z) :
  Forall (fun s => s ∈ TM._tape_alphabet m) t ->
  TM._cur_state (snd (TM.setTape t p m)) = TM._cur_state m
  /\ TM._nexecuted_steps (snd (TM.setTape t p m)) = TM._nexecuted_steps m
  /\ TM.calls (snd (TM.setTape t p m))
     = TM.calls m
       ++ map (fun o => TM.seen (snd (TM.setTape t p m)) o (TM.onTapeChanged p))
              (TM._observers m).
Proof.
  intros Hw. destruct (setTape_result m t p Hw) as (buf & h & -> & _).
  repeat split.
Qed.

Lemma setTape_keeps_state_and_notifies_witness :
  TM._cur_state (snd (TM.setTape Incrementer.tape (-2) Incrementer.observed))
  = TM._cur_state Incrementer.observed
  /\ TM._nexecuted_steps (snd (TM.setTape Incrementer.tape (-2) Incrementer.observed))
     = TM._nexecuted_steps Incrementer.observed
  /\ TM.calls (snd (TM.setTape Incrementer.tape (-2) Incrementer.observed))
     = TM.calls Incrementer.observed
       ++ map (fun o => TM.seen (snd (TM.setTape Incrementer.tape (-2) Incrementer.observed)) o
                                (TM.onTapeChanged (-2)))
              (TM._observers Incrementer.observed).
Proof.
  apply (setTape_keeps_state_and_notifies Incrementer.observed Incrementer.tape (-2)).
  unfold Incrementer.tape.
  repeat (apply Forall_cons; split; [apply (bool_decide_unpack _); vm_compute; reflexivity|]).
  apply Forall_nil. exact I.
Defined.

(** X5. A tape or word with a symbol outside the tape alphabet makes
    [setTape] and [isWordAccepted] raise [InvalidSymbolException] and leaves
    the machine as it was: no tape is installed, no observer is called. *)
Theorem invalid_symbol_rejected (fuel : nat) (m : TM.TuringMachine) (t : list pyval)
    (p : Z) (max_steps : option Z) :
  (exists s, s ∈ t /\ s ∉ TM._tape_alphabet m) ->
  TM.setTape t p m = (Raise InvalidSymbolException, m)
  /\ TM.isWordAccepted fuel t max_steps m = Some (Raise InvalidSymbolException, m).
Proof.
  intros H. apply contains_invalid in H. split; [apply setTape_invalid, H|].
  unfold TM.isWordAccepted. rewrite (setTape_invalid m t 0 H). reflexivity.
Qed.

(** The self-test of [tm.py] sets the tape [1,0,1,0,0,1,0,3]; 3 is not a
    symbol of the incrementer. *)
Lemma invalid_symbol_rejected_witness :
  TM.setTape [PInt 1; PInt 0; PInt 1; PInt 0; PInt 0; PInt 1; PInt 0; PInt 3] 0 Incrementer.machine
  = (Raise InvalidSymbolException, Incrementer.machine)
  /\ TM.isWordAccepted 0 [PInt 1; PInt 0; PInt 1; PInt 0; PInt 0; PInt 1; PInt 0; PInt 3] None
                       Incrementer.machine
     = Some (Raise InvalidSymbolException, Incrementer.machine).
Proof.
  apply invalid_symbol_rejected. exists (PInt 3). split.
  - apply (bool_decide_unpack _). vm_compute. reflexivity.
  - apply (bool_decide_unpack _). vm_compute. reflexivity.
Defined.

Section LoopFacts.
Import TM Facts.

Lemma step_keeps_head_on_tape (m : TuringMachine) :
  head_on_tape m ->
  head_on_tape (snd (step m))
  /\ (fst (step m) = Return tt
      \/ (fst (step m) = Raise HaltStateException /\ isAtHaltState m = true)
      \/ (fst (step m) = Raise UnknownTransitionException /\ isAtHaltState m = false
          /\ snd (step m)
             = set_calls (calls (snd (step m))) m
          /\ exists t sym, _tape m = Some t /\ t !! _head m = Some sym
                           /\ _trans_function m !! (_cur_state m, sym) = None)).
Proof.
  intros (t & Ht & Hlt).
  destruct (isAtHaltState m) eqn:Hh.
  - rewrite (step_halted m Hh). split; [exists t; auto|]. right. left. auto.
  - destruct (lookup_lt_is_Some_2 t (_head m) Hlt) as [sym Hs].
    destruct (_trans_function m !! (_cur_state m, sym)) as [[[q s] mv]|] eqn:Hl.
    + rewrite (step_success m t sym q s mv Hh Ht Hs Hl). cbn [fst snd].
      split; [|left; reflexivity].
      destruct (transition_applied_head_on_tape m t q s mv Hlt) as (t' & Ht' & Hlt').
      exists t'. split; assumption.
    + rewrite (step_unknown m t sym Hh Ht Hs Hl). cbn [fst snd].
      split; [exists t; auto|]. right. right. split; [reflexivity|]. split; [reflexivity|].
      split; [reflexivity|]. exists t, sym. auto.
Qed.

Lemma steps_head_on_tape (k : nat) (m m' : TuringMachine) :
  steps k m m' -> head_on_tape m -> head_on_tape m'.
Proof.
  induction 1 as [m|k m m1 m' Hstep _ IH]; [auto|].
  intros Hm. apply IH. destruct (step_keeps_head_on_tape m Hm) as [H _].
  rewrite Hstep in H. exact H.
Qed.

Lemma steps_snoc (k : nat) (m m1 m' : TuringMachine) :
  steps k m m1 -> step m1 = (Return tt, m') -> steps (S k) m m'.
Proof.
  induction 1 as [m|k m m0 m1 Hstep _ IH]; intros Hlast.
  - econstructor; [exact Hlast|constructor].
  - econstructor; [exact Hstep|]. apply IH, Hlast.
Qed.

(** How the loops end: after some number of returning steps, the bounded
    loop has used up its count, found the halt state or met an exception;
    the unbounded one has found the halt state or met an exception. *)
Lemma run_while_ends (fuel : nat) (m m' : TuringMachine) (r : outcome unit) :
  run_while fuel m = Some (r, m') ->
  exists k mk,
    steps k m mk
    /\ ((r = Return tt /\ m' = mk /\ isAtHaltState mk = true)
        \/ (exists e, r = Raise e /\ isAtHaltState mk = false /\ step mk = (Raise e, m'))).
Proof.
  revert m. induction fuel as [|fuel IH]; intros m; cbn [run_while];
    destruct (isAtHaltState m) eqn:Hh;
    try (intros [= <- <-]; exists 0%nat, m; split; [constructor|left; auto]);
    try discriminate.
  destruct (step m) as [[[]|e] m1] eqn:Hstep.
  - intros H. destruct (IH _ H) as (k & mk & Hsteps & Hend).
    exists (S k), mk. split; [econstructor; eassumption|exact Hend].
  - intros [= <- <-]. exists 0%nat, m. split; [constructor|]. right. eauto.
Qed.

Lemma run_for_ends (n : nat) (m : TuringMachine) :
  exists k mk,
    (k <= n)%nat /\ steps k m mk
    /\ ((k = n /\ run_for n m = (Return tt, mk))
        \/ (k < n /\ exists e, run_for n m = (Raise e, snd (step mk))
                               /\ fst (step mk) = Raise e))%nat.
Proof.
  revert m. induction n as [|n IH]; intros m.
  - exists 0%nat, m. split; [lia|]. split; [constructor|]. left. auto.
  - cbn [run_for]. unfold bind. destruct (step m) as [[[]|e] m1] eqn:Hstep.
    + destruct (IH m1) as (k & mk & Hle & Hsteps & Hend).
      exists (S k), mk. split; [lia|]. split; [econstructor; eassumption|].
      destruct Hend as [[-> Hr]|(Hlt & e & Hr & He)].
      * left. auto.
      * right. split; [lia|]. eauto.
    + exists 0%nat, m. split; [lia|]. split; [constructor|]. right. split; [lia|].
      exists e. rewrite Hstep. auto.
Qed.

(** The bounded run when the halt state is reached, or a transition is
    missing, before the bound. *)
Lemma run_bounded_halts (fuel k : nat) (m mk : TuringMachine) (N : Z) :
  (k < Z.to_nat N)%nat -> steps k m mk -> isAtHaltState mk = true ->
  run fuel (Some N) m = Some (Return 0, mk).
Proof.
  intros Hk Hsteps Hhalt. unfold run. rewrite (max_steps_given_positive N) by lia.
  unfold try_except, bind.
  replace (Z.to_nat N) with (k + S (Z.to_nat N - S k))%nat by lia.
  rewrite (run_for_after_steps _ _ _ _ Hsteps). cbn [run_for]. unfold bind.
  rewrite (step_halted _ Hhalt). reflexivity.
Qed.

Lemma run_bounded_unknown (fuel k : nat) (m mk m' : TuringMachine) (N : Z) :
  (k < Z.to_nat N)%nat -> steps k m mk ->
  step mk = (Raise UnknownTransitionException, m') ->
  run fuel (Some N) m = Some (Return 2, m').
Proof.
  intros Hk Hsteps Hu. unfold run. rewrite (max_steps_given_positive N) by lia.
  unfold try_except, bind.
  replace (Z.to_nat N) with (k + S (Z.to_nat N - S k))%nat by lia.
  rewrite (run_for_after_steps _ _ _ _ Hsteps). cbn [run_for]. unfold bind.
  rewrite Hu. reflexivity.
Qed.

End LoopFacts.

(** X6. Whatever they return or raise, [step], [setTape], [run] and
    [isWordAccepted] leave the description of the machine alone: states,
    alphabets, transition function, initial, final and halt states, blank
    symbol and attached observers. *)
Theorem description_preserved (fuel : nat) (m : TM.TuringMachine) (t : list pyval) (p : Z)
    (max_steps : option Z) :
  Facts.description (snd (TM.step m)) = Facts.description m
  /\ Facts.description (snd (TM.setTape t p m)) = Facts.description m
  /\ Facts.description (from_option snd m (TM.run fuel max_steps m)) = Facts.description m
  /\ Facts.description (from_option snd m (TM.isWordAccepted fuel t max_steps m))
     = Facts.description m.
Proof.
  assert (Hset : forall p', Facts.description (snd (TM.setTape t p' m)) = Facts.description m).
  { intros p'. destruct (decide (Forall (fun s => s ∈ TM._tape_alphabet m) t)) as [Hw|Hw].
    - destruct (setTape_result m t p' Hw) as (buf & h & -> & _). reflexivity.
    - rewrite (setTape_invalid m t p' Hw). reflexivity. }
  split; [apply step_description|]. split; [apply Hset|]. split.
  - destruct (TM.run fuel max_steps m) as [[r m']|] eqn:E; [|reflexivity].
    exact (run_description _ _ _ _ _ E).
  - unfold TM.isWordAccepted. specialize (Hset 0).
    destruct (TM.setTape t 0 m) as [[[]|e] m1]; cbn [snd] in Hset; [|exact Hset].
    destruct (TM.run fuel max_steps m1) as [[[c|e] m2]|] eqn:E; [| |reflexivity].
    + cbn [from_option snd]. rewrite <- Hset, <- (run_description _ _ _ _ _ E). reflexivity.
    + cbn [from_option snd]. rewrite <- Hset, <- (run_description _ _ _ _ _ E). reflexivity.
Qed.

(** X7. On a machine whose tape is set with the head on one of its cells,
    [step()] leaves the head on a cell of the tape, and [run], with or
    without bound, leaves it there too and raises nothing: when it ends it
    returns a code. *)
Theorem head_stays_on_tape (fuel : nat) (m m' : TM.TuringMachine) (max_steps : option Z)
    (r : outcome Z) :
  Facts.head_on_tape m ->
  Facts.head_on_tape (snd (TM.step m))
  /\ (TM.run fuel max_steps m = Some (r, m') ->
      Facts.head_on_tape m' /\ exists c, r = Return c).
Proof.
  intros Hm. split; [apply step_keeps_head_on_tape, Hm|].
  unfold TM.run. destruct (TM.max_steps_given max_steps) as [n|].
  - unfold try_except, bind.
    destruct (run_for_ends (Z.to_nat n) m) as (k & mk & _ & Hsteps & Hend).
    pose proof (steps_head_on_tape _ _ _ Hsteps Hm) as Hmk.
    destruct Hend as [[_ ->]|(_ & e & -> & He)].
    + cbn. intros [= <- <-]. eauto.
    + destruct (step_keeps_head_on_tape mk Hmk) as [Hk [Hr|[[Hr _]|[Hr _]]]];
        rewrite Hr in He; injection He as <- || discriminate He;
        cbn; intros [= <- <-]; eauto.
  - destruct (TM.run_while fuel m) as [[r0 m0]|] eqn:E; [|discriminate].
    destruct (run_while_ends _ _ _ _ E) as (k & mk & Hsteps & Hend).
    pose proof (steps_head_on_tape _ _ _ Hsteps Hm) as Hmk.
    destruct Hend as [(-> & -> & _)|(e & -> & Hnh & Hstep)].
    + intros [= <- <-]. eauto.
    + destruct (step_keeps_head_on_tape mk Hmk) as [Hk [Hr|[[Hr Hx]|[Hr _]]]];
        rewrite Hstep in Hr, Hk; cbn [fst snd] in Hr, Hk; try congruence.
      injection Hr as ->. cbn. intros [= <- <-]. eauto.
Qed.

Lemma head_stays_on_tape_witness :
  Facts.head_on_tape (snd (TM.step Incrementer.loaded)).
Proof.
  refine (proj1 (head_stays_on_tape 0 Incrementer.loaded Incrementer.loaded None (Return 0) _)).
  exists Incrementer.tape. split; [reflexivity|].
  apply Nat.ltb_lt. vm_compute. reflexivity.
Defined.

(** X8. When [run()] without bound ends on a machine whose head is on the
    tape, it returns 0 with the machine in its halt state, or 2 with the
    machine out of the halt state and no transition for its current state
    and the symbol under its head. *)
Theorem run_unbounded (fuel : nat) (m m' : TM.TuringMachine) (r : outcome Z) :
  Facts.head_on_tape m ->
  TM.run fuel None m = Some (r, m') ->
  (r = Return 0 /\ TM.isAtHaltState m' = true)
  \/ (r = Return 2 /\ TM.isAtHaltState m' = false
      /\ exists t sym, TM._tape m' = Some t /\ t !! TM._head m' = Some sym
                       /\ TM._trans_function m' !! (TM._cur_state m', sym) = None).
Proof.
  intros Hm. unfold TM.run. cbn [TM.max_steps_given].
  destruct (TM.run_while fuel m) as [[r0 m0]|] eqn:E; [|discriminate].
  destruct (run_while_ends _ _ _ _ E) as (k & mk & Hsteps & Hend).
  pose proof (steps_head_on_tape _ _ _ Hsteps Hm) as Hmk.
  destruct Hend as [(-> & -> & Hh)|(e & -> & Hnh & Hstep)].
  - intros [= <- <-]. left. auto.
  - destruct (step_keeps_head_on_tape mk Hmk) as [_ [Hr|[[Hr Hx]|(Hr & _ & Hsame & t & sym & Ht & Hs & Hl)]]];
      rewrite Hstep in *; cbn [fst snd] in *; try congruence.
    injection Hr as ->. cbn. intros [= <- <-]. right. split; [reflexivity|].
    rewrite Hsame. split; [exact Hnh|]. exists t, sym. auto.
Qed.

Lemma run_unbounded_witness :
  TM.isAtHaltState (match TM.run 11 None Incrementer.loaded with
                    | Some (_, m) => m
                    | None => Incrementer.loaded
                    end) = true.
Proof.
  assert (Hm : Facts.head_on_tape Incrementer.loaded).
  { exists Incrementer.tape. split; [reflexivity|]. apply Nat.ltb_lt. vm_compute. reflexivity. }
  assert (Hrun : TM.run 11 None Incrementer.loaded
                 = Some (Return 0, match TM.run 11 None Incrementer.loaded with
                                   | Some (_, m) => m
                                   | None => Incrementer.loaded
                                   end)).
  { apply partial_call_result. vm_compute. reflexivity. }
  pose proof (run_unbounded 11 Incrementer.loaded) as Hd.
  specialize (Hd (match TM.run 11 None Incrementer.loaded with
                                   | Some (_, m) => m
                                   | None => Incrementer.loaded
                                   end)).
  specialize (Hd (Return 0)).
  specialize (Hd Hm).
  specialize (Hd Hrun).
  destruct Hd as [[_ Hh]|[H _]].
  - exact Hh.
  - discriminate H.
Defined.

(** X9. If [run()] without bound returns, then [run(N)] returns the same
    code and leaves the same machine for every bound [N] greater than the
    number of steps executed. *)
Theorem run_bounded_agrees (fuel fuel' : nat) (m m' : TM.TuringMachine) (c N : Z) :
  TM.run fuel None m = Some (Return c, m') ->
  Z.of_nat (TM._nexecuted_steps m') - Z.of_nat (TM._nexecuted_steps m) < N ->
  TM.run fuel' (Some N) m = Some (Return c, m').
Proof.
  unfold TM.run at 1. cbn [TM.max_steps_given].
  destruct (TM.run_while fuel m) as [[r0 m0]|] eqn:E; [|discriminate].
  destruct (run_while_ends _ _ _ _ E) as (k & mk & Hsteps & Hend).
  pose proof (steps_count _ _ _ Hsteps) as Hcount.
  destruct Hend as [(-> & -> & Hh)|(e & -> & Hnh & Hstep)].
  - intros [= <- <-] HN. apply (run_bounded_halts fuel' k m mk N); [lia|assumption|assumption].
  - destruct e; cbn; intros [= <- <-] || intros [=]. intros HN.
    pose proof (step_unknown_counts mk) as Hu. rewrite Hstep in Hu. cbn [fst snd] in Hu.
    specialize (Hu eq_refl).
    apply (run_bounded_unknown fuel' k m mk m0 N); [lia|assumption|assumption].
Qed.

Lemma run_bounded_agrees_witness :
  TM.run 0 (Some 12) Incrementer.loaded
  = Some (Return 0, match TM.run 11 None Incrementer.loaded with
                    | Some (_, m) => m
                    | None => Incrementer.loaded
                    end).
Proof.
  apply (run_bounded_agrees 11 0).
  - apply partial_call_result. vm_compute. reflexivity.
  - vm_compute. reflexivity.
Defined.

(** X10. [isWordAccepted] does not put the counter of executed steps back:
    when it returns, the counter is the one the run on the word has left,
    at least what it was before the call, and the description of the
    machine is unchanged. *)
Theorem isWordAccepted_counter (fuel : nat) (word : list pyval) (max_steps : option Z)
    (m m' : TM.TuringMachine) (accepted : option bool) :
  TM.isWordAccepted fuel word max_steps m = Some (Return accepted, m') ->
  exists (m1 m2 : TM.TuringMachine) (end_cond : Z),
    TM.setTape word 0 m = (Return tt, m1)
    /\ TM.run fuel max_steps m1 = Some (Return end_cond, m2)
    /\ TM._nexecuted_steps m' = TM._nexecuted_steps m2
    /\ (TM._nexecuted_steps m <= TM._nexecuted_steps m')%nat.
Proof.
  unfold TM.isWordAccepted.
  destruct (decide (Forall (fun s => s ∈ TM._tape_alphabet m) word)) as [Hw|Hw];
    [|rewrite (setTape_invalid m word 0 Hw); discriminate].
  destruct (setTape_keeps_state_and_notifies m word 0 Hw) as (_ & Hn & _).
  destruct (TM.setTape word 0 m) as [[[]|e] m1]; [|discriminate].
  destruct (TM.run fuel max_steps m1) as [[[c|e] m2]|] eqn:E; [| |]; intros [=].
  subst m'. exists m1, m2, c. split; [reflexivity|]. split; [exact E|].
  split; [reflexivity|]. cbn [snd] in Hn.
  pose proof (run_counter _ _ _ _ _ E) as Hc. cbn. lia.
Qed.

Lemma isWordAccepted_counter_witness :
  exists (m1 m2 : TM.TuringMachine) (end_cond : Z),
    TM.setTape [PInt 1; PInt 0; PInt 1; PInt 0] 0 Incrementer.loaded = (Return tt, m1)
    /\ TM.run 100 None m1 = Some (Return end_cond, m2)
    /\ TM._nexecuted_steps (Incrementer.after_query [PInt 1; PInt 0; PInt 1; PInt 0])
       = TM._nexecuted_steps m2
    /\ (TM._nexecuted_steps Incrementer.loaded
        <= TM._nexecuted_steps (Incrementer.after_query [PInt 1; PInt 0; PInt 1; PInt 0]))%nat.
Proof.
  apply (isWordAccepted_counter 100 [PInt 1; PInt 0; PInt 1; PInt 0] None Incrementer.loaded
           (Incrementer.after_query [PInt 1; PInt 0; PInt 1; PInt 0]) (Some false)).
  apply partial_call_result. vm_compute. reflexivity.
Defined.

Section ObserverFacts.
Import TM.

Lemma remove_first_elem_of (x o : observer) (l : list observer) :
  NoDup l -> x ∈ remove_first o l <-> x <> o /\ x ∈ l.
Proof.
  induction 1 as [|y l Hy Hnd IH]; cbn [remove_first].
  - split; [intros H; inversion H|intros [_ H]; exact H].
  - destruct (decide (y = o)) as [->|Hne].
    + rewrite bool_decide_eq_true_2 by reflexivity. rewrite elem_of_cons. split.
      * intros Hx. split; [intros ->; contradiction|auto].
      * intros [Hxo [->|Hx]]; [contradiction|exact Hx].
    + rewrite bool_decide_eq_false_2 by exact Hne. rewrite !elem_of_cons, IH. split.
      * intros [->|[Hxo Hx]]; auto.
      * intros [Hxo [->|Hx]]; auto.
Qed.

Lemma remove_first_NoDup (o : observer) (l : list observer) :
  NoDup l -> NoDup (remove_first o l).
Proof.
  induction 1 as [|y l Hy Hnd IH]; cbn [remove_first]; [constructor|].
  destruct (bool_decide (y = o)); [exact Hnd|].
  constructor; [|exact IH]. rewrite remove_first_elem_of by exact Hnd. tauto.
Qed.

Lemma remove_first_snoc (o : observer) (l : list observer) :
  o ∉ l -> remove_first o (l ++ [o]) = l.
Proof.
  induction l as [|y l IH]; intros Hnot; cbn [app remove_first].
  - rewrite bool_decide_eq_true_2 by reflexivity. reflexivity.
  - rewrite not_elem_of_cons in Hnot. destruct Hnot as [Hne Hnot].
    rewrite bool_decide_eq_false_2 by congruence. rewrite IH by exact Hnot. reflexivity.
Qed.

End ObserverFacts.

(** X11. The list of observers never holds an observer twice.
    [attachObserver] adds the observer when it is absent, at the end, and
    does nothing when it is there; [detachObserver] takes it away and does
    nothing when it is absent; detaching an observer that was just
    attached to a machine without it gives the machine back. *)
Theorem observers_attach_detach (o : TM.observer) (m : TM.TuringMachine) :
  NoDup (TM._observers m) ->
  (NoDup (TM._observers (snd (TM.attachObserver o m)))
   /\ TM._observers (snd (TM.attachObserver o m))
      = if bool_decide (o ∈ TM._observers m) then TM._observers m else TM._observers m ++ [o])
  /\ (NoDup (TM._observers (snd (TM.detachObserver o m)))
      /\ forall x, x ∈ TM._observers (snd (TM.detachObserver o m))
                   <-> x <> o /\ x ∈ TM._observers m)
  /\ snd (TM.attachObserver o (snd (TM.attachObserver o m))) = snd (TM.attachObserver o m)
  /\ (o ∉ TM._observers m ->
      snd (TM.detachObserver o m) = m
      /\ snd (TM.detachObserver o (snd (TM.attachObserver o m))) = m).
Proof.
  intros Hnd. unfold TM.attachObserver, TM.detachObserver, modify. cbn [snd].
  split; [|split; [|split]].
  - destruct (decide (o ∈ TM._observers m)) as [Hin|Hin].
    + rewrite !bool_decide_eq_true_2 by exact Hin. auto.
    + rewrite !bool_decide_eq_false_2 by exact Hin. cbn [TM._observers]. split; [|reflexivity].
      apply NoDup_app. split; [exact Hnd|]. split; [|apply NoDup_singleton].
      intros x Hx Hxo. apply list_elem_of_singleton in Hxo. congruence.
  - destruct (decide (o ∈ TM._observers m)) as [Hin|Hin].
    + rewrite !bool_decide_eq_true_2 by exact Hin. cbn [TM._observers TM.set_observers].
      split; [apply remove_first_NoDup, Hnd|]. intros x. apply remove_first_elem_of, Hnd.
    + rewrite !bool_decide_eq_false_2 by exact Hin. split; [exact Hnd|].
      intros x. split; [intros Hx; split; [intros ->; contradiction|exact Hx]|tauto].
  - destruct (decide (o ∈ TM._observers m)) as [Hin|Hin].
    + repeat rewrite (bool_decide_eq_true_2 _ Hin). reflexivity.
    + rewrite (bool_decide_eq_false_2 _ Hin). cbn [TM._observers].
      rewrite bool_decide_eq_true_2; [reflexivity|].
      apply elem_of_app. right. apply list_elem_of_singleton. reflexivity.
  - intros Hin. rewrite !(bool_decide_eq_false_2 _ Hin). split; [reflexivity|].
    cbn [TM._observers]. rewrite bool_decide_eq_true_2
      by (apply elem_of_app; right; apply list_elem_of_singleton; reflexivity).
    rewrite (remove_first_snoc o _ Hin). destruct m; reflexivity.
Qed.

Lemma observers_attach_detach_witness :
  TM._observers (snd (TM.attachObserver 7%nat Incrementer.observed)) = [0%nat; 7%nat].
Proof.
  assert (Hnd : NoDup (TM._observers Incrementer.observed)).
  { apply (bool_decide_unpack _). vm_compute. reflexivity. }
  destruct (observers_attach_detach 7%nat Incrementer.observed Hnd) as [[_ H] _].
  rewrite H. reflexivity.
Defined.

(** ** Further properties of the builder *)

Section BuilderEffects.
Import Builder Facts.

Lemma cond_modify (cond : TuringMachineBuilder -> bool)
    (f : TuringMachineBuilder -> TuringMachineBuilder) (b : TuringMachineBuilder) :
  bind get (fun b' => if cond b' then modify f else ret tt) b
  = (Return tt, if cond b then f b else b).
Proof. unfold bind, get, modify, ret. destruct (cond b); reflexivity. Qed.

Lemma has_len_above_1_false (v : pyval) (b : TuringMachineBuilder) :
  has_len_above_1 v b = (Return false, b).
Proof. destruct v; reflexivity. Qed.

(** The builder [addTransition] leaves when the movement is legal. *)
Lemma addTransition_result (state symbol new_state new_symbol : pyval) (movement : Z)
    (b : TuringMachineBuilder) :
  movement ∈ TM.HEAD_MOVEMENTS ->
  exists b1 b2 b3 b4,
    b1 = (if negb (bool_decide (state ∈ _states b)) then add_state state b else b)
    /\ b2 = (if negb (bool_decide (Some symbol = _blank b1))
                && negb (bool_decide (symbol ∈ _in_alphabet b1))
             then add_in_symbol symbol b1 else b1)
    /\ b3 = (if negb (bool_decide (new_state ∈ _states b2)) then add_state new_state b2 else b2)
    /\ b4 = (if negb (bool_decide (Some new_symbol = _blank b3))
                && negb (bool_decide (new_symbol ∈ _in_alphabet b3))
             then add_in_symbol new_symbol b3 else b3)
    /\ addTransition state symbol new_state new_symbol movement b
       = (Return tt, set_transition (state, symbol) (new_state, new_symbol, movement) b4).
Proof.
  intros H. eexists _, _, _, _. repeat (split; [reflexivity|]).
  unfold addTransition. rewrite (bool_decide_eq_true_2 _ H). cbn [negb].
  unfold bind at 1. rewrite has_len_above_1_false.
  unfold bind at 1. rewrite has_len_above_1_false.
  unfold bind at 1.
  rewrite (cond_modify (fun b' => negb (bool_decide (state ∈ _states b')))).
  unfold bind at 1.
  rewrite (cond_modify (fun b' => negb (bool_decide (Some symbol = _blank b'))
                                  && negb (bool_decide (symbol ∈ _in_alphabet b')))).
  unfold bind at 1.
  rewrite (cond_modify (fun b' => negb (bool_decide (new_state ∈ _states b')))).
  unfold bind at 1.
  rewrite (cond_modify (fun b' => negb (bool_decide (Some new_symbol = _blank b'))
                                  && negb (bool_decide (new_symbol ∈ _in_alphabet b')))).
  reflexivity.
Qed.

Lemma add_state_if (q : pyval) (b : TuringMachineBuilder) :
  let b' := if negb (bool_decide (q ∈ _states b)) then add_state q b else b in
  (forall x, x ∈ _states b' <-> x ∈ _states b \/ x = q)
  /\ _in_alphabet b' = _in_alphabet b /\ _trans_function b' = _trans_function b
  /\ _istate b' = _istate b /\ _fstates b' = _fstates b /\ _blank b' = _blank b
  /\ _haltstate b' = _haltstate b.
Proof.
  cbn zeta. destruct (decide (q ∈ _states b)) as [Hq|Hq].
  - rewrite (bool_decide_eq_true_2 _ Hq). cbn [negb]. repeat split; auto.
    intros [Hx| ->]; assumption.
  - rewrite (bool_decide_eq_false_2 _ Hq). cbn [negb]. repeat split.
    + intros Hx. apply elem_of_union in Hx. rewrite elem_of_singleton in Hx. exact Hx.
    + intros Hx. apply elem_of_union. rewrite elem_of_singleton. exact Hx.
Qed.

Lemma add_in_symbol_if (a : pyval) (b : TuringMachineBuilder) :
  let b' := if negb (bool_decide (Some a = _blank b)) && negb (bool_decide (a ∈ _in_alphabet b))
            then add_in_symbol a b else b in
  (forall x, x ∈ _in_alphabet b' <-> x ∈ _in_alphabet b \/ (x = a /\ Some a <> _blank b))
  /\ _states b' = _states b /\ _trans_function b' = _trans_function b
  /\ _istate b' = _istate b /\ _fstates b' = _fstates b /\ _blank b' = _blank b
  /\ _haltstate b' = _haltstate b.
Proof.
  cbn zeta. destruct (decide (Some a = _blank b)) as [Hb|Hb].
  - rewrite (bool_decide_eq_true_2 _ Hb). cbn [negb andb]. repeat split; auto.
    intros [Hx|[_ Hx]]; [assumption|contradiction].
  - rewrite (bool_decide_eq_false_2 _ Hb). cbn [negb andb].
    destruct (decide (a ∈ _in_alphabet b)) as [Ha|Ha].
    + rewrite (bool_decide_eq_true_2 _ Ha). cbn [negb]. repeat split; auto.
      intros [Hx|[-> _]]; assumption.
    + rewrite (bool_decide_eq_false_2 _ Ha). cbn [negb]. repeat split.
      * intros Hx. apply elem_of_union in Hx. rewrite elem_of_singleton in Hx.
        destruct Hx as [Hx| ->]; auto.
      * intros Hx. apply elem_of_union. rewrite elem_of_singleton.
        destruct Hx as [Hx|[-> _]]; auto.
Qed.

End BuilderEffects.

(** What [addTransition] changes, shared by the properties below. *)
Lemma addTransition_changes (state symbol new_state new_symbol : pyval) (movement : Z)
    (b : Builder.TuringMachineBuilder) :
  movement ∈ TM.HEAD_MOVEMENTS ->
  fst (Builder.addTransition state symbol new_state new_symbol movement b) = Return tt
  /\ (let b' := snd (Builder.addTransition state symbol new_state new_symbol movement b) in
      Builder._trans_function b'
      = <[ (state, symbol) := (new_state, new_symbol, movement) ]> (Builder._trans_function b)
      /\ (forall q, q ∈ Builder._states b'
                    <-> q ∈ Builder._states b \/ q = state \/ q = new_state)
      /\ (forall a, a ∈ Builder._in_alphabet b'
                    <-> a ∈ Builder._in_alphabet b
                        \/ ((a = symbol \/ a = new_symbol) /\ Some a <> Builder._blank b))
      /\ Builder._istate b' = Builder._istate b
      /\ Builder._fstates b' = Builder._fstates b
      /\ Builder._blank b' = Builder._blank b
      /\ Builder._haltstate b' = Builder._haltstate b).
Proof.
  intros H.
  destruct (addTransition_result state symbol new_state new_symbol movement b H)
    as (b1 & b2 & b3 & b4 & E1 & E2 & E3 & E4 & ->).
  split; [reflexivity|]. cbn [snd].
  destruct (add_state_if state b) as (S1 & A1 & T1 & I1 & F1 & B1 & H1). rewrite <- E1 in *.
  destruct (add_in_symbol_if symbol b1) as (A2 & S2 & T2 & I2 & F2 & B2 & H2). rewrite <- E2 in *.
  destruct (add_state_if new_state b2) as (S3 & A3 & T3 & I3 & F3 & B3 & H3). rewrite <- E3 in *.
  destruct (add_in_symbol_if new_symbol b3) as (A4 & S4 & T4 & I4 & F4 & B4 & H4).
  rewrite <- E4 in *.
  cbn [Builder._trans_function Builder._states Builder._in_alphabet Builder._istate
       Builder._fstates Builder._blank Builder._haltstate Builder.set_transition].
  split; [congruence|]. split; [|split; [|repeat split; congruence]].
  - intros q. rewrite S4, S3, S2, S1. tauto.
  - intros a. rewrite A4, A3, A2, A1, B3, B2, B1.
    split; [intros [[Ha|[-> Ha]]|[-> Ha]]; auto|intros [Ha|[[->| ->] Ha]]; auto].
Qed.

(** X12. With a legal movement, [addTransition] returns and maps (state,
    symbol) to (new state, new symbol, movement), replacing an earlier entry
    for that pair and keeping every other entry; the states gain the two
    states, the input alphabet gains the two symbols except a symbol that
    is the blank of the moment, and nothing else changes. *)
Theorem addTransition_effect (state symbol new_state new_symbol : pyval) (movement : Z)
    (b : Builder.TuringMachineBuilder) :
  movement ∈ TM.HEAD_MOVEMENTS ->
  fst (Builder.addTransition state symbol new_state new_symbol movement b) = Return tt
  /\ (let b' := snd (Builder.addTransition state symbol new_state new_symbol movement b) in
      Builder._trans_function b'
      = <[ (state, symbol) := (new_state, new_symbol, movement) ]> (Builder._trans_function b)
      /\ (forall q, q ∈ Builder._states b'
                    <-> q ∈ Builder._states b \/ q = state \/ q = new_state)
      /\ (forall a, a ∈ Builder._in_alphabet b'
                    <-> a ∈ Builder._in_alphabet b
                        \/ ((a = symbol \/ a = new_symbol) /\ Some a <> Builder._blank b))
      /\ Builder._istate b' = Builder._istate b
      /\ Builder._fstates b' = Builder._fstates b
      /\ Builder._blank b' = Builder._blank b
      /\ Builder._haltstate b' = Builder._haltstate b).
Proof. apply addTransition_changes. Qed.

Lemma addTransition_effect_witness :
  fst (Builder.addTransition (PStr "q0") (PStr "a") (PStr "q1") (PStr "b") TM.MOVE_LEFT
                             Builder.new) = Return tt.
Proof.
  refine (proj1 (addTransition_effect (PStr "q0") (PStr "a") (PStr "q1") (PStr "b")
                   TM.MOVE_LEFT Builder.new _)).
  apply (bool_decide_unpack _). vm_compute. reflexivity.
Defined.

(** X13. [setBlankSymbol] returns exactly when its argument is a string
    of one character, and then stores it as the blank and changes nothing
    else; for any other argument (the empty string, a longer string, an
    integer) it raises and the builder is as before. *)
Theorem setBlankSymbol_one_character (v : pyval) (b : Builder.TuringMachineBuilder) :
  (fst (Builder.setBlankSymbol v b) = Return tt <-> exists c, v = PStr (String c EmptyString))
  /\ (fst (Builder.setBlankSymbol v b) = Return tt ->
      snd (Builder.setBlankSymbol v b) = Builder.set_blank v b)
  /\ (fst (Builder.setBlankSymbol v b) <> Return tt -> snd (Builder.setBlankSymbol v b) = b).
Proof.
  assert (Hfail : forall e, Raise e <> Return tt :> outcome unit) by discriminate.
  unfold Builder.setBlankSymbol.
  destruct v as [z|[|c [|c' s]]]; cbn [truthy len String.eqb negb String.length].
  - destruct (z =? 0); cbn [negb fst snd raise];
      (split; [split; [intros [=]|intros [c [=]]]|split; [intros [=]|reflexivity]]).
  - cbn [fst snd raise].
    split; [split; [intros [=]|intros [c [=]]]|split; [intros [=]|reflexivity]].
  - cbn. split; [split; [eauto|reflexivity]|split; [reflexivity|intros Hc; contradiction]].
  - replace (Z.of_nat (S (S (String.length s))) >? 1) with true
      by (symmetry; apply Z.gtb_lt; lia).
    cbn. split; [split; [intros [=]|intros [c0 [=]]]|split; [intros [=]|reflexivity]].
Qed.

Lemma setBlankSymbol_one_character_witness :
  snd (Builder.setBlankSymbol (PStr "#") Builder.new) = Builder.set_blank (PStr "#") Builder.new.
Proof.
  apply (proj1 (proj2 (setBlankSymbol_one_character (PStr "#") Builder.new))).
  reflexivity.
Defined.

Section HaltStateFacts.
Import Builder Facts.

Lemma old_remains_mentions (tf : gmap (pyval * pyval) (pyval * pyval * Z)) (old : pyval) :
  existsb (fun kv : (pyval * pyval) * (pyval * pyval * Z) =>
             bool_decide (kv.1.1 = old) || bool_decide (kv.2.1.1 = old))
          (map_to_list tf) = true
  <-> mentions tf old.
Proof.
  rewrite existsb_exists. unfold mentions. split.
  - intros ([k v] & Hin & Hor). apply list_elem_of_In, elem_of_map_to_list in Hin.
    exists k, v. split; [exact Hin|]. apply orb_prop in Hor.
    destruct Hor as [Ho|Ho]; apply bool_decide_eq_true_1 in Ho; auto.
  - intros (k & v & Hl & Hor). exists (k, v). split.
    + apply list_elem_of_In, elem_of_map_to_list. exact Hl.
    + apply orb_true_intro.
      destruct Hor as [Ho|Ho]; [left|right]; apply bool_decide_eq_true_2; exact Ho.
Qed.

End HaltStateFacts.

(** What [setHaltState] does, shared by the two properties below. *)
Lemma setHaltState_replaces_aux (h : pyval) (b : Builder.TuringMachineBuilder) :
  (forall old, Builder._haltstate b = Some old -> old ∈ Builder._states b) ->
  fst (Builder.setHaltState h b) = Return tt
  /\ (let b' := snd (Builder.setHaltState h b) in
      Builder._haltstate b' = Some h
      /\ (forall q, q ∈ Builder._states b'
                    <-> q = h
                        \/ (q ∈ Builder._states b
                            /\ (Builder._haltstate b = Some q ->
                                Facts.mentions (Builder._trans_function b) q)))
      /\ Builder._trans_function b' = Builder._trans_function b
      /\ Builder._in_alphabet b' = Builder._in_alphabet b
      /\ Builder._istate b' = Builder._istate b
      /\ Builder._fstates b' = Builder._fstates b
      /\ Builder._blank b' = Builder._blank b).
Proof.
  intros Hin. unfold Builder.setHaltState, bind, get, modify, ret. cbv beta iota zeta.
  destruct (Builder._haltstate b) as [old|] eqn:Hold.
  - destruct (existsb _ (map_to_list (Builder._trans_function b))) eqn:Hex.
    + cbn. split; [reflexivity|]. split; [reflexivity|]. split; [|repeat split].
      intros q. rewrite elem_of_union, elem_of_singleton.
      apply old_remains_mentions in Hex. split.
      * intros [Hq| ->]; [right|left; reflexivity]. split; [exact Hq|]. intros [= ->]. exact Hex.
      * intros [->|[Hq _]]; auto.
    + cbn [negb]. rewrite (bool_decide_eq_true_2 _ (Hin old eq_refl)).
      cbn. split; [reflexivity|]. split; [reflexivity|]. split; [|repeat split].
      intros q. rewrite elem_of_union, elem_of_singleton, elem_of_difference, elem_of_singleton.
      assert (Hno : ~ Facts.mentions (Builder._trans_function b) old).
      { intros Hm. apply old_remains_mentions in Hm. congruence. }
      split.
      * intros [[Hq Hne]| ->]; [right|left; reflexivity]. split; [exact Hq|].
        intros [= ->]. contradiction.
      * intros [->|[Hq Himp]]; [auto|]. left. split; [exact Hq|].
        intros ->. apply Hno, Himp. reflexivity.
  - cbn. split; [reflexivity|]. split; [reflexivity|]. split; [|repeat split].
    intros q. rewrite elem_of_union, elem_of_singleton. split.
    + intros [Hq| ->]; [right|left; reflexivity]. split; [exact Hq|discriminate].
    + intros [->|[Hq _]]; auto.
Qed.

(** X14. On a builder whose halt state, if any, is among its states,
    [setHaltState(h)] returns with [h] as halt state; the states are then
    [h] together with the former states, except the former halt state when
    no transition names it as source or target (it goes even if it is the
    initial state or a final state). Nothing else changes. *)
Theorem setHaltState_replaces (h : pyval) (b : Builder.TuringMachineBuilder) :
  (forall old, Builder._haltstate b = Some old -> old ∈ Builder._states b) ->
  fst (Builder.setHaltState h b) = Return tt
  /\ (let b' := snd (Builder.setHaltState h b) in
      Builder._haltstate b' = Some h
      /\ (forall q, q ∈ Builder._states b'
                    <-> q = h
                        \/ (q ∈ Builder._states b
                            /\ (Builder._haltstate b = Some q ->
                                Facts.mentions (Builder._trans_function b) q)))
      /\ Builder._trans_function b' = Builder._trans_function b
      /\ Builder._in_alphabet b' = Builder._in_alphabet b
      /\ Builder._istate b' = Builder._istate b
      /\ Builder._fstates b' = Builder._fstates b
      /\ Builder._blank b' = Builder._blank b).
Proof. apply setHaltState_replaces_aux. Qed.

Lemma setHaltState_replaces_witness :
  fst (Builder.setHaltState (PStr "HALT") Builder.new) = Return tt.
Proof.
  refine (proj1 (setHaltState_replaces (PStr "HALT") Builder.new _)).
  intros old H. discriminate H.
Defined.

(** X15. Replacing the halt state can make the builder unusable: when the
    former halt state is also the initial state and no transition names it,
    [setHaltState] with a different state removes it from the states, and
    [create()] then fails with 'Initial state is not a valid state'. *)
Theorem halt_replacement_drops_initial_state (h old bl : pyval)
    (b : Builder.TuringMachineBuilder) :
  Builder._istate b = Some old ->
  Builder._haltstate b = Some old ->
  old ∈ Builder._states b ->
  ~ Facts.mentions (Builder._trans_function b) old ->
  h <> old ->
  Builder._blank b = Some bl ->
  Builder.create (snd (Builder.setHaltState h b))
  = Raise (Exception "Initial state is not a valid state" []).
Proof.
  intros Hi Hh Hin Hno Hne Hb.
  destruct (setHaltState_replaces_aux h b) as (_ & Hh' & Hs & _ & _ & Hi' & _ & Hb');
    [intros o Ho; congruence|].
  unfold Builder.create. rewrite Hi', Hi, Hb', Hb, Hh'.
  unfold TM.__init__, TM._checkData, bind, get.
  cbn [TM._in_alphabet TM._tape_alphabet TM._blank TM._istate TM._states].
  rewrite (bool_decide_eq_true_2 (Builder._in_alphabet _ ⊆ _)) by apply union_subseteq_l.
  rewrite (bool_decide_eq_true_2 (bl ∈ _))
    by (apply elem_of_union; right; apply elem_of_singleton; reflexivity).
  rewrite (bool_decide_eq_false_2 (old ∈ _)); [reflexivity|].
  rewrite Hs. intros [->|[_ Himp]]; [congruence|]. apply Hno, Himp, Hh.
Qed.

Lemma halt_replacement_drops_initial_state_witness :
  Builder.create
    (snd (Builder.setHaltState (PStr "B")
            (Builder.set_blank (PStr "#")
               (snd (Builder.setInitialState (PStr "A")
                       (snd (Builder.setHaltState (PStr "A") Builder.new)))))))
  = Raise (Exception "Initial state is not a valid state" []).
Proof.
  apply (halt_replacement_drops_initial_state (PStr "B") (PStr "A") (PStr "#")).
  - reflexivity.
  - reflexivity.
  - apply (bool_decide_unpack _). vm_compute. reflexivity.
  - intros (k & v & Hl & _).
    change (Builder._trans_function _) with (∅ : gmap (pyval * pyval) (pyval * pyval * Z)) in Hl.
    rewrite lookup_empty in Hl. discriminate Hl.
  - discriminate.
  - reflexivity.
Defined.

Section ConsistencyFacts.
Import Builder Facts.

Lemma consistent_new : consistent new.
Proof.
  unfold consistent, new. cbn.
  split; [discriminate|]. split; [discriminate|]. split; [reflexivity|].
  apply map_Forall_empty.
Qed.

(** Consistency survives when states and input symbols are only added and
    initial state, halt state, final states, blank and transitions stay. *)
Lemma consistent_grows (b b' : TuringMachineBuilder) :
  consistent b ->
  (forall q, q ∈ _states b -> q ∈ _states b') ->
  (forall a, a ∈ _in_alphabet b -> a ∈ _in_alphabet b') ->
  _blank b' = _blank b ->
  (forall q, _istate b' = Some q -> _istate b = Some q \/ q ∈ _states b') ->
  (forall q, _haltstate b' = Some q -> _haltstate b = Some q \/ q ∈ _states b') ->
  (forall q, q ∈ _fstates b' -> q ∈ _fstates b \/ q ∈ _states b') ->
  map_Forall (fun k v =>
      _trans_function b !! k = Some v
      \/ (k.1 ∈ _states b' /\ v.1.1 ∈ _states b'
          /\ (k.2 ∈ _in_alphabet b' \/ Some k.2 = _blank b')
          /\ (v.1.2 ∈ _in_alphabet b' \/ Some v.1.2 = _blank b')
          /\ v.2 ∈ TM.HEAD_MOVEMENTS)) (_trans_function b') ->
  consistent b'.
Proof.
  intros (Ci & Ch & Cf & Ct) Hs Ha Hb Hi Hh Hf Ht. unfold consistent.
  split; [|split; [|split]].
  - intros q Hq. destruct (Hi q Hq) as [H|H]; auto.
  - intros q Hq. destruct (Hh q Hq) as [H|H]; auto.
  - intros q Hq. destruct (Hf q Hq) as [H|H]; auto.
  - intros k v Hl. destruct (Ht k v Hl) as [Hold|Hnew]; [|exact Hnew].
    destruct (Ct k v Hold) as (H1 & H2 & H3 & H4 & H5). rewrite Hb.
    repeat split; auto; [destruct H3|destruct H4]; auto.
Qed.

Lemma addTransition_consistent (state symbol new_state new_symbol : pyval) (movement : Z)
    (b : TuringMachineBuilder) :
  consistent b ->
  consistent (snd (addTransition state symbol new_state new_symbol movement b)).
Proof.
  intros C. destruct (decide (movement ∈ TM.HEAD_MOVEMENTS)) as [Hm|Hm];
    [|rewrite (addTransition_illegal_movement _ _ _ _ _ _ Hm); exact C].
  destruct (addTransition_changes state symbol new_state new_symbol movement b Hm)
    as (_ & Ht & Hs & Ha & Hi & Hf & Hb & Hh).
  cbv zeta in *.
  set (b' := snd (addTransition state symbol new_state new_symbol movement b)) in *.
  apply (consistent_grows b b' C).
  - intros q Hq. apply Hs. auto.
  - intros a Hq. apply Ha. auto.
  - exact Hb.
  - intros q Hq. left. congruence.
  - intros q Hq. left. congruence.
  - intros q Hq. left. congruence.
  - rewrite Ht. intros k v Hl. destruct (decide (k = (state, symbol))) as [->|Hne].
    + rewrite lookup_insert_eq in Hl. injection Hl as <-. right. cbn [fst snd].
      split; [apply Hs; auto|]. split; [apply Hs; auto|].
      split; [|split; [|exact Hm]].
      * destruct (decide (Some symbol = _blank b)) as [E|E]; [right; congruence|].
        left. apply Ha. right. auto.
      * destruct (decide (Some new_symbol = _blank b)) as [E|E]; [right; congruence|].
        left. apply Ha. right. auto.
    + rewrite lookup_insert_ne in Hl by congruence. left. exact Hl.
Qed.

Lemma addFinalState_consistent (q : pyval) (b : TuringMachineBuilder) :
  consistent b -> consistent (snd (addFinalState q b)).
Proof.
  intros C. unfold addFinalState. unfold bind at 1.
  rewrite (cond_modify (fun b' => negb (bool_decide (q ∈ _states b')))).
  rewrite (cond_modify (fun b' => negb (bool_decide (q ∈ _fstates b')))). cbn [snd].
  destruct (add_state_if q b) as (S1 & A1 & T1 & I1 & F1 & B1 & H1).
  set (b1 := if negb (bool_decide (q ∈ _states b)) then add_state q b else b) in *.
  apply (consistent_grows b _ C).
  - intros x Hx. destruct (negb (bool_decide (q ∈ _fstates b1))); apply S1; auto.
  - intros x Hx. destruct (negb (bool_decide (q ∈ _fstates b1))); cbn; rewrite A1; exact Hx.
  - destruct (negb (bool_decide (q ∈ _fstates b1))); cbn; exact B1.
  - intros x Hx. left. destruct (negb (bool_decide (q ∈ _fstates b1))); cbn in Hx; congruence.
  - intros x Hx. left. destruct (negb (bool_decide (q ∈ _fstates b1))); cbn in Hx; congruence.
  - intros x Hx. destruct (negb (bool_decide (q ∈ _fstates b1))); cbn in Hx |- *.
    + rewrite F1 in Hx. apply elem_of_union in Hx. rewrite elem_of_singleton in Hx.
      destruct Hx as [Hx| ->]; [auto|]. right. apply S1. auto.
    + left. congruence.
  - intros k v Hl. left.
    destruct (negb (bool_decide (q ∈ _fstates b1))); cbn in Hl; congruence.
Qed.

Lemma setInitialState_consistent (q : pyval) (b : TuringMachineBuilder) :
  consistent b -> consistent (snd (setInitialState q b)).
Proof.
  intros C. unfold setInitialState. unfold bind at 1.
  rewrite (cond_modify (fun b' => negb (bool_decide (q ∈ _states b')))).
  unfold modify. cbn [snd].
  destruct (add_state_if q b) as (S1 & A1 & T1 & I1 & F1 & B1 & H1).
  set (b1 := if negb (bool_decide (q ∈ _states b)) then add_state q b else b) in *.
  apply (consistent_grows b _ C); cbn.
  - intros x Hx. apply S1. auto.
  - intros x Hx. rewrite A1. exact Hx.
  - exact B1.
  - intros x [= <-]. right. apply S1. auto.
  - intros x Hx. left. congruence.
  - intros x Hx. left. congruence.
  - intros k v Hl. left. congruence.
Qed.

Lemma setBlankSymbol_consistent (a : pyval) (b : TuringMachineBuilder) :
  consistent b -> _blank b = None -> consistent (snd (setBlankSymbol a b)).
Proof.
  intros C Hb. unfold setBlankSymbol.
  destruct (negb (truthy a)); [exact C|].
  destruct (len a) as [n|]; [|exact C].
  destruct (n >? 1); [exact C|]. unfold modify. cbn [snd].
  destruct C as (Ci & Ch & Cf & Ct). unfold consistent. cbn. repeat split; auto.
  all: destruct (Ct _ _ H) as (H1 & H2 & H3 & H4 & H5); auto.
  - destruct H3 as [H3|H3]; [auto|congruence].
  - destruct H4 as [H4|H4]; [auto|congruence].
Qed.

Lemma setHaltState_consistent (h : pyval) (b : TuringMachineBuilder) :
  consistent b -> _haltstate b = None -> consistent (snd (setHaltState h b)).
Proof.
  intros C Hh. unfold setHaltState, bind, get, modify, ret. rewrite Hh. cbn [snd].
  apply (consistent_grows b _ C); cbn.
  - intros x Hx. apply elem_of_union. auto.
  - auto.
  - reflexivity.
  - auto.
  - intros x [= <-]. right. apply elem_of_union. right. apply elem_of_singleton. reflexivity.
  - auto.
  - intros k v Hl. auto.
Qed.

(** [create] on a consistent builder that has its three settings. *)
Lemma create_consistent (b : TuringMachineBuilder) (i bl h : pyval) :
  consistent b ->
  _istate b = Some i -> _blank b = Some bl -> _haltstate b = Some h ->
  create b
  = Return (fresh (_states b) (_in_alphabet b) (_in_alphabet b ∪ {[ bl ]}) (_trans_function b)
                  i (_fstates b) h bl).
Proof.
  intros (Ci & Ch & Cf & Ct) Hi Hb Hh. unfold create. rewrite Hi, Hb, Hh.
  apply __init___result. unfold data_accepted. cbn [TM._in_alphabet TM._tape_alphabet TM._blank
    TM._istate TM._states TM._fstates TM._trans_function fresh].
  rewrite (bool_decide_eq_true_2 (_in_alphabet b ⊆ _)) by apply union_subseteq_l.
  rewrite (bool_decide_eq_true_2 (bl ∈ _))
    by (apply elem_of_union; right; apply elem_of_singleton; reflexivity).
  rewrite (bool_decide_eq_true_2 _ (Ci i Hi)).
  rewrite (bool_decide_eq_true_2 _ Cf). cbn [andb].
  apply forallb_forall. intros [[k0 k1] [[v0 v1] v2]] Hin.
  apply list_elem_of_In, elem_of_map_to_list in Hin.
  destruct (Ct _ _ Hin) as (H1 & H2 & H3 & H4 & H5). cbn [fst snd] in *.
  apply entry_passes_ok; cbn [TM._states TM._tape_alphabet fresh]; auto.
  - apply elem_of_union. destruct H3 as [H3|H3]; [auto|].
    right. apply elem_of_singleton. congruence.
  - apply elem_of_union. destruct H4 as [H4|H4]; [auto|].
    right. apply elem_of_singleton. congruence.
Qed.

End ConsistencyFacts.

(** X16. The builder keeps what it collects consistent (initial state,
    halt state, final states and the states of every transition among the
    states, every transition symbol in the input alphabet or equal to the
    blank, every movement legal): the empty builder is consistent, and
    [addTransition], [addFinalState] and [setInitialState] with any
    arguments, [setBlankSymbol] on a builder without blank and
    [setHaltState] on a builder without halt state keep it so. *)
Theorem builder_keeps_consistent (b : Builder.TuringMachineBuilder) :
  Facts.consistent Builder.new
  /\ (Facts.consistent b ->
      (forall state symbol new_state new_symbol movement,
          Facts.consistent
            (snd (Builder.addTransition state symbol new_state new_symbol movement b)))
      /\ (forall q, Facts.consistent (snd (Builder.addFinalState q b)))
      /\ (forall q, Facts.consistent (snd (Builder.setInitialState q b)))
      /\ (forall a, Builder._blank b = None ->
                    Facts.consistent (snd (Builder.setBlankSymbol a b)))
      /\ (forall q, Builder._haltstate b = None ->
                    Facts.consistent (snd (Builder.setHaltState q b)))).
Proof.
  split; [apply consistent_new|]. intros C.
  split; [intros; apply addTransition_consistent, C|].
  split; [intros; apply addFinalState_consistent, C|].
  split; [intros; apply setInitialState_consistent, C|].
  split; [intros; apply setBlankSymbol_consistent; assumption|].
  intros; apply setHaltState_consistent; assumption.
Qed.

Lemma builder_keeps_consistent_witness :
  Facts.consistent (snd (Builder.setHaltState (PStr "HALT") Builder.new)).
Proof.
  destruct (builder_keeps_consistent Builder.new) as [Hnew Hkeep].
  destruct (Hkeep Hnew) as (_ & _ & _ & _ & Hhalt).
  apply Hhalt. reflexivity.
Defined.

(** X17. On a consistent builder with initial state, blank and halt state
    set, [create()] returns a machine: the validation of the constructor
    cannot fail. The machine has the builder's states, transitions and
    final states, the tape alphabet is the input alphabet with the blank,
    no tape is set, the head is at 0, the current state is the initial
    state, the counter is 0 and no observer is attached. *)
Theorem create_of_consistent (b : Builder.TuringMachineBuilder) (i bl h : pyval) :
  Facts.consistent b ->
  Builder._istate b = Some i ->
  Builder._blank b = Some bl ->
  Builder._haltstate b = Some h ->
  exists m : TM.TuringMachine,
    Builder.create b = Return m
    /\ TM._states m = Builder._states b
    /\ TM._in_alphabet m = Builder._in_alphabet b
    /\ TM._tape_alphabet m = Builder._in_alphabet b ∪ {[ bl ]}
    /\ TM._trans_function m = Builder._trans_function b
    /\ TM._istate m = i /\ TM._fstates m = Builder._fstates b
    /\ TM._hstate m = h /\ TM._blank m = bl
    /\ TM._tape m = None /\ TM._head m = 0%nat /\ TM._cur_state m = i
    /\ TM._nexecuted_steps m = 0%nat /\ TM._observers m = [].
Proof.
  intros C Hi Hb Hh. eexists. split; [apply (create_consistent b i bl h); assumption|].
  repeat split.
Qed.

Lemma create_of_consistent_witness :
  exists m : TM.TuringMachine,
    Builder.create
      (snd (Builder.setBlankSymbol (PStr "#")
              (snd (Builder.setInitialState (PStr "1")
                      (snd (Builder.setHaltState (PStr "HALT") Builder.new))))))
    = Return m
    /\ TM._cur_state m = PStr "1".
Proof.
  destruct (create_of_consistent
              (snd (Builder.setBlankSymbol (PStr "#")
                      (snd (Builder.setInitialState (PStr "1")
                              (snd (Builder.setHaltState (PStr "HALT") Builder.new))))))
              (PStr "1") (PStr "#") (PStr "HALT"))
    as (m & Hc & _ & _ & _ & _ & _ & _ & _ & _ & _ & _ & Hq & _).
  - apply setBlankSymbol_consistent; [|reflexivity].
    apply setInitialState_consistent, setHaltState_consistent; [|reflexivity].
    apply consistent_new.
  - reflexivity.
  - reflexivity.
  - reflexivity.
  - exists m. split; [exact Hc|exact Hq].
Defined.

(** ** Further properties of the parser *)

Section RegexFacts.
Import Re Facts.

Lemma greedy_inv {R} (c : cls) (s taken : string) (k : string -> string -> option R) (r : R) :
  greedy c s taken k = Some r ->
  exists taken' s', k taken' s' = Some r
                    /\ (is_empty taken = false -> is_empty taken' = false)
                    /\ (taken' = taken \/ is_empty taken' = false).
Proof.
  revert taken. induction s as [|a s IH]; intros taken; cbn [greedy].
  - intros H. exists taken, EmptyString. auto.
  - destruct (c a).
    + destruct (greedy c s (taken +:+ String a EmptyString) k) as [r'|] eqn:E.
      * intros [= ->]. destruct (IH _ E) as (t' & s' & Hk & Hne & Hor).
        assert (Hnonempty : is_empty (taken +:+ String a EmptyString) = false).
        { clear. destruct taken; reflexivity. }
        exists t', s'. split; [exact Hk|]. split; [intros _; auto|].
        right. destruct Hor as [->|Hor]; auto.
      * intros H. exists taken, (String a s). auto.
    + intros H. exists taken, (String a s). auto.
Qed.

Lemma greedy_stop {R} (c : cls) (s taken : string) (k : string -> string -> option R) :
  starts_outside c s -> greedy c s taken k = k taken s.
Proof. destruct s as [|a s]; cbn; [reflexivity|]. intros ->. reflexivity. Qed.

Lemma append_cons (a : ascii) (s t : string) : String a s +:+ t = String a (s +:+ t).
Proof. reflexivity. Qed.

Lemma append_empty_l (t : string) : EmptyString +:+ t = t.
Proof. reflexivity. Qed.

Lemma append_assoc (s1 s2 s3 : string) : (s1 +:+ s2) +:+ s3 = s1 +:+ (s2 +:+ s3).
Proof.
  induction s1 as [|a s1 IH]; [reflexivity|]. rewrite !append_cons, IH. reflexivity.
Qed.

Lemma append_empty_r (s : string) : s +:+ EmptyString = s.
Proof. induction s as [|a s IH]; [reflexivity|]. rewrite append_cons, IH. reflexivity. Qed.

(** A greedy repetition over a run of the class takes the whole run when
    the rest of the pattern then matches. *)
Lemma greedy_run {R} (c : cls) (run rest taken : string) (k : string -> string -> option R)
    (r : R) :
  all_in c run -> starts_outside c rest ->
  k (taken +:+ run) rest = Some r ->
  greedy c (run +:+ rest) taken k = Some r.
Proof.
  revert taken. induction run as [|a run IH]; intros taken Hall Hout Hk.
  - rewrite append_empty_l, greedy_stop by exact Hout. rewrite append_empty_r in Hk. exact Hk.
  - destruct Hall as [Ha Hall]. rewrite append_cons. cbn [greedy]. rewrite Ha.
    assert (E : k ((taken +:+ String a EmptyString) +:+ run) rest = Some r)
      by (rewrite append_assoc; exact Hk).
    rewrite (IH _ Hall Hout E). reflexivity.
Qed.

(** A greedy repetition fails when the rest of the pattern fails wherever
    the repetition stops. *)
Lemma greedy_fails {R} (c : cls) (s taken : string) (k : string -> string -> option R) :
  (forall taken' s', k taken' s' = None) -> greedy c s taken k = None.
Proof.
  intros Hk. revert taken. induction s as [|a s IH]; intros taken; cbn [greedy]; [apply Hk|].
  destruct (c a); [|apply Hk]. rewrite IH. apply Hk.
Qed.

(** A greedy repetition over a run of the class fails when the rest of the
    pattern fails at every place inside the run and at its end. *)
Lemma greedy_run_fails {R} (c : cls) (run rest taken : string)
    (k : string -> string -> option R) :
  starts_outside c rest ->
  (forall r1 r2, run = r1 +:+ r2 -> k (taken +:+ r1) (r2 +:+ rest) = None) ->
  greedy c (run +:+ rest) taken k = None.
Proof.
  revert taken. induction run as [|a run IH]; intros taken Hout Hk.
  - rewrite append_empty_l, greedy_stop by exact Hout.
    specialize (Hk EmptyString EmptyString eq_refl). rewrite append_empty_r in Hk. exact Hk.
  - rewrite append_cons. cbn [greedy]. destruct (c a).
    + rewrite IH; [| exact Hout |].
      * specialize (Hk EmptyString (String a run) eq_refl).
        rewrite append_empty_r in Hk. exact Hk.
      * intros r1 r2 ->. rewrite append_assoc.
        exact (Hk (String a r1) r2 eq_refl).
    + specialize (Hk EmptyString (String a run) eq_refl).
      rewrite append_empty_r in Hk. exact Hk.
Qed.

Lemma strip_prefix_append (text s : string) : strip_prefix text (text +:+ s) = Some s.
Proof.
  induction text as [|a text IH]; [reflexivity|].
  rewrite append_cons. cbn [strip_prefix]. rewrite Ascii.eqb_refl. exact IH.
Qed.

End RegexFacts.

Section ParseLineFacts.
Import Parser Facts.

Ltac regex_inv H :=
  repeat first
    [ progress cbv beta in H
    | match type of H with
      | Re.greedy _ _ _ _ = Some _ =>
        let t := fresh "taken" in let s := fresh "rest" in
        let Hne := fresh "Hne" in let Hor := fresh "Hor" in
        apply greedy_inv in H; destruct H as (t & s & H & Hne & Hor)
      | match Re.strip_prefix ?t ?s with _ => _ end = Some _ =>
        let E := fresh "Hlit" in
        destruct (Re.strip_prefix t s) eqn:E; [|discriminate H]
      | (if Re.is_empty ?t then _ else _) = Some _ =>
        let E := fresh "Hfull" in
        destruct (Re.is_empty t) eqn:E; [discriminate H|]
      | match ?s with EmptyString => _ | String _ _ => _ end = Some _ =>
        destruct s; [discriminate H|]
      | (if Re.at_end ?s then _ else _) = Some _ =>
        let E := fresh "Hend" in
        destruct (Re.at_end s) eqn:E; [|discriminate H]
      | (if ?c ?a then _ else _) = Some _ =>
        let E := fresh "Hcls" in
        destruct (c a) eqn:E; [|discriminate H]
      end ].

(** The symbol a [BLANK] line yields is one character. *)
Lemma blank_symbol_group (data : string) (gs : Re.groups) :
  Re.match_ _blank_symbol_re data = Some gs ->
  exists a, Re.group "symbol" gs = String a EmptyString.
Proof.
  unfold Re.match_, _blank_symbol_re. cbn [Re.match_from]. intros H.
  regex_inv H. injection H as <-. eexists. reflexivity.
Qed.

Lemma move_legal (move_sym : string) :
  (if String.eqb move_sym MOVE_LEFT then TM.MOVE_LEFT
   else if String.eqb move_sym MOVE_RIGHT then TM.MOVE_RIGHT
   else TM.NON_MOVEMENT) ∈ TM.HEAD_MOVEMENTS.
Proof.
  destruct (String.eqb move_sym MOVE_LEFT); [|destruct (String.eqb move_sym MOVE_RIGHT)];
    apply (bool_decide_unpack _); vm_compute; reflexivity.
Qed.

Lemma _parseTransition_cases (data : string) (b : Builder.TuringMachineBuilder) :
  _parseTransition data {| _builder := b |} = (Return false, {| _builder := b |})
  \/ (exists st sy ns nsy mv,
        mv ∈ TM.HEAD_MOVEMENTS
        /\ _parseTransition data {| _builder := b |}
           = (Return true, {| _builder := snd (Builder.addTransition st sy ns nsy mv b) |})).
Proof.
  unfold _parseTransition.
  destruct (Re.match_ _transition_re data) as [mt|]; [right|left; reflexivity].
  cbv zeta. unfold bind, on_builder. cbn [_builder].
  pose proof (move_legal (Re.group "movement" mt)) as Hmv.
  set (mv := if String.eqb (Re.group "movement" mt) MOVE_LEFT then TM.MOVE_LEFT
             else if String.eqb (Re.group "movement" mt) MOVE_RIGHT then TM.MOVE_RIGHT
             else TM.NON_MOVEMENT) in *.
  destruct (addTransition_changes (PStr (Re.group "state" mt)) (PStr (Re.group "symbol" mt))
              (PStr (Re.group "nstate" mt)) (PStr (Re.group "nsymbol" mt)) mv b Hmv)
    as [Hret _].
  exists (PStr (Re.group "state" mt)), (PStr (Re.group "symbol" mt)),
    (PStr (Re.group "nstate" mt)), (PStr (Re.group "nsymbol" mt)), mv.
  split; [exact Hmv|].
  destruct (Builder.addTransition _ _ _ _ mv b) as [r b'] eqn:E. cbn [fst] in Hret. subst r.
  reflexivity.
Qed.

Lemma _parseComment_cases (data : string) (p : TuringMachineParser) :
  exists c, _parseComment data p = (Return c, p).
Proof.
  unfold _parseComment. destruct (Re.match_ _comment_line_re data); eexists; reflexivity.
Qed.

Lemma addFinalState_returns (q : pyval) (b : Builder.TuringMachineBuilder) :
  fst (Builder.addFinalState q b) = Return tt.
Proof.
  unfold Builder.addFinalState. unfold bind at 1.
  rewrite (cond_modify (fun b' => negb (bool_decide (q ∈ Builder._states b')))).
  rewrite (cond_modify (fun b' => negb (bool_decide (q ∈ Builder._fstates b')))).
  reflexivity.
Qed.

Lemma setInitialState_returns (q : pyval) (b : Builder.TuringMachineBuilder) :
  fst (Builder.setInitialState q b) = Return tt.
Proof.
  unfold Builder.setInitialState. unfold bind at 1.
  rewrite (cond_modify (fun b' => negb (bool_decide (q ∈ Builder._states b')))).
  reflexivity.
Qed.

Lemma _parseFinalState_cases (data : string) (b : Builder.TuringMachineBuilder) :
  _parseFinalState data {| _builder := b |} = (Return false, {| _builder := b |})
  \/ (exists q, _parseFinalState data {| _builder := b |}
                = (Return true, {| _builder := snd (Builder.addFinalState q b) |})).
Proof.
  unfold _parseFinalState.
  destruct (Re.match_ _final_state_re data) as [mfs|]; [right|left; reflexivity].
  exists (PStr (Re.group "state" mfs)). unfold bind, on_builder. cbn [_builder].
  pose proof (addFinalState_returns (PStr (Re.group "state" mfs)) b) as Hret.
  destruct (Builder.addFinalState _ b) as [r b']. cbn [fst] in Hret. subst r. reflexivity.
Qed.

Lemma _parseInitialState_cases (data : string) (b : Builder.TuringMachineBuilder) :
  _parseInitialState data {| _builder := b |} = (Return false, {| _builder := b |})
  \/ (Builder._istate b <> None
      /\ _parseInitialState data {| _builder := b |}
         = (Raise (Exception "Initial state can only be defined once" []),
            {| _builder := b |}))
  \/ (exists q, Builder._istate b = None
                /\ _parseInitialState data {| _builder := b |}
                   = (Return true, {| _builder := snd (Builder.setInitialState q b) |})).
Proof.
  unfold _parseInitialState.
  destruct (Re.match_ _inital_state_re data) as [mis|]; [right|left; reflexivity].
  unfold bind, get, on_builder, raise, ret. cbv beta iota. cbn [_builder]. unfold Builder.hasInitialState.
  destruct (Builder._istate b) as [i|] eqn:Hi.
  - left. split; [discriminate|reflexivity].
  - right. exists (PStr (Re.group "state" mis)). split; [reflexivity|].
    cbn [_builder].
    pose proof (setInitialState_returns (PStr (Re.group "state" mis)) b) as Hret.
    destruct (Builder.setInitialState _ b) as [r b']. cbn [fst] in Hret. subst r. reflexivity.
Qed.

Lemma _parseBlankSymbol_cases (data : string) (b : Builder.TuringMachineBuilder) :
  _parseBlankSymbol data {| _builder := b |} = (Return false, {| _builder := b |})
  \/ (Builder._blank b <> None
      /\ _parseBlankSymbol data {| _builder := b |}
         = (Raise (Exception "Blank symbol can only be defined once" []),
            {| _builder := b |}))
  \/ (exists a, Builder._blank b = None
                /\ _parseBlankSymbol data {| _builder := b |}
                   = (Return true, {| _builder := snd (Builder.setBlankSymbol a b) |})).
Proof.
  unfold _parseBlankSymbol.
  destruct (Re.match_ _blank_symbol_re data) as [mbs|] eqn:Hmbs; [right|left; reflexivity].
  unfold bind, get, on_builder, raise, ret. cbv beta iota. cbn [_builder]. unfold Builder.hasBlankSymbol.
  destruct (Builder._blank b) as [bl|] eqn:Hb.
  - left. split; [discriminate|reflexivity].
  - right. exists (PStr (Re.group "symbol" mbs)). split; [reflexivity|].
    destruct (blank_symbol_group data mbs Hmbs) as [a ->]. cbn [_builder]. reflexivity.
Qed.

Lemma _parseHaltState_cases (data : string) (b : Builder.TuringMachineBuilder) :
  _parseHaltState data {| _builder := b |} = (Return false, {| _builder := b |})
  \/ (Builder._haltstate b <> None
      /\ _parseHaltState data {| _builder := b |}
         = (Raise (Exception "Halt state can only be defined once" []),
            {| _builder := b |}))
  \/ (exists q, Builder._haltstate b = None
                /\ _parseHaltState data {| _builder := b |}
                   = (Return true, {| _builder := snd (Builder.setHaltState q b) |})).
Proof.
  unfold _parseHaltState.
  destruct (Re.match_ _halt_state_re data) as [mhs|]; [right|left; reflexivity].
  unfold bind, get, on_builder, raise, ret. cbv beta iota. cbn [_builder]. unfold Builder.hasHaltState.
  destruct (Builder._haltstate b) as [h|] eqn:Hh.
  - left. split; [discriminate|reflexivity].
  - right. exists (PStr (Re.group "state" mhs)). split; [reflexivity|].
    cbn [_builder].
    unfold Builder.setHaltState, bind, get, modify, ret. unfold Builder.hasHaltState.
    rewrite Hh. reflexivity.
Qed.

Lemma parseLine_cases (data : string) (b : Builder.TuringMachineBuilder) :
  line_effect data b (parseLine data {| _builder := b |}).
Proof.
  unfold parseLine. unfold bind at 1.
  destruct (_parseTransition_cases data b) as [->|(st & sy & ns & nsy & mv & Hmv & ->)];
    [|apply line_transition, Hmv].
  unfold bind at 1.
  destruct (_parseComment_cases data {| _builder := b |}) as [[|] ->]; [apply line_comment|].
  unfold bind at 1.
  destruct (_parseFinalState_cases data b) as [->|(q & ->)]; [|apply line_final].
  unfold bind at 1.
  destruct (_parseInitialState_cases data b) as [->|[(Hi & ->)|(q & Hi & ->)]];
    [|apply line_failure; left; auto|apply line_initial, Hi].
  unfold bind at 1.
  destruct (_parseBlankSymbol_cases data b) as [->|[(Hb & ->)|(a & Hb & ->)]];
    [|apply line_failure; right; left; auto|apply line_blank, Hb].
  unfold bind at 1.
  destruct (_parseHaltState_cases data b) as [->|[(Hh & ->)|(q & Hh & ->)]];
    [|apply line_failure; right; right; left; auto|apply line_halt, Hh].
  apply line_failure. do 3 right. auto.
Qed.

Lemma parseLine_consistent (data : string) (p : TuringMachineParser) :
  consistent (_builder p) -> consistent (_builder (snd (parseLine data p))).
Proof.
  destruct p as [b]. cbn [_builder]. intros C.
  destruct (parseLine_cases data b); cbn [snd _builder]; try exact C.
  - apply addTransition_consistent, C.
  - apply addFinalState_consistent, C.
  - apply setInitialState_consistent, C.
  - apply setBlankSymbol_consistent; assumption.
  - apply setHaltState_consistent; assumption.
Qed.

Lemma _parse_from_consistent (line : nat) (lines : list string) (p : TuringMachineParser) :
  consistent (_builder p) -> consistent (_builder (snd (_parse_from line lines p))).
Proof.
  revert line p. induction lines as [|data lines IH]; intros line p C; [exact C|].
  cbn [_parse_from]. destruct (Re.is_empty data); [apply IH, C|].
  unfold bind, try_except. pose proof (parseLine_consistent data p C) as C1.
  destruct (parseLine data p) as [[[]|e] p1]; cbn [snd] in *; [apply IH, C1|exact C1].
Qed.

Lemma _parse_from_app (line : nat) (l1 l2 : list string) (p : TuringMachineParser) :
  _parse_from line (l1 ++ l2) p
  = bind (_parse_from line l1) (fun _ => _parse_from (line + length l1) l2) p.
Proof.
  revert line p. induction l1 as [|data l1 IH]; intros line p.
  - cbn. rewrite Nat.add_0_r. reflexivity.
  - cbn [app _parse_from length]. replace (line + S (length l1))%nat with (S line + length l1)%nat by lia.
    destruct (Re.is_empty data); [apply IH|].
    unfold bind. destruct (try_except _ _ p) as [[[]|e] p1]; [|reflexivity].
    rewrite IH. unfold bind. reflexivity.
Qed.

End ParseLineFacts.

(** X18. [parseLine] either returns or raises a plain [Exception], and a
    failing line leaves the parser and its builder exactly as they were.
    The only failures are the three 'can only be defined once' for an
    [INITIAL], [BLANK] or [HALT] line on a builder that has the setting,
    and 'Unrecognized pattern' with the line. *)
Theorem parseLine_failures (data : string) (p : Parser.TuringMachineParser) :
  fst (Parser.parseLine data p) = Return tt
  \/ (snd (Parser.parseLine data p) = p
      /\ ((fst (Parser.parseLine data p)
           = Raise (Exception "Initial state can only be defined once" [])
           /\ Builder.hasInitialState (Parser._builder p) = true)
          \/ (fst (Parser.parseLine data p)
              = Raise (Exception "Blank symbol can only be defined once" [])
              /\ Builder.hasBlankSymbol (Parser._builder p) = true)
          \/ (fst (Parser.parseLine data p)
              = Raise (Exception "Halt state can only be defined once" [])
              /\ Builder.hasHaltState (Parser._builder p) = true)
          \/ fst (Parser.parseLine data p)
             = Raise (Exception "Unrecognized pattern: %s" [PStr data]))).
Proof.
  destruct p as [b]. cbn [Parser._builder].
  destruct (parseLine_cases data b) as [| | | | | |fmt ops Hkind]; cbn [fst snd]; auto.
  right. split; [reflexivity|].
  unfold Builder.hasInitialState, Builder.hasBlankSymbol, Builder.hasHaltState.
  destruct Hkind as [(-> & -> & H)|[(-> & -> & H)|[(-> & -> & H)|(-> & ->)]]].
  - left. split; [reflexivity|]. destruct (Builder._istate b); [reflexivity|contradiction].
  - right. left. split; [reflexivity|]. destruct (Builder._blank b); [reflexivity|contradiction].
  - right. right. left. split; [reflexivity|].
    destruct (Builder._haltstate b); [reflexivity|contradiction].
  - right. right. right. reflexivity.
Qed.

(** X19. Whatever the lines, and whether [_parse] returned or stopped at
    a line, what it leaves in the builder of a new parser is consistent:
    once the text has given an initial state, a blank and a halt state,
    [create()] returns a machine with them, at the initial state and
    without tape. A text the parser has read never fails the validation of
    the constructor. *)
Theorem parsed_text_creates (lines : list string) (i bl h : pyval) :
  Builder._istate (Parser._builder (snd (Parser._parse lines Parser.new))) = Some i ->
  Builder._blank (Parser._builder (snd (Parser._parse lines Parser.new))) = Some bl ->
  Builder._haltstate (Parser._builder (snd (Parser._parse lines Parser.new))) = Some h ->
  exists m : TM.TuringMachine,
    Parser.create (snd (Parser._parse lines Parser.new)) = Return m
    /\ TM._istate m = i /\ TM._hstate m = h /\ TM._blank m = bl
    /\ TM._cur_state m = i /\ TM._tape m = None.
Proof.
  intros Hi Hb Hh.
  assert (C : Facts.consistent (Parser._builder (snd (Parser._parse lines Parser.new)))).
  { apply _parse_from_consistent. apply consistent_new. }
  unfold Parser.create. rewrite (create_consistent _ i bl h C Hi Hb Hh).
  eexists. split; [reflexivity|]. repeat split.
Qed.

Lemma parsed_text_creates_witness :
  exists m : TM.TuringMachine,
    Parser.create
      (snd (Parser._parse ["% incrementer"; EmptyString; "HALT H"; "BLANK #"; "INITIAL 1";
                           "FINAL 2"; "1, 0 -> 2, 1, >"; "2, # -> H, #, _"] Parser.new))
    = Return m
    /\ TM._cur_state m = PStr "1".
Proof.
  destruct (parsed_text_creates
              ["% incrementer"; EmptyString; "HALT H"; "BLANK #"; "INITIAL 1";
               "FINAL 2"; "1, 0 -> 2, 1, >"; "2, # -> H, #, _"]
              (PStr "1") (PStr "#") (PStr "H"))
    as (m & Hc & _ & _ & _ & Hs & _); [vm_compute; reflexivity..|].
  exists m. split; [exact Hc|exact Hs].
Defined.

(** X20. [_parse] goes through the lines in order, skipping the empty
    ones: when the lines before a non-empty line are accepted and that
    line fails, [_parse] raises an [Exception] that carries the failing
    line's number, counted from 1 with the empty lines included, in front
    of the message of the failure, and the builder keeps what the lines
    before have put in it. *)
Theorem parse_reports_line (before after : list string) (data fmt : string)
    (ops : list pyval) (p p1 p2 : Parser.TuringMachineParser) :
  Parser._parse before p = (Return tt, p1) ->
  data <> EmptyString ->
  Parser.parseLine data p1 = (Raise (Exception fmt ops), p2) ->
  Parser._parse (before ++ data :: after) p
  = (Raise (Exception "Line %d, %s" (PInt (Z.of_nat (length before) + 1) :: PStr fmt :: ops)),
     p2).
Proof.
  intros Hbefore Hne Hfail. unfold Parser._parse in *.
  rewrite _parse_from_app. unfold bind at 1. rewrite Hbefore.
  cbn [Parser._parse_from Nat.add].
  destruct data as [|a data]; [contradiction|]. cbn [Re.is_empty].
  unfold bind, try_except. rewrite Hfail. reflexivity.
Qed.

Lemma parse_reports_line_witness :
  fst (Parser._parse ["% header"; EmptyString; "BLANK #"; "BLANK _"; "HALT H"] Parser.new)
  = Raise (Exception "Line %d, %s"
                     [PInt 4; PStr "Blank symbol can only be defined once"]).
Proof.
  exact (f_equal fst
           (parse_reports_line
              ["% header"; EmptyString; "BLANK #"] ["HALT H"] "BLANK _"
              "Blank symbol can only be defined once" [] Parser.new
              {| Parser._builder := snd (Builder.setBlankSymbol (PStr "#") Builder.new) |}
              {| Parser._builder := snd (Builder.setBlankSymbol (PStr "#") Builder.new) |}
              ltac:(vm_compute; reflexivity) ltac:(discriminate)
              ltac:(vm_compute; reflexivity))).
Defined.

Section RegexMatchFacts.
Import Re Facts.

Lemma all_in_app (c : cls) (r1 r2 : string) :
  all_in c (r1 +:+ r2) <-> all_in c r1 /\ all_in c r2.
Proof.
  induction r1 as [|a r1 IH]; [rewrite append_empty_l; cbn; tauto|].
  rewrite append_cons. cbn [all_in]. rewrite IH. tauto.
Qed.

Lemma all_in_mono (c c' : cls) (s : string) :
  (forall a, c a = true -> c' a = true) -> all_in c s -> all_in c' s.
Proof.
  intros Hcc. induction s as [|a s IH]; [trivial|]. intros [Ha Hs]. split; auto.
Qed.

Lemma starts_outside_run (c c' : cls) (run rest : string) :
  (forall a, c' a = true -> c a = false) ->
  all_in c' run -> is_empty run = false -> starts_outside c (run +:+ rest).
Proof.
  intros Hcc Hall Hne. destruct run as [|a run]; [discriminate|].
  rewrite append_cons. cbn. apply Hcc, Hall.
Qed.

(** What a greedy repetition has consumed when the match succeeds. *)
Lemma greedy_inv_split {R} (c : cls) (s taken : string) (k : string -> string -> option R)
    (r : R) :
  greedy c s taken k = Some r ->
  exists run s', s = run +:+ s' /\ all_in c run /\ k (taken +:+ run) s' = Some r.
Proof.
  revert taken. induction s as [|a s IH]; intros taken; cbn [greedy].
  - intros H. exists EmptyString, EmptyString. rewrite (append_empty_r taken).
    split; [reflexivity|]. split; [exact I|exact H].
  - assert (Hstop : k taken (String a s) = Some r ->
                    exists run s', String a s = run +:+ s' /\ all_in c run
                                   /\ k (taken +:+ run) s' = Some r).
    { intros H. exists EmptyString, (String a s). rewrite (append_empty_r taken).
      split; [reflexivity|]. split; [exact I|exact H]. }
    destruct (c a) eqn:Ha; [|exact Hstop].
    destruct (greedy c s (taken +:+ String a EmptyString) k) as [r'|] eqn:E; [|exact Hstop].
    intros [= ->]. destruct (IH _ E) as (run & s' & -> & Hall & Hk).
    exists (String a run), s'. rewrite append_cons. split; [reflexivity|].
    split; [split; assumption|]. rewrite append_assoc in Hk. exact Hk.
Qed.

Lemma greedy_always {R} (c : cls) (s taken : string) (k : string -> string -> option R)
    (r : R) :
  (forall taken' s', k taken' s' = Some r) -> greedy c s taken k = Some r.
Proof.
  intros Hk. revert taken. induction s as [|a s IH]; intros taken; cbn [greedy]; [apply Hk|].
  destruct (c a); [|apply Hk]. rewrite IH. reflexivity.
Qed.

Lemma strip_prefix_inv (text s s' : string) :
  strip_prefix text s = Some s' -> s = text +:+ s'.
Proof.
  revert s. induction text as [|a text IH]; intros s; cbn [strip_prefix].
  - intros [= ->]. reflexivity.
  - destruct s as [|b s]; [discriminate|].
    destruct (Ascii.eqb a b) eqn:E; [|discriminate].
    apply Ascii.eqb_eq in E. subst b. intros H. rewrite (IH _ H). reflexivity.
Qed.

(** How each item of a pattern matches a text laid out for it. *)
Lemma match_from_lit (text s : string) (re : regex) (gs : groups) :
  match_from (lit text :: re) (text +:+ s) gs = match_from re s gs.
Proof. cbn [match_from]. rewrite strip_prefix_append. reflexivity. Qed.

Lemma match_from_star (c : cls) (run rest : string) (re : regex) (gs r : groups) :
  all_in c run -> starts_outside c rest ->
  match_from re rest gs = Some r ->
  match_from (star c :: re) (run +:+ rest) gs = Some r.
Proof.
  intros Hall Hout Hk. cbn [match_from]. apply greedy_run; assumption.
Qed.

Lemma match_from_star_none (c : cls) (rest : string) (re : regex) (gs : groups) :
  starts_outside c rest ->
  match_from (star c :: re) rest gs = match_from re rest gs.
Proof. intros Hout. cbn [match_from]. rewrite greedy_stop by exact Hout. reflexivity. Qed.

Lemma match_from_plus (c : cls) (run rest : string) (re : regex) (gs r : groups) :
  all_in c run -> is_empty run = false -> starts_outside c rest ->
  match_from re rest gs = Some r ->
  match_from (plus c :: re) (run +:+ rest) gs = Some r.
Proof.
  intros Hall Hne Hout Hk. cbn [match_from]. apply greedy_run; [assumption..|].
  rewrite append_empty_l, Hne. exact Hk.
Qed.

Lemma match_from_group_plus (name : string) (c : cls) (run rest : string) (re : regex)
    (gs r : groups) :
  all_in c run -> is_empty run = false -> starts_outside c rest ->
  match_from re rest ((name, run) :: gs) = Some r ->
  match_from (group_plus name c :: re) (run +:+ rest) gs = Some r.
Proof.
  intros Hall Hne Hout Hk. cbn [match_from]. apply greedy_run; [assumption..|].
  rewrite append_empty_l, Hne. exact Hk.
Qed.

Lemma match_from_group_one (name : string) (c : cls) (a : ascii) (s : string) (re : regex)
    (gs : groups) :
  c a = true ->
  match_from (group_one name c :: re) (String a s) gs
  = match_from re s ((name, String a EmptyString) :: gs).
Proof. intros Ha. cbn [match_from]. rewrite Ha. reflexivity. Qed.

(** The classes of the parser's patterns. *)
Lemma word_not_space (a : ascii) : word_char a = true -> space_char a = false.
Proof.
  destruct a as [[] [] [] [] [] [] [] []]; vm_compute; intros H;
    first [reflexivity | discriminate H].
Qed.

Lemma word_not_blank (a : ascii) : word_char a = true -> one_of " " a = false.
Proof.
  destruct a as [[] [] [] [] [] [] [] []]; vm_compute; intros H;
    first [reflexivity | discriminate H].
Qed.

Lemma space_not_word (a : ascii) : space_char a = true -> word_char a = false.
Proof.
  destruct a as [[] [] [] [] [] [] [] []]; vm_compute; intros H;
    first [reflexivity | discriminate H].
Qed.

Lemma blank_is_space (a : ascii) : one_of " " a = true -> space_char a = true.
Proof.
  destruct a as [[] [] [] [] [] [] [] []]; vm_compute; intros H;
    first [reflexivity | discriminate H].
Qed.

Lemma not_space_any (a : ascii) : space_char a = false -> any_char a = true.
Proof.
  destruct a as [[] [] [] [] [] [] [] []]; vm_compute; intros H;
    first [reflexivity | discriminate H].
Qed.

(** The pattern of a transition wants a word after the leading white
    space: a text whose white space ends before something else is no
    transition. *)
Lemma star_word_fails (name : string) (run rest : string) (re : regex) (gs : groups) :
  all_in space_char run -> starts_outside space_char rest -> starts_outside word_char rest ->
  match_from (star space_char :: group_plus name word_char :: re) (run +:+ rest) gs = None.
Proof.
  intros Hall Hs Hw. cbn [match_from]. apply greedy_run_fails; [exact Hs|].
  intros r1 r2 ->. apply all_in_app in Hall as [_ Hall].
  rewrite greedy_stop; [reflexivity|].
  destruct r2 as [|a r2]; [rewrite append_empty_l; exact Hw|].
  rewrite append_cons. cbn. apply space_not_word, Hall.
Qed.

(** A text the pattern of a transition matches has a comma. *)

Lemma transition_has_comma (data : string) :
  all_in no_comma data -> match_ Parser._transition_re data = None.
Proof.
  intros Hall. destruct (match_ Parser._transition_re data) as [gs|] eqn:E; [|reflexivity].
  exfalso. unfold match_, Parser._transition_re in E. cbn [match_from] in E.
  apply greedy_inv_split in E as (r1 & s1 & -> & _ & E).
  apply all_in_app in Hall as [_ Hall].
  apply greedy_inv_split in E as (r2 & s2 & -> & _ & E).
  apply all_in_app in Hall as [_ Hall].
  destruct (is_empty _); [discriminate E|].
  apply greedy_inv_split in E as (r3 & s3 & -> & _ & E).
  apply all_in_app in Hall as [_ Hall].
  destruct (strip_prefix "," s3) as [s4|] eqn:E4; [|discriminate E].
  apply strip_prefix_inv in E4. subst s3. rewrite append_cons in Hall.
  destruct Hall as [Hc _]. discriminate Hc.
Qed.

End RegexMatchFacts.

Section LineFacts.
Import Re Parser Facts.

Lemma match_from_lit_cons (a : ascii) (text s : string) (re : regex) (gs : groups) :
  match_from (lit (String a text) :: re) (String a s) gs = match_from (lit text :: re) s gs.
Proof. cbn [match_from strip_prefix]. rewrite Ascii.eqb_refl. reflexivity. Qed.

Lemma match_from_lit_nil (s : string) (re : regex) (gs : groups) :
  match_from (lit EmptyString :: re) s gs = match_from re s gs.
Proof. reflexivity. Qed.

Lemma match_from_star_one (c : cls) (a : ascii) (rest : string) (re : regex) (gs r : groups) :
  c a = true -> starts_outside c rest ->
  match_from re rest gs = Some r ->
  match_from (star c :: re) (String a rest) gs = Some r.
Proof.
  intros Ha Hout Hk.
  apply (match_from_star c (String a EmptyString) rest); [split; [exact Ha|exact I]|auto..].
Qed.

Lemma match_from_plus_one (c : cls) (a : ascii) (rest : string) (re : regex) (gs r : groups) :
  c a = true -> starts_outside c rest ->
  match_from re rest gs = Some r ->
  match_from (plus c :: re) (String a rest) gs = Some r.
Proof.
  intros Ha Hout Hk.
  apply (match_from_plus c (String a EmptyString) rest);
    [split; [exact Ha|exact I]|reflexivity|auto..].
Qed.

Lemma match_from_end (s : string) (gs : groups) :
  s = EmptyString -> match_from [star space_char; eol] s gs = Some gs.
Proof. intros ->. reflexivity. Qed.

Lemma is_empty_false (s : string) : s <> EmptyString -> is_empty s = false.
Proof. destruct s; [contradiction|reflexivity]. Qed.

Lemma word_no_comma (a : ascii) : word_char a = true -> no_comma a = true.
Proof.
  destruct a as [[] [] [] [] [] [] [] []]; vm_compute; intros H;
    first [reflexivity | discriminate H].
Qed.

Lemma movement_not_space (a : ascii) :
  one_of (MOVE_LEFT +:+ MOVE_RIGHT +:+ NON_MOVEMENT) a = true -> space_char a = false.
Proof.
  destruct a as [[] [] [] [] [] [] [] []]; vm_compute; intros H;
    first [reflexivity | discriminate H].
Qed.

Ltac lay_out := rewrite ?append_cons, ?append_empty_l.
Ltac take_lit := rewrite ?match_from_lit_cons; rewrite match_from_lit_nil.

(** The groups of a transition laid out as the class describes it. *)
Lemma transition_groups (st ns : string) (sy nsy mv : ascii) :
  all_in word_char st -> st <> EmptyString ->
  all_in word_char ns -> ns <> EmptyString ->
  space_char sy = false -> space_char nsy = false ->
  one_of (MOVE_LEFT +:+ MOVE_RIGHT +:+ NON_MOVEMENT) mv = true ->
  match_ _transition_re
         (st +:+ ", " +:+ String sy (" -> " +:+ ns +:+ ", " +:+ String nsy
                                            (", " +:+ String mv EmptyString)))
  = Some [("movement", String mv EmptyString); ("nsymbol", String nsy EmptyString);
          ("nstate", ns); ("symbol", String sy EmptyString); ("state", st)].
Proof.
  intros Hst Hst0 Hns Hns0 Hsy Hnsy Hmv. unfold match_, _transition_re. lay_out.
  rewrite match_from_star_none
    by (apply (starts_outside_run _ word_char);
        [exact word_not_space|exact Hst|apply is_empty_false, Hst0]).
  apply match_from_group_plus; [exact Hst|apply is_empty_false, Hst0|reflexivity|].
  rewrite match_from_star_none by reflexivity. take_lit.
  apply match_from_star_one; [reflexivity|exact Hsy|].
  rewrite match_from_group_one by (apply not_space_any, Hsy).
  apply match_from_star_one; [reflexivity|reflexivity|]. take_lit.
  apply match_from_star_one;
    [reflexivity
    |apply (starts_outside_run _ word_char);
     [exact word_not_space|exact Hns|apply is_empty_false, Hns0]|].
  apply match_from_group_plus; [exact Hns|apply is_empty_false, Hns0|reflexivity|].
  rewrite match_from_star_none by reflexivity. take_lit.
  apply match_from_star_one; [reflexivity|exact Hnsy|].
  rewrite match_from_group_one by (apply not_space_any, Hnsy).
  rewrite match_from_star_none by reflexivity. take_lit.
  apply match_from_star_one; [reflexivity|apply movement_not_space, Hmv|].
  rewrite match_from_group_one by exact Hmv.
  apply match_from_end. reflexivity.
Qed.

Lemma _parseTransition_match (data : string) (mt : groups)
    (b : Builder.TuringMachineBuilder) :
  match_ _transition_re data = Some mt ->
  _parseTransition data {| _builder := b |}
  = (Return true,
     {| _builder :=
          snd (Builder.addTransition
                 (PStr (group "state" mt)) (PStr (group "symbol" mt))
                 (PStr (group "nstate" mt)) (PStr (group "nsymbol" mt))
                 (if String.eqb (group "movement" mt) MOVE_LEFT then TM.MOVE_LEFT
                  else if String.eqb (group "movement" mt) MOVE_RIGHT then TM.MOVE_RIGHT
                  else TM.NON_MOVEMENT) b) |}).
Proof.
  intros Hm. unfold _parseTransition. rewrite Hm. cbv zeta.
  unfold bind, on_builder. cbn [_builder].
  pose proof (move_legal (group "movement" mt)) as Hmv.
  destruct (addTransition_changes (PStr (group "state" mt)) (PStr (group "symbol" mt))
              (PStr (group "nstate" mt)) (PStr (group "nsymbol" mt)) _ b Hmv) as [Hret _].
  destruct (Builder.addTransition _ _ _ _ _ b) as [r b'] eqn:E. cbn [fst] in Hret. subst r.
  reflexivity.
Qed.

Lemma _parseTransition_no_match (data : string) (p : TuringMachineParser) :
  match_ _transition_re data = None -> _parseTransition data p = (Return false, p).
Proof. intros Hm. unfold _parseTransition. rewrite Hm. reflexivity. Qed.

Lemma _parseComment_no_match (data : string) (p : TuringMachineParser) :
  match_ _comment_line_re data = None -> _parseComment data p = (Return false, p).
Proof. intros Hm. unfold _parseComment. rewrite Hm. reflexivity. Qed.

Lemma keyword_line_no_comma (keyword w : string) :
  all_in no_comma keyword -> all_in word_char w -> all_in no_comma (keyword +:+ w).
Proof.
  intros Hk Hw. apply all_in_app. split; [exact Hk|].
  apply (all_in_mono word_char); [exact word_no_comma|exact Hw].
Qed.

(** The groups of a line that is a keyword, a space and a word, for the
    two patterns of this shape that take a word of any length. *)
Lemma state_line_groups (keyword w : string) :
  all_in word_char keyword -> keyword <> EmptyString ->
  all_in word_char w -> w <> EmptyString ->
  match_ [star (one_of " "); lit keyword; plus (one_of " ");
          group_plus "state" word_char; star space_char; eol]
         (keyword +:+ String " " w)
  = Some [("state", w)].
Proof.
  intros Hk Hk0 Hw Hw0. unfold match_.
  replace (String " " w) with (String " " (w +:+ EmptyString))
    by (rewrite append_empty_r; reflexivity).
  rewrite match_from_star_none
    by (apply (starts_outside_run _ word_char);
        [exact word_not_blank|exact Hk|apply is_empty_false, Hk0]).
  rewrite match_from_lit.
  apply match_from_plus_one;
    [reflexivity
    |apply (starts_outside_run _ word_char);
     [exact word_not_blank|exact Hw|apply is_empty_false, Hw0]|].
  apply match_from_group_plus; [exact Hw|apply is_empty_false, Hw0|exact I|].
  apply match_from_end. reflexivity.
Qed.

Lemma setHaltState_first (q : pyval) (b : Builder.TuringMachineBuilder) :
  Builder._haltstate b = None -> fst (Builder.setHaltState q b) = Return tt.
Proof.
  intros Hh. unfold Builder.setHaltState, bind, get, modify, ret.
  unfold Builder.hasHaltState. rewrite Hh. reflexivity.
Qed.

End LineFacts.

(** X21. A line of spaces, a ['%'] and any text is a comment, whatever the
    text holds, a transition included: [parseLine] returns and the parser
    and its builder are as before. *)
Theorem comment_line_ignored (indent text : string) (p : Parser.TuringMachineParser) :
  Facts.all_in (Re.one_of " ") indent ->
  Parser.parseLine (indent +:+ String "%" text) p = (Return tt, p).
Proof.
  intros Hall.
  assert (Ht : Re.match_ Parser._transition_re (indent +:+ String "%" text) = None).
  { unfold Re.match_, Parser._transition_re. apply star_word_fails; [|reflexivity..].
    apply (all_in_mono (Re.one_of " ")); [exact blank_is_space|exact Hall]. }
  assert (Hc : Re.match_ Parser._comment_line_re (indent +:+ String "%" text) = Some []).
  { unfold Re.match_, Parser._comment_line_re.
    apply match_from_star; [exact Hall|reflexivity|].
    rewrite match_from_lit_cons, match_from_lit_nil. cbn [Re.match_from].
    apply greedy_always. reflexivity. }
  unfold Parser.parseLine, bind. rewrite (_parseTransition_no_match _ _ Ht).
  unfold Parser._parseComment. rewrite Hc. reflexivity.
Qed.

Lemma comment_line_ignored_witness :
  Parser.parseLine "  % 1, 0 -> 2, 1, >" Parser.new = (Return tt, Parser.new).
Proof.
  apply (comment_line_ignored "  " " 1, 0 -> 2, 1, >" Parser.new).
  vm_compute. auto.
Defined.

(** X22. The line of a transition as the class describes it, the states
    words and the symbols single characters that are no white space, is
    read back whole: [parseLine] calls [addTransition] of the builder with
    the two states and the two symbols as strings and the movement the
    last character stands for, and returns. *)
Theorem transition_line_round_trip (st ns : string) (sy nsy mv : ascii)
    (b : Builder.TuringMachineBuilder) :
  Facts.all_in Re.word_char st -> st <> EmptyString ->
  Facts.all_in Re.word_char ns -> ns <> EmptyString ->
  Re.space_char sy = false -> Re.space_char nsy = false ->
  Re.one_of "<>_" mv = true ->
  Parser.parseLine
    (st +:+ ", " +:+ String sy (" -> " +:+ ns +:+ ", " +:+ String nsy
                                       (", " +:+ String mv EmptyString)))
    {| Parser._builder := b |}
  = (Return tt,
     {| Parser._builder :=
          snd (Builder.addTransition
                 (PStr st) (PStr (String sy EmptyString))
                 (PStr ns) (PStr (String nsy EmptyString))
                 (if Ascii.eqb mv "<" then TM.MOVE_LEFT
                  else if Ascii.eqb mv ">" then TM.MOVE_RIGHT
                  else TM.NON_MOVEMENT) b) |}).
Proof.
  intros Hst Hst0 Hns Hns0 Hsy Hnsy Hmv.
  pose proof (transition_groups st ns sy nsy mv Hst Hst0 Hns Hns0 Hsy Hnsy Hmv) as Hm.
  unfold Parser.parseLine, bind. rewrite (_parseTransition_match _ _ b Hm).
  cbv iota. unfold ret. do 3 f_equal.
  cbn [Re.group String.eqb Ascii.eqb Bool.eqb Parser.MOVE_LEFT Parser.MOVE_RIGHT].
  destruct mv as [[] [] [] [] [] [] [] []]; reflexivity.
Qed.

Lemma transition_line_round_trip_witness :
  Parser.parseLine "q0, 1 -> q1, 0, >" Parser.new
  = (Return tt,
     {| Parser._builder :=
          snd (Builder.addTransition (PStr "q0") (PStr "1") (PStr "q1") (PStr "0")
                                     TM.MOVE_RIGHT Builder.new) |}).
Proof.
  apply (transition_line_round_trip "q0" "q1" "1" "0" ">" Builder.new);
    first [discriminate | vm_compute; auto].
Defined.

(** X23. A [FINAL] line takes a word of any length: after the keyword and
    a space, the whole word goes to [addFinalState] of the builder. *)
Theorem final_line_whole_word (w : string) (b : Builder.TuringMachineBuilder) :
  Facts.all_in Re.word_char w -> w <> EmptyString ->
  Parser.parseLine ("FINAL " +:+ w) {| Parser._builder := b |}
  = (Return tt, {| Parser._builder := snd (Builder.addFinalState (PStr w) b) |}).
Proof.
  intros Hw Hw0.
  assert (Ht : Re.match_ Parser._transition_re ("FINAL " +:+ w) = None).
  { apply transition_has_comma, keyword_line_no_comma; [vm_compute; auto 10|exact Hw]. }
  assert (Hc : Re.match_ Parser._comment_line_re ("FINAL " +:+ w) = None) by reflexivity.
  assert (Hf : Re.match_ Parser._final_state_re ("FINAL " +:+ w) = Some [("state", w)]).
  { apply (state_line_groups "FINAL" w); [vm_compute; auto 10|discriminate|assumption..]. }
  unfold Parser.parseLine, bind. rewrite (_parseTransition_no_match _ _ Ht).
  rewrite (_parseComment_no_match _ _ Hc).
  unfold Parser._parseFinalState. rewrite Hf. unfold bind, Parser.on_builder.
  cbn [Parser._builder Re.group String.eqb Ascii.eqb Bool.eqb].
  pose proof (addFinalState_returns (PStr w) b) as Hret.
  destruct (Builder.addFinalState (PStr w) b) as [r b']. cbn [fst] in Hret. subst r.
  reflexivity.
Qed.

Lemma final_line_whole_word_witness :
  Parser.parseLine "FINAL accept" Parser.new
  = (Return tt,
     {| Parser._builder := snd (Builder.addFinalState (PStr "accept") Builder.new) |}).
Proof.
  apply (final_line_whole_word "accept" Builder.new); [vm_compute; auto 10|discriminate].
Defined.

(** X24. A [HALT] line takes a word of any length: on a builder without
    halt state, the whole word after the keyword and a space goes to
    [setHaltState] of the builder. *)
Theorem halt_line_whole_word (w : string) (b : Builder.TuringMachineBuilder) :
  Facts.all_in Re.word_char w -> w <> EmptyString ->
  Builder._haltstate b = None ->
  Parser.parseLine ("HALT " +:+ w) {| Parser._builder := b |}
  = (Return tt, {| Parser._builder := snd (Builder.setHaltState (PStr w) b) |})
  /\ Builder._haltstate (snd (Builder.setHaltState (PStr w) b)) = Some (PStr w).
Proof.
  intros Hw Hw0 Hh.
  assert (Ht : Re.match_ Parser._transition_re ("HALT " +:+ w) = None).
  { apply transition_has_comma, keyword_line_no_comma; [vm_compute; auto 10|exact Hw]. }
  assert (Hc : Re.match_ Parser._comment_line_re ("HALT " +:+ w) = None) by reflexivity.
  assert (Hf : Re.match_ Parser._final_state_re ("HALT " +:+ w) = None) by reflexivity.
  assert (Hi : Re.match_ Parser._inital_state_re ("HALT " +:+ w) = None) by reflexivity.
  assert (Hb : Re.match_ Parser._blank_symbol_re ("HALT " +:+ w) = None) by reflexivity.
  assert (Hm : Re.match_ Parser._halt_state_re ("HALT " +:+ w) = Some [("state", w)]).
  { apply (state_line_groups "HALT" w); [vm_compute; auto 10|discriminate|assumption..]. }
  split.
  - unfold Parser.parseLine, bind. rewrite (_parseTransition_no_match _ _ Ht).
    rewrite (_parseComment_no_match _ _ Hc).
    unfold Parser._parseFinalState, Parser._parseInitialState, Parser._parseBlankSymbol.
    rewrite Hf, Hi, Hb.
    unfold Parser._parseHaltState. rewrite Hm.
    unfold bind, get, ret, raise, Parser.on_builder. unfold Builder.hasHaltState.
    cbv beta iota.
    cbn [Parser._builder Re.group String.eqb Ascii.eqb Bool.eqb]. rewrite Hh.
    cbv beta iota. cbn [Parser._builder].
    pose proof (setHaltState_first (PStr w) b Hh) as Hret.
    destruct (Builder.setHaltState (PStr w) b) as [r b']. cbn [fst] in Hret. subst r.
    reflexivity.
  - unfold Builder.setHaltState, bind, get, modify, ret. unfold Builder.hasHaltState.
    rewrite Hh. reflexivity.
Qed.

Lemma halt_line_whole_word_witness :
  Parser.parseLine "HALT stop" Parser.new
  = (Return tt, {| Parser._builder := snd (Builder.setHaltState (PStr "stop") Builder.new) |}).
Proof.
  apply (halt_line_whole_word "stop" Builder.new); [vm_compute; auto 10|discriminate|reflexivity].
Defined.
